(** * Data-Warehouse-Project: the generator, the loader and the analytics driver

    A shallow embedding of [src/python/generate_data.py],
    [src/python/load_data.py] and [src/python/analytics.py].

    - Python [int] is [Z]; a Python [float] is an element of an arithmetic
      interface [PyFloat] with two instances: IEEE binary64 (what the
      interpreter computes with) and exact rationals (what the formulas mean
      on paper).
    - The global generators [np.random] and [fake] are tapes of draws with a
      read position; every library call that samples consumes one draw, and
      a choice among fewer than two elements samples nothing.
    - Statements sent to the warehouse are numbered; a fault oracle says which
      of them raise.  An exception keeps the state reached so far, as in
      Python.
    - Progress messages written with [print] are left out; the message of the
      [except] handlers of the two [main] functions is kept. *)

From Stdlib Require Import String ZArith QArith Qabs List Bool Lia Lqa FinFun.
From Stdlib Require Import Floats DecimalString.
Import ListNotations.

Local Open Scope Z_scope.

(* ================================================================== *)
(** * The calendar of [datetime] and [pandas.date_range] *)
(* ================================================================== *)

Module Calendar.

Record date := mkDate { d_year : Z; d_month : Z; d_day : Z }.

Definition date_eqb (a b : date) : bool :=
  (d_year a =? d_year b) && (d_month a =? d_month b) && (d_day a =? d_day b).

(** [datetime._is_leap] *)
Definition is_leap (y : Z) : bool :=
  (y mod 4 =? 0) && (negb (y mod 100 =? 0) || (y mod 400 =? 0)).

(** [datetime._DAYS_IN_MONTH] and [_days_in_month] *)
Definition days_in_month (y m : Z) : Z :=
  match m with
  | 1 => 31 | 2 => if is_leap y then 29 else 28 | 3 => 31 | 4 => 30
  | 5 => 31 | 6 => 30 | 7 => 31 | 8 => 31 | 9 => 30 | 10 => 31
  | 11 => 30 | 12 => 31 | _ => 0
  end.

(** [datetime._days_before_year]: days before January 1st of year [y]. *)
Definition days_before_year (y : Z) : Z :=
  let y1 := y - 1 in y1 * 365 + y1 / 4 - y1 / 100 + y1 / 400.

(** [datetime._DAYS_BEFORE_MONTH], for a common year. *)
Definition days_before_month_common (m : Z) : Z :=
  match m with
  | 1 => 0 | 2 => 31 | 3 => 59 | 4 => 90 | 5 => 120 | 6 => 151
  | 7 => 181 | 8 => 212 | 9 => 243 | 10 => 273 | 11 => 304 | 12 => 334
  | _ => 0
  end.

(** [datetime._days_before_month] *)
Definition days_before_month (y m : Z) : Z :=
  days_before_month_common m + (if (2 <? m) && is_leap y then 1 else 0).

(** [datetime._ymd2ord]: 0001-01-01 is day 1. *)
Definition ymd2ord (d : date) : Z :=
  days_before_year (d_year d) + days_before_month (d_year d) (d_month d) + d_day d.

Definition DI400Y : Z := 146097.
Definition DI100Y : Z := 36524.
Definition DI4Y : Z := 1461.

(** [datetime._ord2ymd] *)
Definition ord2ymd (n0 : Z) : date :=
  let n := n0 - 1 in
  let n400 := n / DI400Y in
  let n := n mod DI400Y in
  let year := n400 * 400 + 1 in
  let n100 := n / DI100Y in
  let n := n mod DI100Y in
  let n4 := n / DI4Y in
  let n := n mod DI4Y in
  let n1 := n / 365 in
  let n := n mod 365 in
  let year := year + n100 * 100 + n4 * 4 + n1 in
  if (n1 =? 4) || (n100 =? 4) then mkDate (year - 1) 12 31
  else
    let leapyear := (n1 =? 3) && (negb (n4 =? 24) || (n100 =? 3)) in
    let month := Z.shiftr (n + 50) 5 in
    let preceding :=
      days_before_month_common month + (if (2 <? month) && leapyear then 1 else 0) in
    if n <? preceding then
      let month' := month - 1 in
      let dim :=
        match month' with
        | 2 => if leapyear then 29 else 28
        | _ => days_in_month 1 month'
        end in
      mkDate year month' (n - (preceding - dim) + 1)
    else mkDate year month (n - preceding + 1).

(** [date.weekday()]: Monday is 0, Sunday is 6; pandas' [dayofweek]. *)
Definition weekday (d : date) : Z := (ymd2ord d + 6) mod 7.

(** [datetime._isoweek1monday] *)
Definition isoweek1monday (year : Z) : Z :=
  let firstday := ymd2ord (mkDate year 1 1) in
  let firstweekday := (firstday + 6) mod 7 in
  let week1monday := firstday - firstweekday in
  if 3 <? firstweekday then week1monday + 7 else week1monday.

(** The week component of [date.isocalendar()]. *)
Definition iso_week (d : date) : Z :=
  let today := ymd2ord d in
  let week := (today - isoweek1monday (d_year d)) / 7 in
  if week <? 0 then (today - isoweek1monday (d_year d - 1)) / 7 + 1
  else if (52 <=? week) && (isoweek1monday (d_year d + 1) <=? today) then 1
  else week + 1.

(** [date + timedelta(days=k)] *)
Definition add_days (d : date) (k : Z) : date := ord2ymd (ymd2ord d + k).

(** [pd.date_range(start=, end=, freq='D')]: start, start + 1 day, ... up to
    and including [end]; empty when [end] is before [start]. *)
Definition date_range (start_date end_date : date) : list date :=
  map (fun i => add_days start_date (Z.of_nat i))
      (seq 0 (Z.to_nat (ymd2ord end_date - ymd2ord start_date + 1))).

(** A triple names a day of the calendar. *)
Definition valid_date (d : date) : bool :=
  (1 <=? d_year d) && (1 <=? d_month d) && (d_month d <=? 12)
  && (1 <=? d_day d) && (d_day d <=? days_in_month (d_year d) (d_month d)).

(** Lexicographic order on year, month, day. *)
Definition date_leb (a b : date) : bool :=
  (d_year a <? d_year b)
  || ((d_year a =? d_year b)
      && ((d_month a <? d_month b)
          || ((d_month a =? d_month b) && (d_day a <=? d_day b)))).

Definition zrange (lo hi : Z) : list Z :=
  map (fun i => lo + Z.of_nat i) (seq 0 (Z.to_nat (hi - lo + 1))).

(** Every day of the calendar from [a] to [b] inclusive, read off month
    lengths: the reference against which [date_range] is compared. *)
Definition calendar_days (a b : date) : list date :=
  filter (fun d => valid_date d && date_leb a d && date_leb d b)
    (flat_map (fun y => flat_map (fun m => map (fun d => mkDate y m d) (zrange 1 31))
                                 (zrange 1 12))
              (zrange (d_year a) (d_year b))).

End Calendar.

(* ================================================================== *)
(** * generate_data.py: the date dimension *)
(* ================================================================== *)

Module DateDim.
Import Calendar.

(** One row of [data/date_dimension.csv], columns in file order. *)
Record DateRow := mkDateRow {
  date_value : date;
  year : Z;
  quarter : Z;
  month : Z;
  day : Z;
  day_of_week : Z;
  week_of_year : Z;
  is_weekend : bool
}.

Definition start_date : date := mkDate 2023 1 1.
Definition end_date : date := mkDate 2024 12 31.

Definition date_row (d : date) : DateRow :=
  {| date_value := d;
     year := d_year d;
     quarter := (d_month d - 1) / 3 + 1;
     month := d_month d;
     day := d_day d;
     day_of_week := weekday d + 1;
     week_of_year := iso_week d;
     is_weekend := 5 <=? weekday d |}.

(** The data frame built by [generate_date_dimension]. *)
Definition date_frame (a b : date) : list DateRow := map date_row (date_range a b).

Definition generate_date_dimension_rows : list DateRow := date_frame start_date end_date.

End DateDim.

(* ================================================================== *)
(** * Python control flow: state, exceptions, loops *)
(* ================================================================== *)

Module Py.

Inductive exn :=
| ValueError                    (* sampling from an empty sequence *)
| TypeError                     (* subscripting [None] *)
| FileNotFoundError             (* [pd.read_csv] on a missing file *)
| DatabaseError (stmt : nat).   (* psycopg2 error at statement number [stmt] *)

Inductive result (A : Type) := Ok (a : A) | Raise (e : exn).
Arguments Ok {A} a.
Arguments Raise {A} e.

(** A computation reads and updates a state and returns or raises; the state
    reached when an exception is raised is kept. *)
Definition M (S A : Type) : Type := S -> result A * S.

Definition ret {S A} (a : A) : M S A := fun s => (Ok a, s).

Definition bind {S A B} (m : M S A) (k : A -> M S B) : M S B :=
  fun s => match m s with
           | (Ok a, s') => k a s'
           | (Raise e, s') => (Raise e, s')
           end.

Definition raise {S A} (e : exn) : M S A := fun s => (Raise e, s).
Definition gets {S A} (f : S -> A) : M S A := fun s => (Ok (f s), s).
Definition modify {S} (f : S -> S) : M S unit := fun s => (Ok tt, f s).

(** [try: body except Exception as e: handler(e)] *)
Definition try_except {S A} (body : M S A) (handler : exn -> M S A) : M S A :=
  fun s => match body s with
           | (Ok a, s') => (Ok a, s')
           | (Raise e, s') => handler e s'
           end.

(** [for x in xs: body(x)] *)
Fixpoint for_each {S A} (xs : list A) (body : A -> M S unit) : M S unit :=
  match xs with
  | [] => ret tt
  | x :: rest => bind (body x) (fun _ => for_each rest body)
  end.

(** A loop whose body updates a local variable [acc]. *)
Fixpoint for_fold {S A B} (xs : list A) (body : A -> B -> M S B) (acc : B)
  : M S B :=
  match xs with
  | [] => ret acc
  | x :: rest => bind (body x acc) (fun acc' => for_fold rest body acc')
  end.

(** [range(start, stop, step)] for a positive step. *)
Definition py_range (start stop step : Z) : list Z :=
  map (fun i => start + Z.of_nat i * step)
      (seq 0 (Z.to_nat ((stop - start + step - 1) / step))).

End Py.

Declare Scope py_scope.
Notation "x <- c1 ;; c2" := (Py.bind c1 (fun x => c2))
  (at level 61, c1 at next level, right associativity) : py_scope.
Notation "c1 ;; c2" := (Py.bind c1 (fun _ => c2))
  (at level 61, right associativity) : py_scope.
Local Open Scope py_scope.

(* ================================================================== *)
(** * Random sources *)
(* ================================================================== *)

Module Random.
Import Py.

(** A generator is a tape of draws and a read position.  Seeding a generator
    fixes the tape; an unseeded one starts from a tape chosen by the
    operating system. *)
Record RNG := mkRNG { tape : nat -> nat; pos : nat }.

Definition draw (g : RNG) : nat * RNG :=
  (tape g (pos g), mkRNG (tape g) (S (pos g))).

(** [np.random.choice(xs)]: raises on an empty sequence before drawing, and
    returns the element of a sequence of one without drawing (the index is
    sampled from a range of one value, which leaves the generator as it is).
    The calls with weights [p=] always draw; all of them are made on the
    four-element lists of the scripts. *)
Definition choice {A} (xs : list A) : M RNG A :=
  fun g => match xs with
           | [] => (Raise ValueError, g)
           | [x] => (Ok x, g)
           | x :: _ =>
               let (r, g') := draw g in
               (Ok (nth (r mod List.length xs)%nat xs x), g')
           end.

(** [np.random.randint(low, high)]: an integer in [low, high). *)
Definition randint (low high : Z) : M RNG Z :=
  fun g => if low <? high
           then let (r, g') := draw g in (Ok (low + Z.of_nat r mod (high - low)), g')
           else (Raise ValueError, g).

End Random.

(* ================================================================== *)
(** * Python floats *)
(* ================================================================== *)

(** The operations the scripts use on floats.  [round2 x] is [round(x, 2)];
    [of_int] is the coercion of [float * int]; [of_decimal m s] is the float
    written [m * 10^-s] in the source text; [unit_sample r] is the value in
    [0, 1) that [random_sample] makes of a draw: its low 53 bits over [2^53]. *)
Class PyFloat := {
  num : Type;
  fadd : num -> num -> num;
  fsub : num -> num -> num;
  fmul : num -> num -> num;
  round2 : num -> num;
  of_int : Z -> num;
  of_decimal : Z -> nat -> num;
  unit_sample : nat -> num
}.

(** Round to the nearest integer, ties to even, of [a / b] for [b > 0]. *)
Definition rne_div (a b : Z) : Z :=
  let q := a / b in
  match 2 * (a mod b) ?= b with
  | Lt => q
  | Gt => q + 1
  | Eq => if Z.even q then q else q + 1
  end.

Module Exact.

(** Exact rational arithmetic with round-half-to-even at the second decimal. *)
Definition cents (x : Q) : Z := rne_div (Qnum x * 100) (Zpos (Qden x)).
Definition q_round2 (x : Q) : Q := cents x # 100.
Definition q_of_decimal (m : Z) (s : nat) : Q := m # (Pos.pow 10 (Pos.of_nat s)).

#[export] Instance exact : PyFloat := {|
  num := Q;
  fadd := Qplus;
  fsub := Qminus;
  fmul := Qmult;
  round2 := q_round2;
  of_int := inject_Z;
  of_decimal := fun m s => match s with O => inject_Z m | _ => q_of_decimal m s end;
  unit_sample := fun r => Z.land (Z.of_nat r) (Z.ones 53) # (2 ^ 53)
|}.

End Exact.

Module Binary64.

(** Nearest double of an integer, ties to even. *)
Definition b64_of_int (z : Z) : float := SF2Prim (binary_normalize prec emax z 0 false).

(** The value of a finite double as [m * 2^e]. *)
Definition exact_value (x : float) : option (Z * Z) :=
  match Prim2SF x with
  | S754_zero _ => Some (0, 0)
  | S754_finite s m e => Some (if s then Zneg m else Zpos m, e)
  | _ => None
  end.

(** [m * 2^e] rounded to an integer, ties to even. *)
Definition rint_exact (m e : Z) : Z :=
  if 0 <=? e then m * 2 ^ e else rne_div m (2 ^ (- e)).

(** [numpy.rint] *)
Definition rint (x : float) : float :=
  match exact_value x with
  | Some (m, e) => b64_of_int (rint_exact m e)
  | None => x
  end.

(** [round(x, 2)] on a [numpy.float64]: scale by 100, [rint], scale back. *)
Definition round2_numpy (x : float) : float :=
  PrimFloat.div (rint (PrimFloat.mul x (b64_of_int 100))) (b64_of_int 100).

(** [round(x, 2)] on a built-in [float]: the exact value of [x] rounded to two
    decimals, ties to even, then the nearest double of that decimal. *)
Definition round2_builtin (x : float) : float :=
  match exact_value x with
  | Some (m, e) => PrimFloat.div (b64_of_int (rint_exact (m * 100) e)) (b64_of_int 100)
  | None => x
  end.

(** Exact for mantissas below [2^53] and at most 22 decimals, which covers
    every literal of the scripts. *)
Definition b64_of_decimal (m : Z) (s : nat) : float :=
  PrimFloat.div (b64_of_int m) (b64_of_int (10 ^ Z.of_nat s)).

Definition b64_unit_sample (r : nat) : float :=
  Z.ldexp (b64_of_int (Z.land (Z.of_nat r) (Z.ones 53))) (-53).

(** binary64 with numpy's scalar rounding (the product
    [total_before_discount * discount_pct] is a [numpy.float64]). *)
Definition numpy : PyFloat := {|
  num := float;
  fadd := PrimFloat.add;
  fsub := PrimFloat.sub;
  fmul := PrimFloat.mul;
  round2 := round2_numpy;
  of_int := b64_of_int;
  of_decimal := b64_of_decimal;
  unit_sample := b64_unit_sample
|}.

(** binary64 with the built-in rounding of [float]. *)
Definition builtin : PyFloat := {|
  num := float;
  fadd := PrimFloat.add;
  fsub := PrimFloat.sub;
  fmul := PrimFloat.mul;
  round2 := round2_builtin;
  of_int := b64_of_int;
  of_decimal := b64_of_decimal;
  unit_sample := b64_unit_sample
|}.

End Binary64.

(* ================================================================== *)
(** * generate_data.py *)
(* ================================================================== *)

Module Generate.
Import Py Random Calendar DateDim.

(** One row of [data/customers.csv], columns in file order. *)
Record CustomerRow := mkCustomer {
  first_name : string;
  last_name : string;
  email : string;
  phone : string;
  city : string;
  state : string;
  country : string;
  customer_segment : string;
  registration_date : date
}.

(** One row of [data/products.csv], columns in file order. *)
Record ProductRow {F : PyFloat} := mkProduct {
  product_name : string;
  category : string;
  subcategory : string;
  brand : string;
  price : num;
  cost : num
}.
Arguments ProductRow F : clear implicits.
Arguments mkProduct {F} _ _ _ _ _ _.

(** What Faker's providers make of a draw; their word lists belong to the
    library. *)
Record Provider := mkProvider {
  first_name_of : nat -> string;
  last_name_of : nat -> string;
  email_of : nat -> string;
  phone_number_of : nat -> string;
  city_of : nat -> string;
  state_abbr_of : nat -> string
}.

(** The three files under [data/]; [None] is a file that does not exist. *)
Record Files {F : PyFloat} := mkFiles {
  date_dimension_csv : option (list DateRow);
  customers_csv : option (list CustomerRow);
  products_csv : option (list (ProductRow F))
}.
Arguments Files F : clear implicits.
Arguments mkFiles {F} _ _ _.

(** The process state of the generator script: the two global random
    sources, the system date and the files. *)
Record World {F : PyFloat} := mkWorld {
  np_random : RNG;
  fake : RNG;
  today : date;
  files : Files F
}.
Arguments World F : clear implicits.
Arguments mkWorld {F} _ _ _ _.

Section WithFloat.
Context {F : PyFloat}.

Definition set_np_random (g : RNG) (w : World F) : World F :=
  mkWorld g (fake w) (today w) (files w).
Definition set_fake (g : RNG) (w : World F) : World F :=
  mkWorld (np_random w) g (today w) (files w).
Definition set_files (fs : Files F) (w : World F) : World F :=
  mkWorld (np_random w) (fake w) (today w) fs.

(** [df.to_csv(path, index=False)] *)
Definition write_dates (rows : list DateRow) (w : World F) : World F :=
  set_files (mkFiles (Some rows) (customers_csv (files w)) (products_csv (files w))) w.
Definition write_customers (rows : list CustomerRow) (w : World F) : World F :=
  set_files (mkFiles (date_dimension_csv (files w)) (Some rows) (products_csv (files w))) w.
Definition write_products (rows : list (ProductRow F)) (w : World F) : World F :=
  set_files (mkFiles (date_dimension_csv (files w)) (customers_csv (files w)) (Some rows)) w.

(** A call into [np.random]. *)
Definition np {A} (m : M RNG A) : M (World F) A :=
  fun w => let (r, g) := m (np_random w) in (r, set_np_random g w).

(** A call of a Faker provider. *)
Definition faker {A} (f : nat -> A) : M (World F) A :=
  fun w => let (r, g) := draw (fake w) in (Ok (f r), set_fake g w).

(** [fake.date_between(start_date='-1y', end_date='today')]: Faker reads
    ['-1y'] as 365.24 days, and a date minus that many days is the date 366
    days back; the result is a day from there up to the system date. *)
Definition date_between_last_year : M (World F) date :=
  fun w => let (r, g) := draw (fake w) in
           (Ok (add_days (today w) (Z.of_nat r mod 367 - 366)), set_fake g w).

(** [np.random.uniform(low, high)] *)
Definition uniform (low high : num) : M (World F) num :=
  fun w => let (r, g) := draw (np_random w) in
           (Ok (fadd low (fmul (fsub high low) (unit_sample r))), set_np_random g w).

Definition generate_date_dimension : M (World F) (list DateRow) :=
  let df := date_frame start_date end_date in
  modify (write_dates df) ;;
  ret df.

Definition customer_segments : list string :=
  ["Premium"; "Standard"; "Basic"; "VIP"]%string.

(** [s[:n]] *)
Definition prefix (n : nat) (s : string) : string := substring 0 n s.

Definition customer (P : Provider) : M (World F) CustomerRow :=
  fn <- faker (first_name_of P) ;;
  ln <- faker (last_name_of P) ;;
  em <- faker (email_of P) ;;
  ph <- faker (phone_number_of P) ;;
  ci <- faker (city_of P) ;;
  st <- faker (state_abbr_of P) ;;
  seg <- np (choice customer_segments) ;;
  reg <- date_between_last_year ;;
  ret (mkCustomer fn ln em (prefix 20 ph) ci st "USA"%string seg reg).

Definition generate_customers (P : Provider) (num_customers : Z)
  : M (World F) (list CustomerRow) :=
  let batch_size := 1000 in
  customers_list <-
    for_fold (py_range 0 num_customers batch_size)
      (fun batch customers_list =>
         let batch_end := Z.min (batch + batch_size) num_customers in
         batch_customers <-
           for_fold (py_range batch batch_end 1)
             (fun _ batch_customers =>
                c <- customer P ;; ret (batch_customers ++ [c]))
             [] ;;
         ret (customers_list ++ batch_customers))
      [] ;;
  modify (write_customers customers_list) ;;
  ret customers_list.

Definition categories : list (string * list string) :=
  [ ("Electronics", ["Smartphones"; "Laptops"; "Headphones"]);
    ("Clothing", ["Shirts"; "Pants"; "Shoes"]);
    ("Home", ["Furniture"; "Appliances"; "Decor"]);
    ("Books", ["Fiction"; "Non-Fiction"; "Educational"]);
    ("Sports", ["Equipment"; "Apparel"; "Accessories"]) ]%string.

Definition brands : list string := ["BrandA"; "BrandB"; "BrandC"; "Generic"]%string.

(** [d[k]] for a key of [d]; the empty list otherwise. *)
Definition item (d : list (string * list string)) (k : string) : list string :=
  match find (fun kv => String.eqb (fst kv) k) d with
  | Some kv => snd kv
  | None => []
  end.

(** [str(i)] *)
Definition str (i : Z) : string := DecimalString.NilZero.string_of_int (Z.to_int i).

Definition product (i : Z) : M (World F) (ProductRow F) :=
  cat <- np (choice (map fst categories)) ;;
  sub <- np (choice (item categories cat)) ;;
  br <- np (choice brands) ;;
  u <- uniform (of_int 10) (of_int 200) ;;
  let cost := round2 u in
  m <- uniform (of_decimal 15 1) (of_decimal 25 1) ;;
  let price := round2 (fmul cost m) in
  ret (mkProduct (br ++ " " ++ sub ++ " " ++ str (i + 1))%string cat sub br price cost).

Definition generate_products (num_products : Z) : M (World F) (list (ProductRow F)) :=
  products <-
    for_fold (py_range 0 num_products 1)
      (fun i products => p <- product i ;; ret (products ++ [p]))
      [] ;;
  modify (write_products products) ;;
  ret products.

(** The script run as a program. *)
Definition main (P : Provider) : M (World F) unit :=
  generate_date_dimension ;;
  generate_customers P 5000 ;;
  generate_products 500 ;;
  ret tt.

End WithFloat.
End Generate.

(* ================================================================== *)
(** * load_data.py *)
(* ================================================================== *)

Module Load.
Import Py Random Calendar DateDim.

(** One row of [sales_transactions], columns in the order of the INSERT. *)
Record FactRow {F : PyFloat} := mkFact {
  customer_id : Z;
  product_id : Z;
  date_id : Z;
  quantity : Z;
  unit_price : num;
  total_amount : num;
  discount_amount : num
}.
Arguments FactRow F : clear implicits.
Arguments mkFact {F} _ _ _ _ _ _ _.

(** The warehouse: each dimension row with its surrogate key. *)
Record Tables {F : PyFloat} := mkTables {
  date_dimension : list (Z * DateRow);
  customers : list (Z * Generate.CustomerRow);
  products : list (Z * Generate.ProductRow F);
  sales_transactions : list (FactRow F)
}.
Arguments Tables F : clear implicits.
Arguments mkTables {F} _ _ _ _.

Inductive Table := DateDimension | Customers | Products.

(** Writes and transaction control seen by the server, with their outcome. *)
Inductive Event {F : PyFloat} :=
| Insert (t : Table) (ok : bool)
| ExecuteMany (rows : list (FactRow F)) (ok : bool)
| Commit (ok : bool)
| Rollback.
Arguments Event F : clear implicits.

Inductive Msg :=
| ErrorDuringDataLoading (e : exn)
| DataLoadingCompleted.

(** The process and the store.  [committed] is what the warehouse durably
    holds, [view] what the open connection sees, [in_txn] whether the
    connection has a transaction open.  [next_key] are the sequences of the
    surrogate keys; they are not transactional.  [fault k] says that the
    [k]-th call that reaches the server raises. *)
Record World {F : PyFloat} := mkWorld {
  files : Generate.Files F;
  committed : Tables F;
  view : Tables F;
  in_txn : bool;
  next_key : Table -> Z;
  np_random : RNG;
  fault : nat -> bool;
  clock : nat;
  log : list (Event F);
  stdout : list Msg
}.
Arguments World F : clear implicits.
Arguments mkWorld {F} _ _ _ _ _ _ _ _ _ _.

Section WithFloat.
Context {F : PyFloat}.

Definition set_committed (t : Tables F) (w : World F) : World F :=
  mkWorld (files w) t (view w) (in_txn w) (next_key w) (np_random w)
          (fault w) (clock w) (log w) (stdout w).
Definition set_view (t : Tables F) (w : World F) : World F :=
  mkWorld (files w) (committed w) t (in_txn w) (next_key w) (np_random w)
          (fault w) (clock w) (log w) (stdout w).
Definition set_in_txn (b : bool) (w : World F) : World F :=
  mkWorld (files w) (committed w) (view w) b (next_key w) (np_random w)
          (fault w) (clock w) (log w) (stdout w).
Definition set_next_key (f : Table -> Z) (w : World F) : World F :=
  mkWorld (files w) (committed w) (view w) (in_txn w) f (np_random w)
          (fault w) (clock w) (log w) (stdout w).
Definition set_np_random (g : RNG) (w : World F) : World F :=
  mkWorld (files w) (committed w) (view w) (in_txn w) (next_key w) g
          (fault w) (clock w) (log w) (stdout w).
Definition set_clock (k : nat) (w : World F) : World F :=
  mkWorld (files w) (committed w) (view w) (in_txn w) (next_key w) (np_random w)
          (fault w) k (log w) (stdout w).
Definition add_log (e : Event F) (w : World F) : World F :=
  mkWorld (files w) (committed w) (view w) (in_txn w) (next_key w) (np_random w)
          (fault w) (clock w) (log w ++ [e]) (stdout w).
Definition print (m : Msg) : M (World F) unit :=
  modify (fun w =>
    mkWorld (files w) (committed w) (view w) (in_txn w) (next_key w) (np_random w)
            (fault w) (clock w) (log w) (stdout w ++ [m])).

Definition table_eqb (a b : Table) : bool :=
  match a, b with
  | DateDimension, DateDimension | Customers, Customers | Products, Products => true
  | _, _ => false
  end.

(** A call into [np.random]. *)
Definition np {A} (m : M RNG A) : M (World F) A :=
  fun w => let (r, g) := m (np_random w) in (r, set_np_random g w).

(** One round trip to the server: it takes the next statement number and
    raises when the oracle says so. *)
Definition send : M (World F) unit :=
  fun w => let k := clock w in
           if fault w k then (Raise (DatabaseError k), set_clock (S k) w)
           else (Ok tt, set_clock (S k) w).

(** Record an attempted write or commit together with its outcome. *)
Definition logged {A} (ev : bool -> Event F) (m : M (World F) A) : M (World F) A :=
  fun w => match m w with
           | (Ok a, w') => (Ok a, add_log (ev true) w')
           | (Raise e, w') => (Raise e, add_log (ev false) w')
           end.

(** [psycopg2.connect]: a fresh connection sees the
    committed tables and has no transaction open. *)
Definition get_connection : M (World F) unit :=
  send ;;
  modify (fun w => set_in_txn false (set_view (committed w) w)).

(** [cursor.execute(sql, args)]: the first statement opens a transaction. *)
Definition execute : M (World F) unit :=
  modify (set_in_txn true) ;; send.

(** [conn.commit()]: nothing is sent when no transaction is open. *)
Definition commit : M (World F) unit :=
  fun w => if in_txn w
           then logged Commit
                  (send ;; modify (fun w => set_in_txn false (set_committed (view w) w))) w
           else (Ok tt, w).

(** [conn.rollback()] *)
Definition rollback : M (World F) unit :=
  fun w => if in_txn w
           then (Ok tt, add_log Rollback (set_in_txn false (set_view (committed w) w)))
           else (Ok tt, w).

(** [with self.get_connection() as conn: body]: the connection commits when
    the block ends normally and rolls back when it ends with an exception,
    which then propagates. *)
Definition with_connection {A} (body : M (World F) A) : M (World F) A :=
  get_connection ;;
  (fun w => match body w with
            | (Ok a, w') => (commit ;; ret a) w'
            | (Raise e, w') => (rollback ;; raise e) w'
            end).

(** [pd.read_csv(path)] *)
Definition read_csv {A} (f : Generate.Files F -> option (list A)) : M (World F) (list A) :=
  fun w => match f (files w) with
           | Some rows => (Ok rows, w)
           | None => (Raise FileNotFoundError, w)
           end.

(** The store takes the key of a new row from the table's sequence. *)
Definition take_key (t : Table) : M (World F) Z :=
  fun w => let k := next_key w t in
           (Ok k, set_next_key (fun t' => if table_eqb t' t then k + 1 else next_key w t') w).

Definition insert_date (row : DateRow) : M (World F) unit :=
  logged (Insert DateDimension)
    (execute ;;
     k <- take_key DateDimension ;;
     modify (fun w =>
       let v := view w in
       set_view (mkTables (date_dimension v ++ [(k, row)]) (customers v)
                          (products v) (sales_transactions v)) w)).

Definition insert_customer (row : Generate.CustomerRow) : M (World F) unit :=
  logged (Insert Customers)
    (execute ;;
     k <- take_key Customers ;;
     modify (fun w =>
       let v := view w in
       set_view (mkTables (date_dimension v) (customers v ++ [(k, row)])
                          (products v) (sales_transactions v)) w)).

Definition insert_product (row : Generate.ProductRow F) : M (World F) unit :=
  logged (Insert Products)
    (execute ;;
     k <- take_key Products ;;
     modify (fun w =>
       let v := view w in
       set_view (mkTables (date_dimension v) (customers v)
                          (products v ++ [(k, row)]) (sales_transactions v)) w)).

Definition load_dimension_tables : M (World F) unit :=
  with_connection
    (dates_df <- read_csv Generate.date_dimension_csv ;;
     for_each dates_df insert_date ;;
     customers_df <- read_csv Generate.customers_csv ;;
     for_each customers_df insert_customer ;;
     products_df <- read_csv Generate.products_csv ;;
     for_each products_df insert_product ;;
     commit).

(** [cursor.execute("SELECT ...")] followed by a fetch. *)
Definition select {A} (q : Tables F -> A) : M (World F) A :=
  execute ;; gets (fun w => q (view w)).

(** [cursor.fetchone()] after [SELECT price FROM products WHERE product_id = %s] *)
Definition price_of (pid : Z) (t : Tables F) : option num :=
  option_map (fun r => Generate.price (snd r))
             (find (fun r => fst r =? pid) (products t)).

(** [row[0]] on the result of [fetchone()], which is [None] without a match. *)
Definition first_column {A} (row : option A) : M (World F) A :=
  match row with
  | Some a => ret a
  | None => raise TypeError
  end.

(** [cursor.executemany(INSERT ..., batch_transactions)] *)
Definition executemany (rows : list (FactRow F)) : M (World F) unit :=
  logged (ExecuteMany rows)
    (execute ;;
     modify (fun w =>
       let v := view w in
       set_view (mkTables (date_dimension v) (customers v) (products v)
                          (sales_transactions v ++ rows)) w)).

Definition discounts : list num :=
  [of_decimal 0 0; of_decimal 5 2; of_decimal 10 2; of_decimal 15 2].

(** The body of the inner loop: one fact row.  The price column is read as
    the number it holds, so [float(unit_price)] is that number. *)
Definition transaction (customer_ids product_ids date_ids : list Z) : M (World F) (FactRow F) :=
  customer_id <- np (choice customer_ids) ;;
  product_id <- np (choice product_ids) ;;
  date_id <- np (choice date_ids) ;;
  row <- select (price_of product_id) ;;
  unit_price <- first_column row ;;
  quantity <- np (randint 1 6) ;;
  discount_pct <- np (choice discounts) ;;
  let total_before_discount := fmul unit_price (of_int quantity) in
  let discount_amount := round2 (fmul total_before_discount discount_pct) in
  let total_amount := round2 (fsub total_before_discount discount_amount) in
  ret (mkFact customer_id product_id date_id quantity
              unit_price total_amount discount_amount).

Definition batch_size : Z := 5000.

(** The body of the outer loop: generate, insert and commit one batch. *)
Definition load_batch (customer_ids product_ids date_ids : list Z)
    (num_transactions batch : Z) : M (World F) unit :=
  let batch_end := Z.min (batch + batch_size) num_transactions in
  batch_transactions <-
    for_fold (py_range batch batch_end 1)
      (fun _ batch_transactions =>
         t <- transaction customer_ids product_ids date_ids ;;
         ret (batch_transactions ++ [t]))
      [] ;;
  executemany batch_transactions ;;
  commit.

Definition generate_and_load_transactions (num_transactions : Z) : M (World F) unit :=
  with_connection
    (customer_ids <- select (fun t => map fst (customers t)) ;;
     product_ids <- select (fun t => map fst (products t)) ;;
     date_ids <- select (fun t => map fst (date_dimension t)) ;;
     for_each (py_range 0 num_transactions batch_size)
       (load_batch customer_ids product_ids date_ids num_transactions)).

(** Four counts and one sample join, all of them only read. *)
Definition verify_data_load : M (World F) unit :=
  with_connection
    (for_each [1; 2; 3; 4] (fun _ => execute) ;;
     execute).

Definition main : M (World F) unit :=
  try_except
    (load_dimension_tables ;;
     generate_and_load_transactions 85000 ;;
     verify_data_load ;;
     print DataLoadingCompleted)
    (fun e => print (ErrorDuringDataLoading e)).

End WithFloat.
End Load.

(* ================================================================== *)
(** * analytics.py *)
(* ================================================================== *)

Module Analytics.
Import Py.

Inductive Report :=
| SalesByMonth
| TopCustomers (limit : Z)
| ProductPerformance (limit : Z)
| SalesByCategory
| CustomerSegmentAnalysis
| WeekendVsWeekdaySales.

Inductive Line :=
| Banner
| Header (r : Report)
| Frame (r : Report)
| AnalyticsCompleted
| ErrorRunningAnalytics (e : exn).

(** [query_error r] is the exception [pd.read_sql] raises for the query of
    report [r], if it does. *)
Record World := mkWorld {
  query_error : Report -> option exn;
  stdout : list Line
}.

Definition print (l : Line) : M World unit :=
  modify (fun w => mkWorld (query_error w) (stdout w ++ [l])).

(** [pd.read_sql(query, self.get_connection())] *)
Definition read_sql (r : Report) : M World unit :=
  fun w => match query_error w r with
           | Some e => (Raise e, w)
           | None => (Ok tt, w)
           end.

(** Every report prints its title, runs its query and prints the frame. *)
Definition report (r : Report) : M World unit :=
  print (Header r) ;; read_sql r ;; print (Frame r).

Definition sales_by_month := report SalesByMonth.
Definition top_customers (limit : Z) := report (TopCustomers limit).
Definition product_performance (limit : Z) := report (ProductPerformance limit).
Definition sales_by_category := report SalesByCategory.
Definition customer_segment_analysis := report CustomerSegmentAnalysis.
Definition weekend_vs_weekday_sales := report WeekendVsWeekdaySales.

Definition main : M World unit :=
  print Banner ;;
  try_except
    (sales_by_month ;;
     top_customers 10 ;;
     product_performance 10 ;;
     sales_by_category ;;
     customer_segment_analysis ;;
     weekend_vs_weekday_sales ;;
     print AnalyticsCompleted)
    (fun e => print (ErrorRunningAnalytics e)).

(** The reports in the order [main] runs them. *)
Definition battery : list Report :=
  [SalesByMonth; TopCustomers 10; ProductPerformance 10; SalesByCategory;
   CustomerSegmentAnalysis; WeekendVsWeekdaySales].

End Analytics.

(* ================================================================== *)
(** * Predicates used in the statements *)
(* ================================================================== *)

Module Checks.
Import Calendar DateDim.

(** The rows checked one by one against their position [i]: the day is [i]
    days after the start, and its number is that of a week which has its
    Monday on 2023-01-02. *)
Definition row_at_position (i : nat) (r : DateRow) : bool :=
  (ymd2ord (date_value r) =? ymd2ord start_date + Z.of_nat i)
  && (day_of_week r =? (Z.of_nat i + 6) mod 7 + 1)
  && (year r =? d_year (date_value r))
  && (month r =? d_month (date_value r))
  && (day r =? d_day (date_value r))
  && valid_date (date_value r).

Fixpoint check_positions (i : nat) (rows : list DateRow) : bool :=
  match rows with
  | [] => true
  | r :: rest => row_at_position i r && check_positions (S i) rest
  end.

(** Two generators in the same state: same position on tapes that hold the
    same draws. *)
Definition same_rng (g1 g2 : Random.RNG) : Prop :=
  Random.pos g1 = Random.pos g2 /\ forall i, Random.tape g1 i = Random.tape g2 i.

(** Two runs of the generator script that start from random sources in the
    same state on the same day; the files may differ. *)
Definition same_start {F : PyFloat} (w1 w2 : Generate.World F) : Prop :=
  same_rng (Generate.np_random w1) (Generate.np_random w2)
  /\ same_rng (Generate.fake w1) (Generate.fake w2)
  /\ Generate.today w1 = Generate.today w2.

(** [m] returns the same result from two such starts and keeps them so. *)
Definition repeatable {F : PyFloat} {A} (m : Py.M (Generate.World F) A) : Prop :=
  forall w1 w2, same_start w1 w2 ->
    fst (m w1) = fst (m w2) /\ same_start (snd (m w1)) (snd (m w2)).

(** [m] returns, whatever the state, a value that satisfies [Q], and
    leaves the files as they are. *)
Definition returns {F : PyFloat} {A} (m : Py.M (Generate.World F) A) (Q : A -> Prop) : Prop :=
  forall w, exists a,
    fst (m w) = Py.Ok a /\ Q a /\ Generate.files (snd (m w)) = Generate.files w.

(** A provider that answers every call with the same word, and the customer
    it leads to when the segment draw is 0. *)
Definition sample_provider : Generate.Provider :=
  Generate.mkProvider (fun _ => "Ann"%string) (fun _ => "Lee"%string)
    (fun _ => "a@b.c"%string) (fun _ => "555"%string)
    (fun _ => "Rome"%string) (fun _ => "NY"%string).

Definition sample_customer (registered : Calendar.date) : Generate.CustomerRow :=
  Generate.mkCustomer "Ann" "Lee" "a@b.c" "555" "Rome" "NY" "USA" "Premium" registered.

(** ** The loader *)

(** Two worlds of the loader that differ at most in the statement counter,
    the random source and the transaction flag. *)
Definition quiet {F : PyFloat} (w w' : Load.World F) : Prop :=
  Load.files w' = Load.files w
  /\ Load.committed w' = Load.committed w
  /\ Load.view w' = Load.view w
  /\ Load.next_key w' = Load.next_key w
  /\ Load.fault w' = Load.fault w
  /\ Load.log w' = Load.log w
  /\ Load.stdout w' = Load.stdout w.

(** No call to the server raises. *)
Definition healthy {F : PyFloat} (w : Load.World F) : Prop :=
  forall k, Load.fault w k = false.

(** The three keys of a fact row come from the given key lists. *)
Definition keys_in {F : PyFloat} (customer_ids product_ids date_ids : list Z)
    (r : Load.FactRow F) : Prop :=
  In (Load.customer_id r) customer_ids
  /\ In (Load.product_id r) product_ids
  /\ In (Load.date_id r) date_ids.

(** The money fields of a fact row as the loader derives them from the price
    [p] of its product, its quantity and a discount [d]. *)
Definition derived {F : PyFloat} (r : Load.FactRow F) (d : num) : Prop :=
  let total_before_discount := fmul (Load.unit_price r) (of_int (Load.quantity r)) in
  Load.discount_amount r = round2 (fmul total_before_discount d)
  /\ Load.total_amount r = round2 (fsub total_before_discount (Load.discount_amount r)).

Definition priced {F : PyFloat} (t : Load.Tables F) (r : Load.FactRow F) : Prop :=
  Load.price_of (Load.product_id r) t = Some (Load.unit_price r)
  /\ 1 <= Load.quantity r <= 5
  /\ exists d, In d Load.discounts /\ derived r d.

(** The writes of a batch that was inserted and committed. *)
Definition batch_events {F : PyFloat} (rows : list (Load.FactRow F)) : list (Load.Event F) :=
  [Load.ExecuteMany rows true; Load.Commit true].

(** What a failed run adds to the log after its last committed batch: at
    most one more insertion, never a successful commit. *)
Inductive aborted {F : PyFloat} : list (Load.Event F) -> Prop :=
| aborted_unconnected : aborted []
| aborted_generating : aborted [Load.Rollback]
| aborted_inserting rows : aborted [Load.ExecuteMany rows false; Load.Rollback]
| aborted_committing rows :
    aborted [Load.ExecuteMany rows true; Load.Commit false; Load.Rollback]
| aborted_closing : aborted [Load.Commit false].

(** The same tables up to the fact table. *)
Definition same_dimensions {F : PyFloat} (t t' : Load.Tables F) : Prop :=
  Load.date_dimension t' = Load.date_dimension t
  /\ Load.customers t' = Load.customers t
  /\ Load.products t' = Load.products t.

(** Number of rows of the batch that starts at [batch]. *)
Definition batch_length (num_transactions batch : Z) : nat :=
  Z.to_nat (Z.min (batch + Load.batch_size) num_transactions - batch).

(** One of the key lists is empty. *)
Definition starved (customer_ids product_ids date_ids : list Z) : Prop :=
  customer_ids = [] \/ product_ids = [] \/ date_ids = [].

(** Why generating a row can raise: the server failed, or a key list is
    empty and the sampler raised, or a product key has no row. *)
Definition row_failure {F : PyFloat} (w : Load.World F)
    (customer_ids product_ids date_ids : list Z) (e : Py.exn) : Prop :=
  ~ healthy w
  \/ (starved customer_ids product_ids date_ids /\ e = Py.ValueError)
  \/ ~ incl product_ids (map fst (Load.products (Load.view w))).

(** A fact row built from the dimension tables [t]. *)
Definition good {F : PyFloat} (t : Load.Tables F) (r : Load.FactRow F) : Prop :=
  keys_in (map fst (Load.customers t)) (map fst (Load.products t))
          (map fst (Load.date_dimension t)) r
  /\ priced t r.

Definition add_sales {F : PyFloat} (rows : list (Load.FactRow F)) (t : Load.Tables F)
  : Load.Tables F :=
  Load.mkTables (Load.date_dimension t) (Load.customers t) (Load.products t)
                (Load.sales_transactions t ++ rows).

(** [rows] is a complete batch for the iteration that starts at [batch]. *)
Definition sized {F : PyFloat} (num_transactions : Z) (rows : list (Load.FactRow F))
    (batch : Z) : Prop :=
  List.length rows = batch_length num_transactions batch.

(** From [w0], the batches [bs] of the iterations [done] have been committed
    and nothing else has. *)
Definition reached {F : PyFloat} (w0 : Load.World F) (num_transactions : Z)
    (bs : list (list (Load.FactRow F))) (done : list Z) (w : Load.World F) : Prop :=
  Load.fault w = Load.fault w0
  /\ Load.committed w = add_sales (concat bs) (Load.committed w0)
  /\ Forall (Forall (good (Load.committed w0))) bs
  /\ Forall2 (sized num_transactions) bs done.

(** The log entries of an iteration that raised, and the state it raised
    in: either nothing was written yet, or the insertion or the commit of the
    batch failed inside an open transaction. *)
Definition interrupted {F : PyFloat} (t0 : Load.Tables F) (tail : list (Load.Event F))
    (w : Load.World F) : Prop :=
  (tail = [] /\ Load.view w = Load.committed w)
  \/ (Load.in_txn w = true
      /\ exists rows, rows <> [] /\ Forall (good t0) rows
           /\ (tail = [Load.ExecuteMany rows false]
               \/ tail = [Load.ExecuteMany rows true; Load.Commit false])).

(** The state between two iterations of the outer loop, with [rest] still
    to run: the batches of the iterations done so far are committed, nothing
    is pending, and the connection has gone idle as soon as one batch was
    committed. *)
Definition between {F : PyFloat} (w0 : Load.World F) (n : Z) (rest : list Z)
    (w : Load.World F) : Prop :=
  exists bs done,
    Py.py_range 0 n Load.batch_size = done ++ rest
    /\ reached w0 n bs done w
    /\ Load.view w = Load.committed w
    /\ Load.log w = Load.log w0 ++ flat_map batch_events bs
    /\ (bs <> [] -> Load.in_txn w = false) /\ (bs = [] -> Load.in_txn w = true).

(** The state in which the block under the connection raised [e]. *)
Definition failed {F : PyFloat} (w0 : Load.World F) (n : Z) (e : Py.exn)
    (w : Load.World F) : Prop :=
  let t0 := Load.committed w0 in
  exists bs done rest tail,
    Py.py_range 0 n Load.batch_size = done ++ rest
    /\ (done = [] \/ rest <> [])
    /\ reached w0 n bs done w
    /\ Load.log w = Load.log w0 ++ flat_map batch_events bs ++ tail
    /\ interrupted t0 tail w
    /\ (~ healthy w0
        \/ (starved (map fst (Load.customers t0)) (map fst (Load.products t0))
                    (map fst (Load.date_dimension t0))
            /\ e = Py.ValueError /\ tail = [] /\ rest <> [])).

(** What a run of [generate_and_load_transactions n] from [w] leaves. *)
Definition outcome {F : PyFloat} (n : Z) (w : Load.World F) (r : Py.result unit)
    (w' : Load.World F) : Prop :=
  let t0 := Load.committed w in
  exists bs done rest tail,
    Py.py_range 0 n Load.batch_size = done ++ rest
    /\ reached w n bs done w'
    /\ Load.log w' = Load.log w ++ flat_map batch_events bs ++ tail
    /\ (forall rows ok, In (Load.ExecuteMany rows ok) tail ->
          rows <> [] /\ Forall (good t0) rows)
    /\ match r with
       | Py.Ok _ =>
           rest = [] /\ Load.view w' = Load.committed w'
           /\ ((bs = [] /\ tail = [Load.Commit true]) \/ (bs <> [] /\ tail = []))
       | Py.Raise e =>
           aborted tail
           /\ (done = [] \/ rest <> [])
           /\ (~ healthy w
               \/ (starved (map fst (Load.customers t0)) (map fst (Load.products t0))
                           (map fst (Load.date_dimension t0))
                   /\ e = Py.ValueError /\ (tail = [] \/ tail = [Load.Rollback])
                   /\ rest <> []))
       end.

(** The amounts of a row as the data model words them, with the total
    rounded from the unrounded product. *)
Definition amounts_from_unrounded_product {F : PyFloat} (r : Load.FactRow F) : Prop :=
  exists d, In d Load.discounts
    /\ Load.discount_amount r
       = round2 (fmul (fmul (Load.unit_price r) (of_int (Load.quantity r))) d)
    /\ Load.total_amount r
       = round2 (fmul (fmul (Load.unit_price r) (of_int (Load.quantity r)))
                      (fsub (of_int 1) d)).

(** A warehouse with one date, one customer and the products [ps], no
    facts, a healthy server and a random source that reads [tape]. *)
Definition small_world {F : PyFloat} (ps : list (Z * Generate.ProductRow F))
    (dates : list (Z * DateDim.DateRow)) (tape : nat -> nat) : Load.World F :=
  let t := Load.mkTables dates [(1, sample_customer (Calendar.mkDate 2024 1 1))] ps [] in
  Load.mkWorld (Generate.mkFiles None None None) t t false (fun _ => 1)
               (Random.mkRNG tape 0) (fun _ => false) 0 [] [].

Definition sample_product {F : PyFloat} (price : num) : Generate.ProductRow F :=
  Generate.mkProduct "BrandA Shoes 1" "Clothing" "Shoes" "BrandA" price price.

Definition sample_dates : list (Z * DateDim.DateRow) :=
  [(1, DateDim.date_row (Calendar.mkDate 2023 1 1))].

(** An empty warehouse next to files with two dates, one customer and one
    product; the server fails at the statements for which [fault] holds. *)
Definition fresh_world {F : PyFloat} (fault : nat -> bool) : Load.World F :=
  let t := Load.mkTables [] [] [] [] in
  Load.mkWorld
    (Generate.mkFiles
       (Some [DateDim.date_row (Calendar.mkDate 2023 1 1);
              DateDim.date_row (Calendar.mkDate 2023 1 2)])
       (Some [sample_customer (Calendar.mkDate 2024 1 1)])
       (Some [sample_product (of_decimal 1005 2)]))
    t t false (fun _ => 1) (Random.mkRNG (fun _ => 0%nat) 0) fault 0 [] [].

(** The server fails from statement [limit] on. *)
Definition fails_from (limit k : nat) : bool := Nat.leb limit k.

(** The same world with another fault oracle. *)
Definition with_fault {F : PyFloat} (fault : nat -> bool) (w : Load.World F) : Load.World F :=
  Load.mkWorld (Load.files w) (Load.committed w) (Load.view w) (Load.in_txn w)
               (Load.next_key w) (Load.np_random w) fault (Load.clock w)
               (Load.log w) (Load.stdout w).

(** The draws that pick quantity 1 and the discount 0.10 for the first row. *)
Definition ten_percent_tape (i : nat) : nat :=
  match i with 1%nat => 2%nat | _ => 0%nat end.



(** The generator [g'] is [g] after [k] draws. *)
Definition advanced (k : nat) (g g' : Random.RNG) : Prop :=
  Random.tape g' = Random.tape g /\ Random.pos g' = (Random.pos g + k)%nat.

(** The draws one sampling from [xs] takes. *)
Definition draws {A} (xs : list A) : nat :=
  match xs with _ :: _ :: _ => 1%nat | _ => 0%nat end.

(** The draws made for the first row before the sampler meets an empty key
    list: one for each list of two or more keys ahead of the empty one. *)
Definition draws_before_error (customer_ids product_ids : list Z) : nat :=
  match customer_ids with
  | [] => 0%nat
  | _ => (draws customer_ids
          + match product_ids with [] => 0%nat | _ => draws product_ids end)%nat
  end.

(** A warehouse with two customers and two products but no date, a healthy
    server and a random source that reads [tape]. *)
Definition world_without_dates {F : PyFloat} (tape : nat -> nat) : Load.World F :=
  let c := sample_customer (Calendar.mkDate 2024 1 1) in
  let p := sample_product (of_decimal 1005 2) in
  let t := Load.mkTables [] [(1, c); (2, c)] [(7, p); (8, p)] [] in
  Load.mkWorld (Generate.mkFiles None None None) t t false (fun _ => 1)
               (Random.mkRNG tape 0) (fun _ => false) 0 [] [].

(** Rows with the keys a sequence hands out from [k] on. *)
Fixpoint keyed {R} (k : Z) (rows : list R) : list (Z * R) :=
  match rows with
  | [] => []
  | r :: rest => (k, r) :: keyed (k + 1) rest
  end.

(** [wp m Q E s]: run from [s], [m] either returns a value and a state that
    satisfy [Q], or raises an exception in a state that satisfy [E]. *)
Definition wp {S A} (m : Py.M S A) (Q : A -> S -> Prop) (E : Py.exn -> S -> Prop)
    (s : S) : Prop :=
  match m s with
  | (Py.Ok a, s') => Q a s'
  | (Py.Raise e, s') => E e s'
  end.

(** ** The rows of the generators *)

(** What the fields of a customer row are known to be, given the system
    date of the run. *)
Definition customer_ok (today : date) (r : Generate.CustomerRow) : Prop :=
  Generate.country r = "USA"%string
  /\ In (Generate.customer_segment r) Generate.customer_segments
  /\ (String.length (Generate.phone r) <= 20)%nat
  /\ exists k, 0 <= k <= 366 /\ Generate.registration_date r = add_days today (- k).

(** The product row of loop index [i]. *)
Definition product_ok {F : PyFloat} (i : Z) (r : Generate.ProductRow F) : Prop :=
  In (Generate.category r) (map fst Generate.categories)
  /\ In (Generate.subcategory r) (Generate.item Generate.categories (Generate.category r))
  /\ In (Generate.brand r) Generate.brands
  /\ Generate.product_name r
     = (Generate.brand r ++ " " ++ Generate.subcategory r ++ " " ++ Generate.str (i + 1))%string
  /\ (exists u, Generate.cost r
                = round2 (fadd (of_int 10)
                               (fmul (fsub (of_int 200) (of_int 10)) (unit_sample u))))
  /\ (exists m, Generate.price r
                = round2 (fmul (Generate.cost r)
                               (fadd (of_decimal 15 1)
                                     (fmul (fsub (of_decimal 25 1) (of_decimal 15 1))
                                           (unit_sample m))))).

(** Number of items of the chunk that starts at [b] when [0 .. n) is cut
    into chunks of [step]. *)
Definition chunk_length (step n b : Z) : nat := Z.to_nat (Z.min (b + step) n - b).

(** ** Runs of the loader *)

(** [m] leaves the printed lines, the files and the fault oracle as they
    are. *)
Definition untouched {F : PyFloat} {A} (m : Py.M (Load.World F) A) : Prop :=
  forall w, Load.stdout (snd (m w)) = Load.stdout w
            /\ Load.files (snd (m w)) = Load.files w
            /\ Load.fault (snd (m w)) = Load.fault w.

(** [m] sends at least one statement and writes nothing; with a server that
    does not fail it returns. *)
Definition read_only {F : PyFloat} {A} (m : Py.M (Load.World F) A) : Prop :=
  forall w r w', m w = (r, w') ->
    quiet w w' /\ Load.in_txn w' = true /\ Load.np_random w' = Load.np_random w
    /\ (healthy w -> exists a, r = Py.Ok a).

(** What a block that only reads adds to the log when it is run under a
    connection: the closing commit or the rollback, or nothing when the
    connection could not be opened. *)
Definition closing {F : PyFloat} (added : list (Load.Event F)) : Prop :=
  added = [] \/ added = [Load.Rollback]
  \/ added = [Load.Commit true] \/ added = [Load.Commit false].

(** One of the three files is missing. *)
Definition missing_file {F : PyFloat} (fs : Generate.Files F) : Prop :=
  Generate.date_dimension_csv fs = None
  \/ Generate.customers_csv fs = None
  \/ Generate.products_csv fs = None.

(** ** The date columns and the analytics output *)

(** The ISO 8601 week number read off the Thursday of the week of [d]: the
    week belongs to the year of its Thursday, and is numbered by the count
    of Thursdays of that year up to it. *)
Definition week_of_thursday (d : date) : Z :=
  let thursday := add_days d (3 - weekday d) in
  (ymd2ord thursday - ymd2ord (mkDate (d_year thursday) 1 1)) / 7 + 1.

(** The quarter and week columns of a row, checked against its date. *)
Definition quarter_and_week_ok (r : DateRow) : bool :=
  (1 <=? quarter r) && (quarter r <=? 4)
  && (3 * quarter r - 2 <=? month r) && (month r <=? 3 * quarter r)
  && (1 <=? week_of_year r) && (week_of_year r <=? 53)
  && (week_of_year r =? week_of_thursday (date_value r)).

(** The lines a run of the analytics prints for the reports it completes. *)
Definition printed (rs : list Analytics.Report) : list Analytics.Line :=
  flat_map (fun x => [Analytics.Header x; Analytics.Frame x]) rs.

End Checks.

(* ================================================================== *)
(** * Facts *)
(* ================================================================== *)

Import Calendar DateDim Py Random Checks.

(** ** The date dimension *)

Example first_row :
  hd_error generate_date_dimension_rows
  = Some (mkDateRow (mkDate 2023 1 1) 2023 1 1 1 7 52 true).
Proof. vm_compute. reflexivity. Qed.

Example last_row :
  nth_error generate_date_dimension_rows 730
  = Some (mkDateRow (mkDate 2024 12 31) 2024 4 12 31 2 1 false).
Proof. vm_compute. reflexivity. Qed.

Lemma weekday_range (d : date) : 0 <= weekday d < 7.
Proof. unfold weekday. apply Z.mod_pos_bound. lia. Qed.

(** Whatever the day, the row numbers it 1 to 7 and flags it exactly when
    that number is 6 or 7. *)
Lemma date_row_weekend (d : date) :
  1 <= day_of_week (date_row d) <= 7
  /\ (is_weekend (date_row d) = true
      <-> day_of_week (date_row d) = 6 \/ day_of_week (date_row d) = 7).
Proof.
  pose proof (weekday_range d) as H. cbn [date_row day_of_week is_weekend].
  split; [lia|]. rewrite Z.leb_le. lia.
Qed.

(** Consecutive ordinals fall on consecutive week days. *)
Lemma weekday_next (d e : date) :
  ymd2ord e = ymd2ord d + 1 -> weekday e = (weekday d + 1) mod 7.
Proof.
  intros H. unfold weekday. rewrite H.
  replace (ymd2ord d + 1 + 6) with (ymd2ord d + 6 + 1) by lia.
  rewrite Z.add_mod by lia. rewrite (Z.add_mod (_ mod 7) 1) by lia.
  rewrite Z.mod_mod by lia. reflexivity.
Qed.

Lemma date_frame_length (a b : date) :
  List.length (date_frame a b) = Z.to_nat (ymd2ord b - ymd2ord a + 1).
Proof. unfold date_frame, date_range. now rewrite !length_map, length_seq. Qed.

Lemma check_positions_nth (rows : list DateRow) :
  forall i k r, check_positions i rows = true ->
    nth_error rows k = Some r -> row_at_position (i + k) r = true.
Proof.
  induction rows as [|x rest IH]; intros i k r Hc Hn.
  - destruct k; discriminate.
  - cbn in Hc. apply andb_prop in Hc as [Hx Hr]. destruct k as [|k].
    + cbn in Hn. injection Hn as <-. now rewrite Nat.add_0_r.
    + cbn in Hn. replace (i + S k)%nat with (S i + k)%nat by lia. eauto.
Qed.

Lemma dates_from_ordinals_injective (l : list date) :
  NoDup (map ymd2ord l) -> NoDup l.
Proof. apply NoDup_map_inv. Qed.

Lemma generated_rows_positions :
  check_positions 0 generate_date_dimension_rows = true.
Proof. vm_compute. reflexivity. Qed.

Lemma generated_rows_are_the_calendar :
  map date_value generate_date_dimension_rows = calendar_days start_date end_date.
Proof. vm_compute. reflexivity. Qed.

Lemma generated_rows_count : List.length generate_date_dimension_rows = 731%nat.
Proof. vm_compute. reflexivity. Qed.

Lemma generated_ordinals_nodup :
  NoDup (map ymd2ord (map date_value generate_date_dimension_rows)).
Proof.
  assert (H : map ymd2ord (map date_value generate_date_dimension_rows)
              = map (fun i => 738521 + Z.of_nat i) (seq 0 731)).
  { vm_compute. reflexivity. }
  rewrite H. apply Injective_map_NoDup; [|apply seq_NoDup].
  intros x y Hxy. lia.
Qed.

(** C6, the example of the claim: 2023-01-01 is a Sunday, so the generator
    flags it as a weekend day, and the days 2023-01-01..2023-01-06 are not all
    week days. *)
Lemma C6_first_of_january_is_weekend :
  In (mkDateRow (mkDate 2023 1 1) 2023 1 1 1 7 52 true) generate_date_dimension_rows
  /\ ~ (forall r, In r generate_date_dimension_rows ->
          year r = 2023 -> month r = 1 -> 1 <= day r <= 6 -> is_weekend r = false).
Proof.
  assert (Hin : In (mkDateRow (mkDate 2023 1 1) 2023 1 1 1 7 52 true)
                   generate_date_dimension_rows).
  { apply (nth_error_In _ 0). vm_compute. reflexivity. }
  split; [exact Hin|]. intros H.
  specialize (H _ Hin eq_refl eq_refl). cbn in H.
  assert (Hf : true = false) by (apply H; lia). discriminate.
Qed.

(** C6, amended: [generate_date_dimension] returns and writes one row for
    every calendar day from 2023-01-01 to 2024-12-31 inclusive, 731 rows in
    date order without duplicates or gaps; [day_of_week] runs from 1 to 7 with
    Monday = 1 (2023-01-02, the row at position 1, is a Monday); [is_weekend]
    holds exactly on days numbered 6 and 7, which among the first ten days are
    2023-01-01, 2023-01-07 and 2023-01-08. *)
Theorem C6_date_dimension (F : PyFloat) (w : Generate.World F) :
  let rows := generate_date_dimension_rows in
  Generate.generate_date_dimension w = (Ok rows, Generate.write_dates rows w)
  /\ Generate.date_dimension_csv (Generate.files (Generate.write_dates rows w)) = Some rows
  /\ map date_value rows = calendar_days start_date end_date
  /\ List.length rows = 731%nat
  /\ NoDup (map date_value rows)
  /\ (forall i r, nth_error rows i = Some r ->
        ymd2ord (date_value r) = ymd2ord start_date + Z.of_nat i
        /\ valid_date (date_value r) = true
        /\ day_of_week r = (Z.of_nat i + 6) mod 7 + 1)
  /\ (forall r, In r rows ->
        1 <= day_of_week r <= 7
        /\ (is_weekend r = true <-> day_of_week r = 6 \/ day_of_week r = 7))
  /\ map is_weekend (firstn 10 rows)
     = [true; false; false; false; false; false; true; true; false; false].
Proof.
  intros rows. split; [reflexivity|]. split; [reflexivity|].
  split; [exact generated_rows_are_the_calendar|].
  split; [exact generated_rows_count|].
  split; [apply dates_from_ordinals_injective, generated_ordinals_nodup|].
  split.
  - intros i r Hn.
    pose proof (check_positions_nth _ 0 i r generated_rows_positions Hn) as Hc.
    cbn [Nat.add] in Hc. unfold row_at_position in Hc.
    repeat (apply andb_prop in Hc as [Hc ?]).
    rewrite Z.eqb_eq in *. auto.
  - split; [|vm_compute; reflexivity].
    intros r Hr. unfold rows, generate_date_dimension_rows, date_frame in Hr.
    apply in_map_iff in Hr as [d [<- _]]. apply date_row_weekend.
Qed.

(** ** The analytics driver *)

Module AnalyticsFacts.
Import Analytics.

Lemma report_ok (r : Report) (w : World) :
  query_error w r = None ->
  report r w = (Ok tt, mkWorld (query_error w) (stdout w ++ [Header r; Frame r])).
Proof.
  intros H. unfold report, print, read_sql, bind, modify. cbn. rewrite H. cbn.
  now rewrite <- app_assoc.
Qed.

Lemma report_raises (r : Report) (w : World) (e : exn) :
  query_error w r = Some e ->
  report r w = (Raise e, mkWorld (query_error w) (stdout w ++ [Header r])).
Proof.
  intros H. unfold report, print, read_sql, bind, modify. cbn. now rewrite H.
Qed.

(** The reports of a list run in order until one raises. *)
Lemma reports_until_failure (pre : list Report) :
  forall (w : World) (k : M World unit),
    (forall x, In x pre -> query_error w x = None) ->
    for_each pre report w
    = (Ok tt, mkWorld (query_error w)
                      (stdout w ++ flat_map (fun x => [Header x; Frame x]) pre)).
Proof.
  induction pre as [|x pre IH]; intros w k Hok.
  - cbn. rewrite app_nil_r. now destruct w.
  - cbn [for_each]. unfold bind. rewrite report_ok by (apply Hok; now left).
    rewrite IH; [|exact k|intros y Hy; apply Hok; now right].
    cbn. now rewrite <- app_assoc.
Qed.

(** [main] is the loop over [battery] inside one handler. *)
Lemma main_as_loop (w : World) :
  main w
  = (print Banner ;;
     try_except (for_each battery report ;; print AnalyticsCompleted)
                (fun e => print (ErrorRunningAnalytics e))) w.
Proof.
  unfold main, battery, sales_by_month, top_customers, product_performance,
    sales_by_category, customer_segment_analysis, weekend_vs_weekday_sales.
  cbn [for_each]. unfold bind, try_except.
  destruct (print Banner w) as [[[]|e] w0]; [|reflexivity].
  repeat match goal with
         | |- context [report ?r ?x] =>
             destruct (report r x) as [[[]|?] ?]; try reflexivity
         end.
Qed.

Lemma for_each_app {S A} (xs ys : list A) (body : A -> M S unit) (s : S) :
  for_each (xs ++ ys) body s
  = (for_each xs body ;; for_each ys body) s.
Proof.
  revert s. induction xs as [|x xs IH]; intros s.
  - reflexivity.
  - cbn [for_each app]. unfold bind in *. destruct (body x s) as [[[]|e] s'].
    + apply IH.
    + reflexivity.
Qed.

Lemma nodup_app_disjoint {A} (l1 l2 : list A) (x : A) :
  NoDup (l1 ++ l2) -> In x l1 -> In x l2 -> False.
Proof.
  induction l1 as [|a l1 IH]; intros Hnd H1 H2.
  - inversion H1.
  - cbn in Hnd. inversion Hnd as [|? ? Hna Hnd']; subst. destruct H1 as [->|H1].
    + apply Hna, in_or_app. now right.
    + now apply IH.
Qed.

(** When every query succeeds, the six reports are printed and the run
    announces its completion. *)
Lemma main_all_reports (w : World) :
  (forall x, In x battery -> query_error w x = None) ->
  main w = (Ok tt, mkWorld (query_error w)
                     (stdout w ++ Banner :: flat_map (fun x => [Header x; Frame x]) battery
                               ++ [AnalyticsCompleted])).
Proof.
  intros Hok. rewrite main_as_loop. unfold bind at 1. cbn [print modify].
  unfold try_except, bind.
  rewrite reports_until_failure; [|exact (ret tt)|exact Hok].
  unfold print, modify. cbn [query_error stdout]. f_equal. f_equal.
  rewrite <- !app_assoc. reflexivity.
Qed.

(** C9, as stated, fails: when the first query raises, no later report is
    attempted. *)
Lemma C9_failure_skips_later_reports :
  let w := mkWorld (fun r => match r with
                             | SalesByMonth => Some (DatabaseError 0)
                             | _ => None
                             end) [] in
  main w = (Ok tt, mkWorld (query_error w)
                     [Banner; Header SalesByMonth; ErrorRunningAnalytics (DatabaseError 0)])
  /\ ~ (forall r, In r battery -> In (Header r) (stdout (snd (main w)))).
Proof.
  split; [reflexivity|]. intros H.
  specialize (H (TopCustomers 10)). cbn in H.
  destruct H as [H|[H|[H|[]]]]; try discriminate. auto.
Qed.

(** C9, amended: the six reports run in order inside one handler.  When the
    query of report [r] is the first to raise, the reports before [r] have
    been printed, [r] has printed its title only, the reports after [r] are
    not attempted, the exception is printed once and [main] returns
    normally. *)
Theorem C9_reports_share_one_handler
    (w : World) (pre post : list Report) (r : Report) (e : exn) :
  battery = pre ++ r :: post ->
  (forall x, In x pre -> query_error w x = None) ->
  query_error w r = Some e ->
  let out := Banner :: flat_map (fun x => [Header x; Frame x]) pre
                    ++ [Header r; ErrorRunningAnalytics e] in
  main w = (Ok tt, mkWorld (query_error w) (stdout w ++ out))
  /\ (forall x, In x post -> ~ In (Header x) out /\ ~ In (Frame x) out)
  /\ ~ In AnalyticsCompleted out.
Proof.
  intros Hb Hpre Hr out. split; [|split].
  - rewrite main_as_loop, Hb. unfold bind at 1. cbn [print modify].
    unfold try_except. unfold bind at 1. rewrite for_each_app. unfold bind at 1.
    rewrite reports_until_failure; [|exact (ret tt)|exact Hpre].
    cbn [for_each]. unfold bind at 1. rewrite report_raises with (e := e) by exact Hr.
    unfold print, modify. cbn [query_error stdout]. f_equal. f_equal. unfold out.
    rewrite <- !app_assoc. reflexivity.
  - intros x Hx.
    assert (Hnd : NoDup battery) by (repeat constructor; cbn; intuition discriminate).
    rewrite Hb in Hnd.
    assert (Hxr : x <> r).
    { intros ->. apply NoDup_app_remove_l in Hnd. inversion Hnd; contradiction. }
    assert (Hxpre : ~ In x pre).
    { intros Hin. apply (nodup_app_disjoint pre (r :: post) x Hnd Hin). now right. }
    unfold out. split; intros [Hin|Hin]; try discriminate;
      apply in_app_or in Hin as [Hin|Hin].
    + apply Hxpre. apply in_flat_map in Hin as (y & Hy & [Heq|[Heq|[]]]);
        try discriminate. now injection Heq as <-.
    + destruct Hin as [Heq|[Heq|[]]]; try discriminate. injection Heq as <-. auto.
    + apply Hxpre. apply in_flat_map in Hin as (y & Hy & [Heq|[Heq|[]]]);
        try discriminate. now injection Heq as <-.
    + destruct Hin as [Heq|[Heq|[]]]; discriminate.
  - unfold out. intros [Hin|Hin]; [discriminate|].
    apply in_app_or in Hin as [Hin|Hin].
    + apply in_flat_map in Hin as (y & Hy & [Heq|[Heq|[]]]); discriminate.
    + destruct Hin as [Heq|[Heq|[]]]; discriminate.
Qed.

Lemma C9_reports_share_one_handler_witness :
  let w := mkWorld (fun r => match r with
                             | ProductPerformance _ => Some (DatabaseError 2)
                             | _ => None
                             end) [] in
  snd (main w)
  = mkWorld (query_error w)
      [Banner; Header SalesByMonth; Frame SalesByMonth;
       Header (TopCustomers 10); Frame (TopCustomers 10);
       Header (ProductPerformance 10); ErrorRunningAnalytics (DatabaseError 2)].
Proof.
  intros w.
  pose proof (C9_reports_share_one_handler w
                [SalesByMonth; TopCustomers 10]
                [SalesByCategory; CustomerSegmentAnalysis; WeekendVsWeekdaySales]
                (ProductPerformance 10) (DatabaseError 2) eq_refl) as H.
  destruct H as [H _].
  - intros x [<-|[<-|[]]]; reflexivity.
  - reflexivity.
  - rewrite H. reflexivity.
Defined.

End AnalyticsFacts.

(** ** The customer and product generators *)

Module GenerateFacts.
Import Generate.

Section WithFloat.
Context {F : PyFloat}.

Lemma same_rng_refl (g : RNG) : same_rng g g.
Proof. split; auto. Qed.

Lemma draw_same (g1 g2 : RNG) :
  same_rng g1 g2 ->
  fst (draw g1) = fst (draw g2) /\ same_rng (snd (draw g1)) (snd (draw g2)).
Proof.
  intros [Hp Ht]. unfold draw. cbn. rewrite Hp, Ht. repeat split; auto.
Qed.

Lemma choice_same {A} (xs : list A) (g1 g2 : RNG) :
  same_rng g1 g2 ->
  fst (choice xs g1) = fst (choice xs g2)
  /\ same_rng (snd (choice xs g1)) (snd (choice xs g2)).
Proof.
  intros H. unfold choice. destruct xs as [|x [|y xs]]; [now split|now split|].
  destruct (draw_same g1 g2 H) as [Hv Hs].
  destruct (draw g1) as [r1 g1'], (draw g2) as [r2 g2']. cbn in *. now subst.
Qed.

Lemma choice_nonempty {A} (xs : list A) (g : RNG) :
  xs <> [] -> exists a, choice xs g = (Ok a, snd (choice xs g)) /\ In a xs.
Proof.
  intros Hne. destruct xs as [|x [|y xs]]; [contradiction| |].
  - exists x. split; [reflexivity|now left].
  - exists (nth (fst (draw g) mod List.length (x :: y :: xs))%nat (x :: y :: xs) x). split.
    + reflexivity.
    + apply nth_In. apply Nat.mod_upper_bound. discriminate.
Qed.

Lemma repeatable_ret {A} (a : A) : repeatable (F := F) (ret a).
Proof. intros w1 w2 H. now split. Qed.

Lemma repeatable_bind {A B} (m : M (World F) A) (k : A -> M (World F) B) :
  repeatable m -> (forall a, repeatable (k a)) -> repeatable (bind m k).
Proof.
  intros Hm Hk w1 w2 H. unfold bind. destruct (Hm w1 w2 H) as [Hr Hs].
  destruct (m w1) as [[a1|e1] w1'], (m w2) as [[a2|e2] w2']; cbn in *;
    try discriminate.
  - injection Hr as ->. now apply Hk.
  - injection Hr as ->. now split.
Qed.

Lemma repeatable_np {A} (m : M RNG A) :
  (forall g1 g2, same_rng g1 g2 ->
     fst (m g1) = fst (m g2) /\ same_rng (snd (m g1)) (snd (m g2))) ->
  repeatable (F := F) (np m).
Proof.
  intros Hm w1 w2 (Hn & Hf & Ht). unfold np.
  destruct (Hm _ _ Hn) as [Hr Hs].
  destruct (m (np_random w1)) as [r1 g1], (m (np_random w2)) as [r2 g2].
  cbn in *. unfold same_start, same_rng in *. cbn. intuition auto.
Qed.

Lemma repeatable_faker {A} (f : nat -> A) : repeatable (F := F) (faker f).
Proof.
  intros w1 w2 (Hn & Hf & Ht). unfold faker.
  destruct (draw_same _ _ Hf) as [Hv Hs].
  destruct (draw (fake w1)) as [r1 g1], (draw (fake w2)) as [r2 g2].
  cbn in *. subst. unfold same_start, same_rng in *. cbn. intuition auto.
Qed.

Lemma repeatable_date_between : repeatable (F := F) date_between_last_year.
Proof.
  intros w1 w2 (Hn & Hf & Ht). unfold date_between_last_year.
  destruct (draw_same _ _ Hf) as [Hv Hs].
  destruct (draw (fake w1)) as [r1 g1], (draw (fake w2)) as [r2 g2].
  cbn in *. subst. rewrite Ht. unfold same_start, same_rng in *. cbn. intuition auto.
Qed.

Lemma repeatable_uniform (low high : num) : repeatable (uniform low high).
Proof.
  intros w1 w2 (Hn & Hf & Ht). unfold uniform.
  destruct (draw_same _ _ Hn) as [Hv Hs].
  destruct (draw (np_random w1)) as [r1 g1], (draw (np_random w2)) as [r2 g2].
  cbn in *. subst. unfold same_start, same_rng in *. cbn. intuition auto.
Qed.

Lemma repeatable_write (f : World F -> World F) :
  (forall w, np_random (f w) = np_random w /\ fake (f w) = fake w
             /\ today (f w) = today w) ->
  repeatable (modify f).
Proof.
  intros Hf w1 w2 (Hn & Hk & Ht). unfold modify. cbn. split; [reflexivity|].
  unfold same_start. destruct (Hf w1) as (-> & -> & ->), (Hf w2) as (-> & -> & ->).
  auto.
Qed.

Lemma repeatable_for_fold {A B} (xs : list A) (body : A -> B -> M (World F) B) :
  (forall x acc, repeatable (body x acc)) ->
  forall acc, repeatable (for_fold xs body acc).
Proof.
  intros Hb. induction xs as [|x xs IH]; intros acc; cbn [for_fold].
  - apply repeatable_ret.
  - apply repeatable_bind; auto.
Qed.

Lemma repeatable_customer (P : Provider) : repeatable (customer P).
Proof.
  unfold customer.
  repeat (apply repeatable_bind; [|intros ?]);
    try apply repeatable_faker; try apply repeatable_date_between;
    try apply repeatable_ret.
  apply repeatable_np, choice_same.
Qed.

Lemma repeatable_product (i : Z) : repeatable (product i).
Proof.
  unfold product.
  repeat (apply repeatable_bind; [|intros ?]);
    try apply repeatable_uniform; try apply repeatable_ret;
    apply repeatable_np, choice_same.
Qed.

Lemma repeatable_generate_customers (P : Provider) (n : Z) :
  repeatable (generate_customers P n).
Proof.
  unfold generate_customers.
  apply repeatable_bind; [|intros rows; apply repeatable_bind;
                                       [|intros ?; apply repeatable_ret]].
  - apply repeatable_for_fold. intros batch acc.
    apply repeatable_bind; [|intros ?; apply repeatable_ret].
    apply repeatable_for_fold. intros _ acc'.
    apply repeatable_bind; [apply repeatable_customer|intros ?; apply repeatable_ret].
  - apply repeatable_write. intros w. now repeat split.
Qed.

Lemma repeatable_generate_products (n : Z) : repeatable (generate_products n).
Proof.
  unfold generate_products.
  apply repeatable_bind; [|intros rows; apply repeatable_bind;
                                       [|intros ?; apply repeatable_ret]].
  - apply repeatable_for_fold. intros i acc.
    apply repeatable_bind; [apply repeatable_product|intros ?; apply repeatable_ret].
  - apply repeatable_write. intros w. now repeat split.
Qed.

Lemma repeatable_generate_date_dimension : repeatable (F := F) generate_date_dimension.
Proof.
  unfold generate_date_dimension.
  apply repeatable_bind; [|intros ?; apply repeatable_ret].
  apply repeatable_write. intros w. now repeat split.
Qed.

Lemma returns_ret {A} (a : A) (Q : A -> Prop) : Q a -> returns (F := F) (ret a) Q.
Proof. intros H w. exists a. now repeat split. Qed.

Lemma returns_bind {A B} (m : M (World F) A) (k : A -> M (World F) B)
    (Q : A -> Prop) (R : B -> Prop) :
  returns m Q -> (forall a, Q a -> returns (k a) R) -> returns (bind m k) R.
Proof.
  intros Hm Hk w. destruct (Hm w) as (a & Ha & HQ & Hf). unfold bind.
  destruct (m w) as [r w']. cbn in Ha, Hf. subst r.
  destruct (Hk a HQ w') as (b & Hb & HR & Hf'). exists b. now rewrite Hf' in *.
Qed.

Lemma returns_choice {A} (xs : list A) :
  xs <> [] -> returns (F := F) (np (choice xs)) (fun x => In x xs).
Proof.
  intros Hne w. destruct (choice_nonempty xs (np_random w) Hne) as (a & Hc & Ha).
  unfold np. rewrite Hc. exists a. now repeat split.
Qed.

Lemma returns_faker {A} (f : nat -> A) : returns (F := F) (faker f) (fun _ => True).
Proof. intros w. unfold faker. cbn. eexists. now repeat split. Qed.

Lemma returns_date_between : returns (F := F) date_between_last_year (fun _ => True).
Proof. intros w. unfold date_between_last_year. cbn. eexists. now repeat split. Qed.

Lemma returns_uniform (low high : num) : returns (uniform low high) (fun _ => True).
Proof. intros w. unfold uniform. cbn. eexists. now repeat split. Qed.

Lemma returns_for_fold {A B} (xs : list A) (body : A -> B -> M (World F) B) :
  (forall x acc, returns (body x acc) (fun _ => True)) ->
  forall acc, returns (for_fold xs body acc) (fun _ => True).
Proof.
  intros Hb. induction xs as [|x xs IH]; intros acc; cbn [for_fold].
  - now apply returns_ret.
  - eapply returns_bind; [apply Hb|]. intros acc' _. apply IH.
Qed.

Lemma returns_customer (P : Provider) : returns (customer P) (fun _ => True).
Proof.
  unfold customer.
  repeat (eapply returns_bind; [|intros ? _]);
    try apply returns_faker; try apply returns_date_between;
    try (now apply returns_ret).
  apply returns_choice. discriminate.
Qed.

Lemma item_of_category (cat : string) :
  In cat (map fst categories) -> item categories cat <> [].
Proof.
  cbn. intros [<-|[<-|[<-|[<-|[<-|[]]]]]]; discriminate.
Qed.

Lemma returns_product (i : Z) : returns (product i) (fun _ => True).
Proof.
  unfold product.
  eapply returns_bind; [apply returns_choice; discriminate|]. intros cat Hcat.
  eapply returns_bind; [apply returns_choice, item_of_category, Hcat|]. intros sub _.
  eapply returns_bind; [apply returns_choice; discriminate|]. intros br _.
  eapply returns_bind; [apply returns_uniform|]. intros u _.
  eapply returns_bind; [apply returns_uniform|]. intros m _.
  now apply returns_ret.
Qed.

(** [generate_customers] returns its rows and replaces the customers file
    by them. *)
Lemma generate_customers_writes (P : Provider) (n : Z) (w : World F) :
  exists rows,
    fst (generate_customers P n w) = Ok rows
    /\ files (snd (generate_customers P n w))
       = mkFiles (date_dimension_csv (files w)) (Some rows) (products_csv (files w)).
Proof.
  unfold generate_customers.
  match goal with |- context [bind (for_fold ?xs ?body ?acc) _] =>
    assert (H : returns (for_fold xs body acc) (fun _ => True));
    [|set (loop := for_fold xs body acc) in *] end.
  { apply returns_for_fold. intros batch acc.
    eapply returns_bind; [|intros ? _; now apply returns_ret].
    apply returns_for_fold. intros _ acc'.
    eapply returns_bind; [apply returns_customer|intros ? _; now apply returns_ret]. }
  destruct (H w) as (rows & Hr & _ & Hf). unfold bind.
  destruct (loop w) as [r w']. cbn in Hr, Hf. subst r. exists rows. cbn.
  unfold write_customers. cbn. now rewrite Hf.
Qed.

(** [generate_products] returns its rows and replaces the products file by
    them. *)
Lemma generate_products_writes (n : Z) (w : World F) :
  exists rows,
    fst (generate_products n w) = Ok rows
    /\ files (snd (generate_products n w))
       = mkFiles (date_dimension_csv (files w)) (customers_csv (files w)) (Some rows).
Proof.
  unfold generate_products.
  match goal with |- context [bind (for_fold ?xs ?body ?acc) _] =>
    assert (H : returns (for_fold xs body acc) (fun _ => True));
    [|set (loop := for_fold xs body acc) in *] end.
  { apply returns_for_fold. intros i acc.
    eapply returns_bind; [apply returns_product|intros ? _; now apply returns_ret]. }
  destruct (H w) as (rows & Hr & _ & Hf). unfold bind.
  destruct (loop w) as [r w']. cbn in Hr, Hf. subst r. exists rows. cbn.
  unfold write_products. cbn. now rewrite Hf.
Qed.

Lemma generate_date_dimension_writes (w : World F) :
  generate_date_dimension w
  = (Ok generate_date_dimension_rows, write_dates generate_date_dimension_rows w).
Proof. reflexivity. Qed.

(** The whole script returns, and afterwards the three files hold the rows
    of the three generators, each run in the state its predecessor left. *)
Lemma main_outcome (P : Provider) (w : World F) :
  exists c p,
    fst (generate_customers P 5000 (write_dates generate_date_dimension_rows w)) = Ok c
    /\ fst (generate_products 500
              (snd (generate_customers P 5000
                      (write_dates generate_date_dimension_rows w)))) = Ok p
    /\ fst (main P w) = Ok tt
    /\ files (snd (main P w))
       = mkFiles (Some generate_date_dimension_rows) (Some c) (Some p).
Proof.
  set (wa := write_dates generate_date_dimension_rows w).
  destruct (generate_customers_writes P 5000 wa) as (c & Hc & Hfc).
  destruct (generate_products_writes 500 (snd (generate_customers P 5000 wa)))
    as (p & Hp & Hfp).
  exists c, p. split; [exact Hc|]. split; [exact Hp|].
  unfold main, bind. rewrite generate_date_dimension_writes. fold wa.
  destruct (generate_customers P 5000 wa) as [rc wc]. cbn [fst snd] in *. subst rc.
  destruct (generate_products 500 wc) as [rp wp]. cbn [fst snd] in *. subst rp.
  split; [reflexivity|]. cbn [ret snd]. rewrite Hfp, Hfc. reflexivity.
Qed.

End WithFloat.

(** C10, as stated, fails: two runs with the same parameters and both random
    sources in the same state write different customer files when the system
    date differs, because [registration_date] is drawn relative to today. *)
Lemma C10_same_seed_different_day :
  let P := sample_provider in
  let g := mkRNG (fun _ => 0%nat) 0 in
  let fs := mkFiles (F := Exact.exact) None None None in
  let w1 := mkWorld g g (mkDate 2024 3 1) fs in
  let w2 := mkWorld g g (mkDate 2024 3 2) fs in
  customers_csv (files (snd (generate_customers P 1 w1)))
  = Some [sample_customer (mkDate 2023 3 1)]
  /\ customers_csv (files (snd (generate_customers P 1 w2)))
     = Some [sample_customer (mkDate 2023 3 2)]
  /\ customers_csv (files (snd (generate_customers P 1 w1)))
     <> customers_csv (files (snd (generate_customers P 1 w2))).
Proof.
  cbv zeta. split; [vm_compute; reflexivity|]. split; [vm_compute; reflexivity|].
  vm_compute. discriminate.
Qed.

(** C10, amended: two runs that start with both random sources in the same
    state and on the same system date return the same rows and write the same
    rows to the file of each dimension, whatever the files held before; for
    the whole script the three files are then identical.  (The scripts never
    seed their random sources.) *)
Theorem C10_same_sources_same_day
    (F : PyFloat) (P : Provider) (num_customers num_products : Z) (w1 w2 : World F) :
  same_start w1 w2 ->
  (exists rows,
      fst (generate_date_dimension w1) = Ok rows
      /\ fst (generate_date_dimension w2) = Ok rows
      /\ date_dimension_csv (files (snd (generate_date_dimension w1))) = Some rows
      /\ date_dimension_csv (files (snd (generate_date_dimension w2))) = Some rows)
  /\ (exists rows,
        fst (generate_customers P num_customers w1) = Ok rows
        /\ fst (generate_customers P num_customers w2) = Ok rows
        /\ customers_csv (files (snd (generate_customers P num_customers w1))) = Some rows
        /\ customers_csv (files (snd (generate_customers P num_customers w2))) = Some rows)
  /\ (exists rows,
        fst (generate_products num_products w1) = Ok rows
        /\ fst (generate_products num_products w2) = Ok rows
        /\ products_csv (files (snd (generate_products num_products w1))) = Some rows
        /\ products_csv (files (snd (generate_products num_products w2))) = Some rows)
  /\ fst (main P w1) = Ok tt
  /\ fst (main P w2) = Ok tt
  /\ files (snd (main P w1)) = files (snd (main P w2)).
Proof.
  intros Hs. split; [|split; [|split]].
  - exists generate_date_dimension_rows. now repeat split.
  - destruct (generate_customers_writes P num_customers w1) as (r1 & H1 & F1).
    destruct (generate_customers_writes P num_customers w2) as (r2 & H2 & F2).
    destruct (repeatable_generate_customers P num_customers w1 w2 Hs) as [He _].
    rewrite H1, H2 in He. injection He as <-.
    exists r1. rewrite F1, F2. now repeat split.
  - destruct (generate_products_writes num_products w1) as (r1 & H1 & F1).
    destruct (generate_products_writes num_products w2) as (r2 & H2 & F2).
    destruct (repeatable_generate_products num_products w1 w2 Hs) as [He _].
    rewrite H1, H2 in He. injection He as <-.
    exists r1. rewrite F1, F2. now repeat split.
  - destruct (main_outcome P w1) as (c1 & p1 & Hc1 & Hp1 & Hm1 & Hf1).
    destruct (main_outcome P w2) as (c2 & p2 & Hc2 & Hp2 & Hm2 & Hf2).
    split; [exact Hm1|]. split; [exact Hm2|]. rewrite Hf1, Hf2.
    destruct (repeatable_generate_date_dimension w1 w2 Hs) as [_ Hsa].
    rewrite !generate_date_dimension_writes in Hsa. cbn [snd] in Hsa.
    destruct (repeatable_generate_customers P 5000 _ _ Hsa) as [Hec Hsc].
    rewrite Hc1, Hc2 in Hec. injection Hec as <-.
    destruct (repeatable_generate_products 500 _ _ Hsc) as [Hep _].
    rewrite Hp1, Hp2 in Hep. injection Hep as <-. reflexivity.
Qed.

Lemma C10_same_sources_same_day_witness :
  let P := sample_provider in
  let g := mkRNG (fun i => (3 * i + 1)%nat) 0 in
  let w1 := mkWorld (F := Exact.exact) g g (mkDate 2024 3 1) (mkFiles None None None) in
  let w2 := mkWorld (F := Exact.exact) g g (mkDate 2024 3 1)
                    (mkFiles (Some []) (Some []) None) in
  files (snd (main P w1)) = files (snd (main P w2)).
Proof.
  intros P g w1 w2.
  apply (C10_same_sources_same_day Exact.exact P 2 2 w1 w2).
  repeat split; reflexivity.
Defined.

End GenerateFacts.

(** ** The loader *)

Module LoadFacts.
Import Load.

Lemma bind_inv {S A B} (m : M S A) (k : A -> M S B) (s s' : S) (r : result B) :
  bind m k s = (r, s') ->
  (exists a s1, m s = (Ok a, s1) /\ k a s1 = (r, s'))
  \/ (exists e, m s = (Raise e, s') /\ r = Raise e).
Proof.
  unfold bind. destruct (m s) as [[a|e] s1]; intros H.
  - left. eauto.
  - right. exists e. now injection H as <- <-.
Qed.

Lemma bind_ok {S A B} (m : M S A) (k : A -> M S B) (s s1 : S) (a : A) :
  m s = (Ok a, s1) -> bind m k s = k a s1.
Proof. intros H. unfold bind. now rewrite H. Qed.

Lemma bind_raise {S A B} (m : M S A) (k : A -> M S B) (s s1 : S) (e : exn) :
  m s = (Raise e, s1) -> bind m k s = (Raise e, s1).
Proof. intros H. unfold bind. now rewrite H. Qed.

(** *** The ranges of the two loops *)

Lemma py_range_length (start stop step : Z) :
  List.length (py_range start stop step) = Z.to_nat ((stop - start + step - 1) / step).
Proof. unfold py_range. now rewrite length_map, length_seq. Qed.

Lemma py_range_unit_length (start stop : Z) :
  List.length (py_range start stop 1) = Z.to_nat (stop - start).
Proof.
  rewrite py_range_length. f_equal. rewrite Z.div_1_r. lia.
Qed.

Lemma nth_error_lt {A} (l : list A) (i : nat) (x : A) :
  nth_error l i = Some x -> (i < List.length l)%nat.
Proof. intros H. apply nth_error_Some. congruence. Qed.

(** The batches tile [0, n): the start of a batch is a multiple of the step
    below [n]. *)
Lemma py_range_nth (n step : Z) (i : nat) (b : Z) :
  0 < step -> nth_error (py_range 0 n step) i = Some b ->
  b = Z.of_nat i * step /\ b < n.
Proof.
  intros Hs Hn. unfold py_range in Hn.
  rewrite nth_error_map in Hn.
  destruct (nth_error (seq 0 _) i) as [j|] eqn:Hj; [|discriminate].
  cbn in Hn. injection Hn as <-.
  assert (Hi : (i < Z.to_nat ((n - 0 + step - 1) / step))%nat).
  { apply nth_error_lt in Hj. now rewrite length_seq in Hj. }
  rewrite nth_error_seq in Hj.
  destruct (Nat.ltb_spec i (Z.to_nat ((n - 0 + step - 1) / step))); [|lia].
  injection Hj as <-. cbn [Nat.add]. split; [lia|].
  assert (Hm : Z.of_nat i + 1 <= (n - 0 + step - 1) / step) by lia.
  pose proof (Z.mul_div_le (n - 0 + step - 1) step Hs). nia.
Qed.

Lemma py_range_prefix (n step : Z) (done rest : list Z) :
  py_range 0 n step = done ++ rest ->
  forall i b, nth_error done i = Some b -> nth_error (py_range 0 n step) i = Some b.
Proof.
  intros -> i b H. rewrite nth_error_app1; [exact H|].
  eapply nth_error_lt, H.
Qed.

Lemma batch_not_empty (n b : Z) :
  In b (py_range 0 n batch_size) -> (0 < batch_length n b)%nat.
Proof.
  intros H. apply In_nth_error in H as [i Hi].
  apply py_range_nth in Hi as (-> & Hlt); [|reflexivity].
  unfold batch_length, batch_size in *. lia.
Qed.

Lemma batch_at_most (n b : Z) : (batch_length n b <= 5000)%nat.
Proof. unfold batch_length, batch_size. lia. Qed.

(** A batch that is not the last one is full. *)
Lemma batch_full (n : Z) (done rest : list Z) (b : Z) :
  py_range 0 n batch_size = done ++ rest -> rest <> [] -> In b done ->
  batch_length n b = 5000%nat.
Proof.
  intros Hsplit Hrest Hin. apply In_nth_error in Hin as [i Hi].
  assert (Hlen : (S i < List.length (py_range 0 n batch_size))%nat).
  { rewrite Hsplit, length_app. apply nth_error_lt in Hi.
    destruct rest; [contradiction|]. cbn. lia. }
  pose proof (py_range_prefix _ _ _ _ Hsplit _ _ Hi) as Hb.
  apply py_range_nth in Hb as (-> & _); [|reflexivity].
  destruct (nth_error (py_range 0 n batch_size) (S i)) as [b'|] eqn:Hb'.
  - apply py_range_nth in Hb' as (Hb2 & Hlt); [|reflexivity].
    unfold batch_length, batch_size in *. lia.
  - apply nth_error_None in Hb'. lia.
Qed.

Lemma batch_lengths_prefix (n : Z) (k : nat) :
  0 <= n -> Z.of_nat k <= (n - 0 + batch_size - 1) / batch_size ->
  list_sum (map (batch_length n)
                (map (fun i => 0 + Z.of_nat i * batch_size) (seq 0 k)))
  = Z.to_nat (Z.min (Z.of_nat k * batch_size) n).
Proof.
  intros Hn. induction k as [|k IH]; intros Hk.
  - cbn. lia.
  - rewrite seq_S, !map_app, list_sum_app, IH by lia.
    cbn [map list_sum fold_right Nat.add].
    pose proof (Z.mul_div_le (n - 0 + batch_size - 1) batch_size eq_refl) as Hd.
    unfold batch_length, batch_size in *. lia.
Qed.

(** The sizes of all batches add up to the number of transactions. *)
Lemma batch_lengths_total (n : Z) :
  0 <= n -> list_sum (map (batch_length n) (py_range 0 n batch_size)) = Z.to_nat n.
Proof.
  intros Hn. unfold py_range.
  assert (H0 : 0 <= (n - 0 + batch_size - 1) / batch_size).
  { apply Z.div_pos; unfold batch_size; lia. }
  rewrite batch_lengths_prefix by lia. f_equal. rewrite Z2Nat.id by exact H0.
  pose proof (Z.mod_pos_bound (n - 0 + batch_size - 1) batch_size eq_refl) as Hm.
  pose proof (Z.div_mod (n - 0 + batch_size - 1) batch_size) as Hdm.
  unfold batch_size in *. lia.
Qed.

Lemma py_range_empty (n step : Z) : 0 < step -> n <= 0 -> py_range 0 n step = [].
Proof.
  intros Hs Hn. unfold py_range.
  replace (Z.to_nat ((n - 0 + step - 1) / step)) with 0%nat; [reflexivity|].
  assert ((n - 0 + step - 1) / step <= 0); [|lia].
  assert (H : (n - 0 + step - 1) / step < 1); [|lia].
  apply Z.div_lt_upper_bound; lia.
Qed.

Lemma py_range_not_empty (n step : Z) : 0 < step -> 0 < n -> py_range 0 n step <> [].
Proof.
  intros Hs Hn H. apply (f_equal (@List.length Z)) in H.
  rewrite py_range_length in H. cbn in H.
  assert (1 <= (n - 0 + step - 1) / step); [|lia].
  apply Z.div_le_lower_bound; lia.
Qed.

Section WithFloat.
Context {F : PyFloat}.

Lemma quiet_refl (w : World F) : quiet w w.
Proof. now repeat split. Qed.

Lemma quiet_trans (w1 w2 w3 : World F) : quiet w1 w2 -> quiet w2 w3 -> quiet w1 w3.
Proof.
  unfold quiet. intros (a1 & a2 & a3 & a4 & a5 & a6 & a7) (b1 & b2 & b3 & b4 & b5 & b6 & b7).
  repeat split; congruence.
Qed.

Lemma healthy_quiet (w w' : World F) : quiet w w' -> healthy w -> healthy w'.
Proof. intros (_ & _ & _ & _ & Hf & _) H k. rewrite Hf. apply H. Qed.

(** Goals [quiet w w'] where [w'] is [w] under setters that [quiet] allows. *)
Ltac quiet_step := unfold quiet; cbn; repeat split; reflexivity.

Lemma np_spec {A} (m : M RNG A) (w w' : World F) (r : result A) :
  np m w = (r, w') ->
  quiet w w' /\ in_txn w' = in_txn w /\ m (np_random w) = (r, np_random w').
Proof.
  unfold np. destruct (m (np_random w)) as [r0 g]. intros H. injection H as <- <-.
  split; [quiet_step|]. now split.
Qed.

Lemma send_spec (w w' : World F) (r : result unit) :
  send w = (r, w') ->
  quiet w w' /\ in_txn w' = in_txn w /\ np_random w' = np_random w
  /\ (healthy w -> r = Ok tt)
  /\ (forall e, r = Raise e -> e = DatabaseError (clock w)).
Proof.
  unfold send. destruct (fault w (clock w)) eqn:Hf; intros H; injection H as <- <-.
  - split; [quiet_step|]. repeat split.
    + intros Hh. now rewrite Hh in Hf.
    + intros e He. now injection He as <-.
  - split; [quiet_step|]. repeat split. intros e He. discriminate.
Qed.

Lemma execute_spec (w w' : World F) (r : result unit) :
  execute w = (r, w') ->
  quiet w w' /\ in_txn w' = true /\ np_random w' = np_random w
  /\ (healthy w -> r = Ok tt).
Proof.
  unfold execute, bind, modify. intros H.
  apply send_spec in H as (Hq & Ht & Hn & Hh & _). cbn in *.
  split; [exact Hq|]. split; [exact Ht|]. split; [exact Hn|]. exact Hh.
Qed.

Lemma select_spec {A} (q : Tables F -> A) (w w' : World F) (r : result A) :
  select q w = (r, w') ->
  quiet w w' /\ in_txn w' = true /\ np_random w' = np_random w
  /\ (forall a, r = Ok a -> a = q (view w))
  /\ (healthy w -> r = Ok (q (view w))).
Proof.
  unfold select. intros H. apply bind_inv in H as [(u & w1 & He & Hg)|(e & He & ->)].
  - unfold gets in Hg. injection Hg as <- <-.
    apply execute_spec in He as (Hq & Ht & Hn & _).
    assert (Hv : view w1 = view w) by apply Hq. rewrite Hv.
    split; [exact Hq|]. split; [exact Ht|]. split; [exact Hn|]. split; [|reflexivity].
    intros a Ha. now injection Ha as <-.
  - apply execute_spec in He as (Hq & Ht & Hn & Hh).
    split; [exact Hq|]. split; [exact Ht|]. split; [exact Hn|]. split; [discriminate|].
    intros Hw. specialize (Hh Hw). discriminate.
Qed.

End WithFloat.

(** *** Weakest preconditions *)

Lemma wp_ret {S A} (a : A) (Q : A -> S -> Prop) (E : exn -> S -> Prop) (s : S) :
  Q a s -> wp (ret a) Q E s.
Proof. exact (fun H => H). Qed.

Lemma wp_raise {S A} (e : exn) (Q : A -> S -> Prop) (E : exn -> S -> Prop) (s : S) :
  E e s -> wp (raise e) Q E s.
Proof. exact (fun H => H). Qed.

Lemma wp_bind {S A B} (m : M S A) (k : A -> M S B)
    (Q : B -> S -> Prop) (E : exn -> S -> Prop) (s : S) :
  wp m (fun a s' => wp (k a) Q E s') E s -> wp (bind m k) Q E s.
Proof. unfold wp, bind. now destruct (m s) as [[a|e] s']. Qed.

Lemma wp_weaken {S A} (m : M S A) (Q Q' : A -> S -> Prop) (E E' : exn -> S -> Prop)
    (s : S) :
  wp m Q E s -> (forall a s', Q a s' -> Q' a s') -> (forall e s', E e s' -> E' e s') ->
  wp m Q' E' s.
Proof. unfold wp. destruct (m s) as [[a|e] s']; auto. Qed.

Lemma wp_run {S A} (m : M S A) (Q : A -> S -> Prop) (E : exn -> S -> Prop)
    (s s' : S) (r : result A) :
  wp m Q E s -> m s = (r, s') ->
  match r with Ok a => Q a s' | Raise e => E e s' end.
Proof. unfold wp. intros H Hm. now rewrite Hm in H. Qed.

(** A loop with an invariant on what is left to iterate over. *)
Lemma wp_for_fold {S A B} (body : A -> B -> M S B)
    (I : list A -> B -> S -> Prop) (E : exn -> S -> Prop) :
  (forall x rest acc s, I (x :: rest) acc s ->
     wp (body x acc) (fun acc' s' => I rest acc' s') E s) ->
  forall xs acc s, I xs acc s ->
    wp (for_fold xs body acc) (fun acc' s' => I [] acc' s') E s.
Proof.
  intros Hb. induction xs as [|x xs IH]; intros acc s HI.
  - exact HI.
  - cbn [for_fold]. apply wp_bind.
    eapply wp_weaken; [apply Hb, HI| |auto]. intros acc' s' HI'. now apply IH.
Qed.

Lemma wp_for_each {S A} (body : A -> M S unit)
    (I : list A -> S -> Prop) (E : exn -> S -> Prop) :
  (forall x rest s, I (x :: rest) s -> wp (body x) (fun _ s' => I rest s') E s) ->
  forall xs s, I xs s -> wp (for_each xs body) (fun _ s' => I [] s') E s.
Proof.
  intros Hb. induction xs as [|x xs IH]; intros s HI.
  - exact HI.
  - cbn [for_each]. apply wp_bind.
    eapply wp_weaken; [apply Hb, HI| |auto]. intros u s' HI'. now apply IH.
Qed.

Section Steps.
Context {F : PyFloat}.

Lemma choice_inv {A} (xs : list A) (g g' : RNG) (r : result A) :
  choice xs g = (r, g') ->
  (xs = [] /\ r = Raise ValueError /\ g' = g)
  \/ (exists a, r = Ok a /\ In a xs /\ g' = snd (choice xs g)).
Proof.
  destruct xs as [|x xs].
  - cbn. intros H. injection H as <- <-. now left.
  - intros H. right.
    destruct (GenerateFacts.choice_nonempty (x :: xs) g) as (a & Ha & Hin);
      [discriminate|].
    rewrite Ha in H. injection H as <- <-. eauto.
Qed.

Lemma randint_inv (low high : Z) (g g' : RNG) (r : result Z) :
  low < high -> randint low high g = (r, g') ->
  exists z, r = Ok z /\ low <= z < high /\ g' = snd (draw g).
Proof.
  intros Hlt. unfold randint. destruct (Z.ltb_spec low high); [|lia].
  destruct (draw g) as [k g1] eqn:Hd. intros Hr. injection Hr as <- <-.
  eexists. split; [reflexivity|]. split; [|reflexivity].
  pose proof (Z.mod_pos_bound (Z.of_nat k) (high - low)). lia.
Qed.

Lemma wp_choice {A} (xs : list A) (Q : A -> World F -> Prop)
    (E : exn -> World F -> Prop) (w : World F) :
  (forall w', quiet w w' -> in_txn w' = in_txn w ->
     (xs = [] -> E ValueError w') /\ (forall a, In a xs -> Q a w')) ->
  wp (np (choice xs)) Q E w.
Proof.
  intros H. unfold wp. destruct (np (choice xs) w) as [r w'] eqn:Hn.
  apply np_spec in Hn as (Hq & Ht & Hc). destruct (H w' Hq Ht) as [He HQ].
  apply choice_inv in Hc as [(-> & -> & _)|(a & -> & Hin & _)]; auto.
Qed.

Lemma wp_randint (low high : Z) (Q : Z -> World F -> Prop)
    (E : exn -> World F -> Prop) (w : World F) :
  low < high ->
  (forall w' z, quiet w w' -> in_txn w' = in_txn w -> low <= z < high -> Q z w') ->
  wp (np (randint low high)) Q E w.
Proof.
  intros Hlt H. unfold wp. destruct (np (randint low high) w) as [r w'] eqn:Hn.
  apply np_spec in Hn as (Hq & Ht & Hc).
  apply randint_inv in Hc as (z & -> & Hz & _); auto.
Qed.

Lemma wp_select {A} (q : Tables F -> A) (Q : A -> World F -> Prop)
    (E : exn -> World F -> Prop) (w : World F) :
  (forall w', quiet w w' -> in_txn w' = true ->
     Q (q (view w)) w' /\ (~ healthy w -> forall e, E e w')) ->
  wp (select q) Q E w.
Proof.
  intros H. unfold wp. destruct (select q w) as [r w'] eqn:Hs.
  apply select_spec in Hs as (Hq & Ht & _ & Hok & Hh).
  destruct (H w' Hq Ht) as [HQ HE]. destruct r as [a|e].
  - now rewrite (Hok a eq_refl).
  - apply HE. intros Hw. specialize (Hh Hw). discriminate.
Qed.

Lemma price_of_key (pid : Z) (t : Tables F) :
  In pid (map fst (products t)) -> exists p, price_of pid t = Some p.
Proof.
  unfold price_of. intros H. apply in_map_iff in H as ((k & row) & Hk & Hin).
  cbn in Hk. subst k.
  destruct (find (fun r => fst r =? pid) (products t)) as [r|] eqn:Hf.
  - cbn. eauto.
  - exfalso. apply (find_none _ _ Hf) in Hin. cbn in Hin. now rewrite Z.eqb_refl in Hin.
Qed.

Lemma discounts_not_empty : discounts <> [].
Proof. discriminate. Qed.

(** One fact row: while it is generated nothing is written; the row has its
    keys from the lists and its amounts derived from the price on file; an
    exception means that the lists, the table or the server were at fault. *)
Lemma wp_transaction (wb w : World F) (c p d : list Z) :
  quiet wb w ->
  wp (transaction c p d)
     (fun row w' => quiet wb w' /\ in_txn w' = true
                    /\ keys_in c p d row /\ priced (view wb) row)
     (fun e w' => quiet wb w' /\ row_failure wb c p d e)
     w.
Proof.
  intros Hq. unfold transaction.
  apply wp_bind, wp_choice. intros w1 Hq1 _. apply (quiet_trans _ _ _ Hq) in Hq1. split.
  { intros ->. split; [exact Hq1|]. right. left. split; [now left|reflexivity]. }
  intros cid Hcid.
  apply wp_bind, wp_choice. intros w2 Hq2 _. apply (quiet_trans _ _ _ Hq1) in Hq2. split.
  { intros ->. split; [exact Hq2|]. right. left. split; [right; now left|reflexivity]. }
  intros pid Hpid.
  apply wp_bind, wp_choice. intros w3 Hq3 _. apply (quiet_trans _ _ _ Hq2) in Hq3. split.
  { intros ->. split; [exact Hq3|]. right. left. split; [right; now right|reflexivity]. }
  intros did Hdid.
  assert (Hv3 : view w3 = view wb) by apply Hq3.
  apply wp_bind, wp_select. intros w4 Hq4 Ht4. apply (quiet_trans _ _ _ Hq3) in Hq4.
  split.
  2:{ intros Hh e. split; [exact Hq4|]. left.
      intros Hw. apply Hh. eapply healthy_quiet; eauto. }
  rewrite Hv3. apply wp_bind. destruct (price_of pid (view wb)) as [up|] eqn:Hprice.
  2:{ apply wp_raise. split; [exact Hq4|]. right. right. intros Hincl.
      destruct (price_of_key pid (view wb) (Hincl _ Hpid)) as (x & Hx). congruence. }
  apply wp_ret.
  apply wp_bind, wp_randint; [lia|]. intros w5 q Hq5 Ht5 Hqty.
  apply (quiet_trans _ _ _ Hq4) in Hq5.
  apply wp_bind, wp_choice. intros w6 Hq6 Ht6. apply (quiet_trans _ _ _ Hq5) in Hq6.
  split; [intros He; now destruct discounts_not_empty|].
  intros dpct Hdpct. apply wp_ret.
  split; [exact Hq6|]. split; [congruence|]. split; [now repeat split|].
  split; [exact Hprice|]. split; [cbn; lia|].
  exists dpct. split; [exact Hdpct|]. now split.
Qed.

Lemma executemany_spec (rows : list (FactRow F)) (w w' : World F) (r : result unit) :
  executemany rows w = (r, w') ->
  fault w' = fault w /\ committed w' = committed w /\ in_txn w' = true
  /\ ((r = Ok tt /\ view w' = add_sales rows (view w)
       /\ log w' = log w ++ [ExecuteMany rows true])
      \/ (exists e, r = Raise e /\ ~ healthy w /\ view w' = view w
                    /\ log w' = log w ++ [ExecuteMany rows false])).
Proof.
  unfold executemany, logged, bind.
  destruct (execute w) as [[[]|e] w1] eqn:He;
    apply execute_spec in He as (Hq & Ht & _ & Hh);
    destruct Hq as (_ & Hc & Hv & _ & Hf & Hl & _);
    cbn; intros H; injection H as <- <-; cbn.
  - rewrite Hc, Hv, Hl. repeat (split; [congruence|]). left. now repeat split.
  - rewrite Hc, Hv, Hl. repeat (split; [congruence|]). right. exists e.
    repeat (split; [congruence|]). split; [|now split].
    intros Hw. specialize (Hh Hw). discriminate.
Qed.

Lemma commit_spec (w w' : World F) (r : result unit) :
  commit w = (r, w') ->
  fault w' = fault w /\ view w' = view w
  /\ ((in_txn w = false /\ r = Ok tt /\ w' = w)
      \/ (in_txn w = true /\ r = Ok tt /\ committed w' = view w
          /\ in_txn w' = false /\ log w' = log w ++ [Commit true])
      \/ (in_txn w = true /\ exists e, r = Raise e /\ ~ healthy w
          /\ committed w' = committed w /\ in_txn w' = true
          /\ log w' = log w ++ [Commit false])).
Proof.
  unfold commit. destruct (in_txn w) eqn:Ht.
  - unfold logged, bind. destruct (send w) as [[[]|e] w1] eqn:He;
      apply send_spec in He as (Hq & Ht1 & _ & Hh & _);
      destruct Hq as (_ & Hc & Hv & _ & Hf & Hl & _);
      cbn; intros H; injection H as <- <-; cbn.
    + rewrite Hv, Hl. repeat (split; [congruence|]). right. left. now repeat split.
    + rewrite Hc, Hv, Hl. repeat (split; [congruence|]). right. right.
      split; [reflexivity|]. exists e. split; [reflexivity|]. split.
      * intros Hw. specialize (Hh Hw). discriminate.
      * repeat split; congruence.
  - intros H. injection H as <- <-. repeat (split; [congruence|]). left. now repeat split.
Qed.

(** The inner loop: the rows of one batch. *)
Lemma wp_batch_rows (wb w : World F) (c p d : list Z) (xs : list Z) :
  quiet wb w ->
  wp (for_fold xs
        (fun _ batch_transactions =>
           t <- transaction c p d ;; ret (batch_transactions ++ [t]))
        [])
     (fun rows w' => quiet wb w' /\ List.length rows = List.length xs
                     /\ Forall (fun r => keys_in c p d r /\ priced (view wb) r) rows)
     (fun e w' => quiet wb w' /\ row_failure wb c p d e)
     w.
Proof.
  intros Hq.
  eapply wp_weaken;
    [apply (wp_for_fold _
              (fun rest acc w' =>
                 quiet wb w'
                 /\ (List.length acc + List.length rest = List.length xs)%nat
                 /\ Forall (fun r => keys_in c p d r /\ priced (view wb) r) acc)
              (fun e w' => quiet wb w' /\ row_failure wb c p d e))| |].
  - intros x rest acc s (Hqs & Hlen & Hall). apply wp_bind.
    eapply wp_weaken; [apply (wp_transaction wb s), Hqs| |auto].
    intros row s' (Hq' & _ & Hk & Hp). apply wp_ret. split; [exact Hq'|]. split.
    + rewrite length_app. cbn in *. lia.
    + apply Forall_app. split; [exact Hall|]. constructor; [now split|constructor].
  - split; [exact Hq|]. split; [reflexivity|constructor].
  - cbn. intros rows s' (Hq' & Hlen & Hall). split; [exact Hq'|]. split; [lia|exact Hall].
  - auto.
Qed.

Lemma price_of_same (t t' : Tables F) (pid : Z) :
  products t' = products t -> price_of pid t' = price_of pid t.
Proof. unfold price_of. now intros ->. Qed.

Lemma priced_same (t t' : Tables F) (r : FactRow F) :
  products t' = products t -> priced t r -> priced t' r.
Proof.
  intros H (Hp & Hq & Hd). split; [|now split]. now rewrite (price_of_same t t').
Qed.

Lemma add_sales_add_sales (r1 r2 : list (FactRow F)) (t : Tables F) :
  add_sales r2 (add_sales r1 t) = add_sales (r1 ++ r2) t.
Proof. unfold add_sales. cbn. now rewrite app_assoc. Qed.

Lemma flat_map_snoc {A B} (f : A -> list B) (l : list A) (x : A) :
  flat_map f (l ++ [x]) = flat_map f l ++ f x.
Proof. rewrite flat_map_app. cbn. now rewrite app_nil_r. Qed.

Lemma concat_snoc {A} (l : list (list A)) (x : list A) :
  concat (l ++ [x]) = concat l ++ x.
Proof. rewrite concat_app. cbn. now rewrite app_nil_r. Qed.

(** One iteration of the outer loop, entered with every earlier batch
    committed: either it commits one more complete batch, or it raises with
    nothing more committed. *)
Lemma wp_load_batch (w0 w : World F) (n batch : Z)
    (bs : list (list (FactRow F))) (done : list Z) :
  let t0 := committed w0 in
  let c := map fst (customers t0) in
  let p := map fst (products t0) in
  let d := map fst (date_dimension t0) in
  reached w0 n bs done w ->
  view w = committed w ->
  log w = log w0 ++ flat_map batch_events bs ->
  (0 < batch_length n batch)%nat ->
  wp (load_batch c p d n batch)
     (fun _ w' => exists rows,
          reached w0 n (bs ++ [rows]) (done ++ [batch]) w'
          /\ view w' = committed w'
          /\ log w' = log w0 ++ flat_map batch_events (bs ++ [rows])
          /\ in_txn w' = false)
     (fun e w' => exists tail,
          reached w0 n bs done w'
          /\ log w' = log w0 ++ flat_map batch_events bs ++ tail
          /\ interrupted t0 tail w'
          /\ (~ healthy w0 \/ (starved c p d /\ e = ValueError /\ tail = [])))
     w.
Proof.
  intros t0 c p d (Hf & Hc & Hgood & Hsized) Hv Hl Hpos.
  assert (Hprod : products (view w) = products t0) by (rewrite Hv, Hc; reflexivity).
  unfold load_batch. apply wp_bind.
  eapply wp_weaken; [apply (wp_batch_rows w w c p d), quiet_refl| |].
  - (* the rows are there *)
    intros rows w1 (Hq1 & Hlen & Hrows).
    rewrite py_range_unit_length in Hlen. fold (batch_length n batch) in Hlen.
    assert (Hrows' : Forall (good t0) rows).
    { eapply Forall_impl; [|exact Hrows]. intros r (Hk & Hp). split; [exact Hk|].
      now apply (priced_same (view w)). }
    assert (Hne : rows <> []) by (intros ->; cbn in Hlen; lia).
    destruct Hq1 as (_ & Hc1 & Hv1 & _ & Hf1 & Hl1 & _).
    apply wp_bind. unfold wp at 1.
    destruct (executemany rows w1) as [r w2] eqn:He.
    apply executemany_spec in He
      as (Hf2 & Hc2 & Ht2 & [(-> & Hv2 & Hl2)|(e & -> & Hh & Hv2 & Hl2)]).
    + unfold wp. destruct (commit w2) as [r w3] eqn:Hcm.
      apply commit_spec in Hcm
        as (Hf3 & Hv3 & [(Ht & _)|[(_ & -> & Hc3 & Ht3 & Hl3)
                                  |(_ & e & -> & Hh & Hc3 & Ht3 & Hl3)]]).
      * congruence.
      * exists rows. split; [|split; [|split]].
        -- split; [congruence|]. split.
           ++ rewrite Hc3, Hv2, Hv1, Hv, Hc, concat_snoc. apply add_sales_add_sales.
           ++ split.
              ** apply Forall_app. split; [exact Hgood|].
                 constructor; [exact Hrows'|constructor].
              ** apply Forall2_app; [exact Hsized|].
                 constructor; [exact Hlen|constructor].
        -- congruence.
        -- rewrite Hl3, Hl2, Hl1, Hl, flat_map_snoc, <- !app_assoc. reflexivity.
        -- exact Ht3.
      * exists [ExecuteMany rows true; Commit false]. split; [|split; [|split]].
        -- split; [congruence|]. split; [congruence|]. now split.
        -- rewrite Hl3, Hl2, Hl1, Hl, <- !app_assoc. reflexivity.
        -- right. split; [exact Ht3|]. exists rows. split; [exact Hne|].
           split; [exact Hrows'|]. now right.
        -- left. intros Hw. apply Hh. intros k. rewrite Hf2, Hf1, Hf. apply Hw.
    + exists [ExecuteMany rows false]. split; [|split; [|split]].
      * split; [congruence|]. split; [congruence|]. now split.
      * rewrite Hl2, Hl1, Hl, <- !app_assoc. reflexivity.
      * right. split; [exact Ht2|]. exists rows. split; [exact Hne|].
        split; [exact Hrows'|]. now left.
      * left. intros Hw. apply Hh. intros k. rewrite Hf1, Hf. apply Hw.
  - (* generation raised *)
    intros e w1 (Hq1 & Hfail). destruct Hq1 as (_ & Hc1 & Hv1 & _ & Hf1 & Hl1 & _).
    exists []. split; [|split; [|split]].
    + split; [congruence|]. split; [congruence|]. now split.
    + now rewrite Hl1, Hl, app_nil_r.
    + left. split; [reflexivity|congruence].
    + destruct Hfail as [Hh|[(Hs & ->)|Hincl]].
      * left. intros Hw. apply Hh. intros k. rewrite Hf. apply Hw.
      * right. now repeat split.
      * exfalso. apply Hincl. rewrite Hprod. apply incl_refl.
Qed.

(** The outer loop keeps [between] and raises in [failed]. *)
Lemma wp_batches (w0 : World F) (n : Z) (w : World F) :
  let t0 := committed w0 in
  between w0 n (py_range 0 n batch_size) w ->
  wp (for_each (py_range 0 n batch_size)
        (load_batch (map fst (customers t0)) (map fst (products t0))
                    (map fst (date_dimension t0)) n))
     (fun _ w' => between w0 n [] w') (failed w0 n) w.
Proof.
  intros t0 Hw.
  apply (wp_for_each _ (between w0 n) (failed w0 n)); [|exact Hw].
  clear w Hw. intros batch rest w (bs & done & Hsplit & Hreach & Hv & Hl & _).
  assert (Hpos : (0 < batch_length n batch)%nat).
  { apply batch_not_empty. rewrite Hsplit. apply in_or_app. right. now left. }
  eapply wp_weaken; [apply (wp_load_batch w0 w n batch bs done Hreach Hv Hl Hpos)| |].
  - intros u w' (rows & Hreach' & Hv' & Hl' & Ht').
    exists (bs ++ [rows]), (done ++ [batch]). split; [now rewrite <- app_assoc|].
    split; [exact Hreach'|]. split; [exact Hv'|]. split; [exact Hl'|]. split.
    + intros _. exact Ht'.
    + intros H. now apply app_eq_nil in H as [_ H].
  - intros e w' (tail & Hreach' & Hl' & Hint & Hcause).
    exists bs, done, (batch :: rest), tail. split; [exact Hsplit|].
    split; [right; discriminate|]. split; [exact Hreach'|]. split; [exact Hl'|].
    split; [exact Hint|]. destruct Hcause as [Hh|(Hs & He & Ht)]; [now left|].
    right. repeat (split; [assumption|]). discriminate.
Qed.

Lemma get_connection_spec (w w' : World F) (r : result unit) :
  get_connection w = (r, w') ->
  fault w' = fault w /\ committed w' = committed w /\ log w' = log w
  /\ ((r = Ok tt /\ view w' = committed w /\ in_txn w' = false)
      \/ (exists e, r = Raise e /\ ~ healthy w)).
Proof.
  unfold get_connection, bind.
  destruct (send w) as [[[]|e] w1] eqn:He;
    apply send_spec in He as (Hq & _ & _ & Hh & _);
    destruct Hq as (_ & Hc & _ & _ & Hf & Hl & _);
    cbn; intros H; injection H as <- <-; cbn.
  - rewrite Hc. repeat (split; [congruence|]). left. now repeat split.
  - repeat (split; [congruence|]). right. exists e. split; [reflexivity|].
    intros Hw. specialize (Hh Hw). discriminate.
Qed.

Lemma get_connection_frame (w w' : World F) (r : result unit) :
  get_connection w = (r, w') -> files w' = files w /\ next_key w' = next_key w.
Proof.
  unfold get_connection, bind.
  destruct (send w) as [[[]|e] w1] eqn:He;
    apply send_spec in He as (Hq & _);
    destruct Hq as (Hfi & _ & _ & Hk & _);
    cbn; intros H; injection H as <- <-; cbn; now split.
Qed.

Lemma rollback_spec (w : World F) :
  rollback w
  = (Ok tt, if in_txn w
            then add_log Rollback (set_in_txn false (set_view (committed w) w))
            else w).
Proof. unfold rollback. now destruct (in_txn w). Qed.

Lemma add_sales_nil (t : Tables F) : add_sales [] t = t.
Proof. destruct t. unfold add_sales. cbn. now rewrite app_nil_r. Qed.

(** The block under the connection, entered on a fresh connection. *)
Lemma wp_block (w0 w1 : World F) (n : Z) :
  fault w1 = fault w0 -> committed w1 = committed w0 -> log w1 = log w0 ->
  view w1 = committed w1 ->
  wp (customer_ids <- select (fun t => map fst (customers t)) ;;
      product_ids <- select (fun t => map fst (products t)) ;;
      date_ids <- select (fun t => map fst (date_dimension t)) ;;
      for_each (py_range 0 n batch_size)
        (load_batch customer_ids product_ids date_ids n))
     (fun _ w' => between w0 n [] w') (failed w0 n) w1.
Proof.
  intros Hf Hc Hl Hv.
  assert (Hfail : forall w', quiet w1 w' -> ~ healthy w1 -> forall e, failed w0 n e w').
  { intros w' (_ & Hc' & Hv' & _ & Hf' & Hl' & _) Hh e.
    exists [], [], (py_range 0 n batch_size), []. split; [reflexivity|].
    split; [now left|]. split; [|split; [|split]].
    - split; [congruence|]. split; [|now split]. cbn. rewrite add_sales_nil. congruence.
    - cbn. rewrite app_nil_r. congruence.
    - left. split; [reflexivity|congruence].
    - left. intros Hw. apply Hh. intros k. rewrite Hf. apply Hw. }
  apply wp_bind, wp_select. intros w2 Hq2 Ht2. split; [|now apply Hfail].
  apply wp_bind, wp_select. intros w3 Hq3 Ht3.
  pose proof (quiet_trans _ _ _ Hq2 Hq3) as Hq13. split.
  2:{ intros Hh. apply Hfail; [exact Hq13|]. intros Hw. apply Hh.
      eapply healthy_quiet; eauto. }
  apply wp_bind, wp_select. intros w4 Hq4 Ht4.
  pose proof (quiet_trans _ _ _ Hq13 Hq4) as Hq14. split.
  2:{ intros Hh. apply Hfail; [exact Hq14|]. intros Hw. apply Hh.
      eapply healthy_quiet; eauto. }
  assert (Hv2 : view w2 = committed w0) by (destruct Hq2 as (_ & _ & -> & _); congruence).
  assert (Hv3 : view w3 = committed w0) by (destruct Hq13 as (_ & _ & -> & _); congruence).
  rewrite Hv2, Hv3. replace (view w1) with (committed w0) by congruence.
  apply wp_batches. destruct Hq14 as (_ & Hc4 & Hv4 & _ & Hf4 & Hl4 & _).
  exists [], []. split; [reflexivity|]. split; [|split; [|split; [|split]]].
  - split; [congruence|]. split; [|now split]. cbn. rewrite add_sales_nil. congruence.
  - congruence.
  - cbn. rewrite app_nil_r. congruence.
  - intros H. now contradiction H.
  - intros _. exact Ht4.
Qed.

(** Every run of [generate_and_load_transactions] ends in [outcome]. *)
Lemma run_outcome (n : Z) (w w' : World F) (r : result unit) :
  generate_and_load_transactions n w = (r, w') -> outcome n w r w'.
Proof.
  unfold generate_and_load_transactions, with_connection. intros H.
  apply bind_inv in H as [(u & w1 & Hg & H)|(e & Hg & ->)].
  2:{ apply get_connection_spec in Hg as (Hf & Hc & Hl & [(Hr & _)|(e' & _ & Hh)]);
        [discriminate|].
      exists [], [], (py_range 0 n batch_size), []. split; [reflexivity|].
      split; [|split; [|split; [|split; [|split]]]].
      - split; [exact Hf|]. split; [|now split]. cbn. now rewrite add_sales_nil.
      - cbn. now rewrite app_nil_r.
      - intros rows ok [].
      - constructor.
      - now left.
      - now left. }
  apply get_connection_spec in Hg as (Hf & Hc & Hl & [(_ & Hv & Ht)|(e' & He & _)]);
    [|discriminate].
  assert (Hv1 : view w1 = committed w1) by congruence.
  pose proof (wp_block w w1 n Hf Hc Hl Hv1) as Hwp. unfold wp in Hwp.
  match type of H with
  | (match ?body w1 with _ => _ end) = _ => destruct (body w1) as [[[]|e] w2]
  end.
  - (* the block returned: the connection commits *)
    destruct Hwp as (bs & done & Hsplit & Hreach & Hv2 & Hl2 & Hidle & Hopen).
    rewrite app_nil_r in Hsplit. apply bind_inv in H as [(u' & w3 & Hcm & H)|(e & Hcm & ->)].
    + injection H as <- <-.
      apply commit_spec in Hcm
        as (Hf3 & Hv3 & [(Ht2 & _ & ->)|[(Ht2 & _ & Hc3 & Ht3 & Hl3)|(_ & e & He & _)]]);
        [| |discriminate].
      * destruct bs as [|b bs]; [specialize (Hopen eq_refl); congruence|].
        exists (b :: bs), done, [], []. rewrite !app_nil_r.
        split; [exact Hsplit|]. split; [exact Hreach|]. split; [exact Hl2|].
        split; [intros rows ok []|]. split; [reflexivity|]. split; [exact Hv2|].
        right. split; [discriminate|reflexivity].
      * destruct bs as [|b bs]; [|assert (in_txn w2 = false) by (apply Hidle; discriminate);
                                   congruence].
        exists [], done, [], [Commit true]. rewrite !app_nil_r.
        destruct Hreach as (Hf2 & Hc2 & Hg2 & Hs2).
        split; [exact Hsplit|]. split; [|split; [|split; [|split; [|split]]]].
        -- split; [congruence|]. split; [congruence|]. now split.
        -- rewrite Hl3, Hl2. cbn. now rewrite app_nil_r.
        -- intros rows ok [Hin|[]]. discriminate.
        -- reflexivity.
        -- congruence.
        -- now left.
    + apply commit_spec in Hcm
        as (Hf3 & Hv3 & [(_ & Hr & _)|[(_ & Hr & _)|(Ht2 & e' & He & Hh & Hc3 & Ht3 & Hl3)]]);
        try discriminate.
      injection He as <-.
      destruct bs as [|b bs]; [|assert (in_txn w2 = false) by (apply Hidle; discriminate);
                                 congruence].
      exists [], done, [], [Commit false]. rewrite !app_nil_r.
      destruct Hreach as (Hf2 & Hc2 & Hg2 & Hs2).
      split; [exact Hsplit|]. split; [|split; [|split; [|split; [|split]]]].
      * split; [congruence|]. split; [congruence|]. now split.
      * rewrite Hl3, Hl2. cbn. now rewrite app_nil_r.
      * intros rows ok [Hin|[]]. discriminate.
      * constructor.
      * left. now inversion Hs2.
      * left. intros Hw. apply Hh. intros k. rewrite Hf2. apply Hw.
  - (* the block raised: the connection rolls back *)
    destruct Hwp as (bs & done & rest & tail & Hsplit & Hpos & Hreach & Hl2 & Hint & Hcause).
    unfold bind in H. rewrite rollback_spec in H. cbn in H. injection H as <- <-.
    destruct Hreach as (Hf2 & Hc2 & Hg2 & Hs2).
    destruct (in_txn w2) eqn:Ht2.
    + exists bs, done, rest, (tail ++ [Rollback]). split; [exact Hsplit|].
      split; [|split; [|split; [|split; [|split]]]].
      * now split.
      * cbn. rewrite Hl2, <- !app_assoc. reflexivity.
      * intros rows ok Hin. apply in_app_or in Hin as [Hin|[Hin|[]]]; [|discriminate].
        destruct Hint as [(-> & _)|(_ & rows' & Hne & Hgood & [->| ->])].
        -- destruct Hin.
        -- destruct Hin as [Hin|[]]. now injection Hin as <- _.
        -- destruct Hin as [Hin|[Hin|[]]]; [|discriminate]. now injection Hin as <- _.
      * destruct Hint as [(-> & _)|(_ & rows' & Hne & Hgood & [->| ->])]; constructor.
      * exact Hpos.
      * destruct Hcause as [Hh|(Hs & He & -> & Hr)]; [now left|]. right. auto.
    + exists bs, done, rest, tail. split; [exact Hsplit|].
      destruct Hint as [(-> & Hv2)|(Hopen & _)]; [|congruence].
      split; [|split; [|split; [|split; [|split]]]].
      * now split.
      * exact Hl2.
      * intros rows ok [].
      * constructor.
      * exact Hpos.
      * destruct Hcause as [Hh|(Hs & He & _ & Hr)]; [now left|]. right. auto.
Qed.

(** An exception of the first step of [main] is printed by the handler of
    [main], and nothing else is run. *)
Lemma main_reports_load_failure (w : World F) (e : exn) :
  fst (load_dimension_tables w) = Raise e ->
  main w = print (ErrorDuringDataLoading e) (snd (load_dimension_tables w)).
Proof.
  intros H. unfold main, try_except, bind.
  destruct (load_dimension_tables w) as [r w1]. cbn in H. now subst r.
Qed.

(** So is an exception of the second step. *)
Lemma main_reports_generation_failure (w0 w : World F) (e : exn) :
  load_dimension_tables w0 = (Ok tt, w) ->
  fst (generate_and_load_transactions 85000 w) = Raise e ->
  main w0 = print (ErrorDuringDataLoading e)
                  (snd (generate_and_load_transactions 85000 w)).
Proof.
  intros Hl H. unfold main, try_except, bind. rewrite Hl.
  destruct (generate_and_load_transactions 85000 w) as [r w1]. cbn in H. now subst r.
Qed.

(** Every row a run commits or hands to [executemany] is built from the
    dimension tables as they were committed when the run began. *)
Lemma generated_rows_good (n : Z) (w : World F) :
  let t0 := committed w in
  let w' := snd (generate_and_load_transactions n w) in
  exists new added,
    sales_transactions (committed w') = sales_transactions t0 ++ new
    /\ log w' = log w ++ added
    /\ Forall (good t0) new
    /\ (forall rows ok, In (ExecuteMany rows ok) added -> Forall (good t0) rows).
Proof.
  intros t0 w'. subst w'.
  destruct (generate_and_load_transactions n w) as [r w'] eqn:Hrun.
  apply run_outcome in Hrun
    as (bs & done & rest & tail & _ & (_ & Hc & Hg & _) & Hl & Htail & _).
  exists (concat bs), (flat_map batch_events bs ++ tail). cbn [snd].
  split; [now rewrite Hc|]. split; [exact Hl|]. split.
  - apply Forall_concat, Hg.
  - intros rows ok Hin. apply in_app_or in Hin as [Hin|Hin]; [|now apply (Htail rows ok)].
    apply in_flat_map in Hin as (b & Hb & [Heq|[Heq|[]]]); [|discriminate].
    injection Heq as <- _. rewrite Forall_forall in Hg. now apply Hg.
Qed.

(** C1: every fact row that [generate_and_load_transactions] commits, and
    every row it hands to [executemany], has its customer, product and date
    key among the keys that the three dimension tables held when the run
    began. *)
Theorem C1_keys_come_from_the_dimension_tables (n : Z) (w : World F) :
  let t0 := committed w in
  let w' := snd (generate_and_load_transactions n w) in
  exists new added,
    sales_transactions (committed w') = sales_transactions t0 ++ new
    /\ log w' = log w ++ added
    /\ (forall row, In row new ->
          In (customer_id row) (map fst (customers t0))
          /\ In (product_id row) (map fst (products t0))
          /\ In (date_id row) (map fst (date_dimension t0)))
    /\ (forall rows ok row, In (ExecuteMany rows ok) added -> In row rows ->
          In (customer_id row) (map fst (customers t0))
          /\ In (product_id row) (map fst (products t0))
          /\ In (date_id row) (map fst (date_dimension t0))).
Proof.
  intros t0 w'. destruct (generated_rows_good n w) as (new & added & Hs & Hl & Hn & Ha).
  exists new, added. split; [exact Hs|]. split; [exact Hl|]. split.
  - intros row Hin. rewrite Forall_forall in Hn. now destruct (Hn row Hin).
  - intros rows ok row Hev Hin. specialize (Ha rows ok Hev).
    rewrite Forall_forall in Ha. now destruct (Ha row Hin).
Qed.

(** Every committed row has the money fields the loop body derives. *)
Lemma rows_are_priced (n : Z) (w : World F) :
  let t0 := committed w in
  let w' := snd (generate_and_load_transactions n w) in
  exists new,
    sales_transactions (committed w') = sales_transactions t0 ++ new
    /\ forall row, In row new ->
         price_of (product_id row) t0 = Some (unit_price row)
         /\ 1 <= quantity row <= 5
         /\ exists d, In d discounts /\ derived row d.
Proof.
  intros t0 w'. destruct (generated_rows_good n w) as (new & added & Hs & _ & Hn & _).
  exists new. split; [exact Hs|]. intros row Hin. rewrite Forall_forall in Hn.
  now destruct (Hn row Hin) as (_ & Hp).
Qed.

(** C2, amended: every generated fact row carries the price that the
    products table holds for its product, a quantity from 1 to 5 and, for one
    of the four discounts [d], the amounts
    [discount_amount = round(unit_price * quantity * d, 2)] and
    [total_amount = round(unit_price * quantity - discount_amount, 2)]: the
    total is rounded from the already rounded discount. *)
Theorem C2_amounts_derived_from_rounded_discount (n : Z) (w : World F) :
  let t0 := committed w in
  let w' := snd (generate_and_load_transactions n w) in
  exists new,
    sales_transactions (committed w') = sales_transactions t0 ++ new
    /\ forall row, In row new ->
         price_of (product_id row) t0 = Some (unit_price row)
         /\ 1 <= quantity row <= 5
         /\ exists d, In d discounts
              /\ discount_amount row
                 = round2 (fmul (fmul (unit_price row) (of_int (quantity row))) d)
              /\ total_amount row
                 = round2 (fsub (fmul (unit_price row) (of_int (quantity row)))
                                (discount_amount row)).
Proof.
  intros t0 w'. destruct (generated_rows_good n w) as (new & added & Hs & _ & Hn & _).
  exists new. split; [exact Hs|]. intros row Hin. rewrite Forall_forall in Hn.
  destruct (Hn row Hin) as (_ & Hp & Hq & d & Hd & Hda & Hta). eauto 10.
Qed.


Lemma sized_lengths (n : Z) (bs : list (list (FactRow F))) (starts : list Z) :
  Forall2 (sized n) bs starts ->
  map (@List.length _) bs = map (batch_length n) starts.
Proof. induction 1 as [|b s bs ss Hb _ IH]; cbn; [reflexivity|]. now rewrite Hb, IH. Qed.

Lemma Forall2_left {A B} (R : A -> B -> Prop) (P : A -> Prop) (l1 : list A) (l2 : list B) :
  (forall a b, In b l2 -> R a b -> P a) -> Forall2 R l1 l2 -> Forall P l1.
Proof.
  intros H HF. induction HF as [|a b l1 l2 Hab _ IH]; constructor.
  - apply (H a b); [now left|exact Hab].
  - apply IH. intros a' b' Hin. apply H. now right.
Qed.

(** With an empty key list no batch can have been committed. *)
Lemma starved_no_batch (n : Z) (w w' : World F)
    (bs : list (list (FactRow F))) (done rest : list Z) :
  let t0 := committed w in
  starved (map fst (customers t0)) (map fst (products t0)) (map fst (date_dimension t0)) ->
  py_range 0 n batch_size = done ++ rest ->
  reached w n bs done w' ->
  bs = [] /\ done = [].
Proof.
  intros t0 Hst Hsplit (_ & _ & Hg & Hs). subst t0.
  destruct Hs as [|b s bs' ss Hb Hrest]; [now split|]. exfalso.
  assert (Hpos : (0 < batch_length n s)%nat).
  { apply batch_not_empty. rewrite Hsplit. now left. }
  unfold sized in Hb. destruct b as [|row b]; [cbn in Hb; lia|].
  inversion Hg as [|? ? Hgb _]; subst. inversion Hgb as [|? ? Hrow _]; subst.
  destruct Hrow as ((Hc & Hp & Hd) & _).
  destruct Hst as [Hst|[Hst|Hst]]; rewrite Hst in *; contradiction.
Qed.

(** C4: for [n >= 0], with a server that does not fail and, when [n > 0],
    dimension tables that are not empty, [generate_and_load_transactions n]
    returns normally having committed exactly [n] new fact rows, in
    [ceil(n / 5000)] consecutive batches of at most 5000 rows (all full but
    possibly the last); the log shows one bulk insertion per batch, each
    followed by its commit before the next insertion.  For [n = 0] there is no
    batch and no insertion, only the commit that closes the connection. *)
Theorem C4_all_rows_in_committed_batches (n : Z) (w : World F) :
  0 <= n -> healthy w ->
  (0 < n -> customers (committed w) <> [] /\ products (committed w) <> []
            /\ date_dimension (committed w) <> []) ->
  let t0 := committed w in
  exists bs w',
    generate_and_load_transactions n w = (Ok tt, w')
    /\ sales_transactions (committed w') = sales_transactions t0 ++ concat bs
    /\ same_dimensions t0 (committed w')
    /\ List.length (concat bs) = Z.to_nat n
    /\ List.length bs = Z.to_nat ((n + 4999) / 5000)
    /\ Forall2 (fun b start => List.length b = Z.to_nat (Z.min 5000 (n - start)))
               bs (py_range 0 n 5000)
    /\ Forall (fun b => (1 <= List.length b <= 5000)%nat) bs
    /\ log w' = log w ++ flat_map (fun b => [ExecuteMany b true; Commit true]) bs
                      ++ (if n =? 0 then [Commit true] else [])
    /\ (n = 0 -> bs = [] /\ committed w' = committed w).
Proof.
  intros Hn Hh Hfull t0.
  destruct (generate_and_load_transactions n w) as [r w'] eqn:Hrun.
  pose proof (run_outcome n w w' r Hrun)
    as (bs & done & rest & tail & Hsplit & Hreach & Hl & _ & Hres).
  destruct r as [[]|e].
  2:{ exfalso. destruct Hres as (_ & _ & [Hbad|(Hst & _ & _ & Hrest)]); [now apply Hbad|].
      assert (Hpos : 0 < n).
      { destruct (Z.ltb_spec 0 n) as [|Hle]; [assumption|].
        rewrite (py_range_empty n batch_size eq_refl Hle) in Hsplit.
        symmetry in Hsplit. apply app_eq_nil in Hsplit as [_ Hsplit]. contradiction. }
      destruct (Hfull Hpos) as (Hc & Hp & Hd).
      destruct Hst as [Hst|[Hst|Hst]]; apply map_eq_nil in Hst; contradiction. }
  destruct Hres as (-> & Hv & Htail). rewrite app_nil_r in Hsplit. subst done.
  destruct Hreach as (_ & Hc & Hg & Hs).
  exists bs, w'. split; [reflexivity|]. split; [now rewrite Hc|].
  split; [now rewrite Hc|].
  assert (Hlen : List.length bs = List.length (py_range 0 n batch_size))
    by (eapply Forall2_length; eauto).
  split; [|split; [|split; [|split; [|split]]]].
  - rewrite length_concat, (sized_lengths n bs _ Hs). now apply batch_lengths_total.
  - rewrite Hlen, py_range_length. unfold batch_size. f_equal. f_equal. lia.
  - eapply Forall2_impl; [|exact Hs]. intros b s Hb. unfold sized, batch_length in Hb.
    rewrite Hb. unfold batch_size. f_equal. lia.
  - apply (Forall2_left (sized n) _ bs (py_range 0 n batch_size)); [|exact Hs].
    intros b s Hin Hb. unfold sized in Hb. rewrite Hb.
    pose proof (batch_not_empty n s Hin). pose proof (batch_at_most n s). lia.
  - rewrite Hl. f_equal. f_equal.
    destruct (Z.eqb_spec n 0) as [->|Hne].
    + rewrite py_range_empty in Hs by (unfold batch_size; lia). inversion Hs; subst.
      destruct Htail as [(_ & ->)|(Hb & _)]; [reflexivity|contradiction].
    + destruct bs as [|b bs].
      * exfalso. apply (py_range_not_empty n batch_size); [reflexivity|lia|].
        now inversion Hs.
      * destruct Htail as [(Hb & _)|(_ & ->)]; [discriminate|reflexivity].
  - intros ->. rewrite py_range_empty in Hs by (unfold batch_size; lia).
    inversion Hs; subst. split; [reflexivity|]. rewrite Hc. apply add_sales_nil.
Qed.

(** C5: a run that returns has logged no failed insertion or commit, and a
    run that raises (no exception is caught on the way) leaves committed
    exactly the rows of the batches [1..k-1] that were committed before the
    failure, each with its 5000 rows, and nothing of batch [k] or of a later
    one; after the last committed batch the log shows at most the one failed
    insertion or commit and the rollback, never a second attempt; and [main],
    which calls it for 85000 rows, prints the exception and stops. *)
Theorem C5_failed_run_keeps_committed_batches (n : Z) (w : World F) :
  let t0 := committed w in
  let r := fst (generate_and_load_transactions n w) in
  let w' := snd (generate_and_load_transactions n w) in
  exists bs tail,
    sales_transactions (committed w') = sales_transactions t0 ++ concat bs
    /\ same_dimensions t0 (committed w')
    /\ log w' = log w ++ flat_map (fun b => [ExecuteMany b true; Commit true]) bs ++ tail
    /\ match r with
       | Ok _ => tail = [] \/ tail = [Commit true]
       | Raise e =>
           aborted tail
           /\ Forall (fun b => List.length b = 5000%nat) bs
           /\ (0 < n -> (List.length bs < List.length (py_range 0 n 5000))%nat)
           /\ (forall w0, n = 85000 -> load_dimension_tables w0 = (Ok tt, w) ->
                 main w0 = print (ErrorDuringDataLoading e) w')
       end.
Proof.
  intros t0 r w'. subst r w'.
  assert (Hmain : forall w0 e, n = 85000 -> load_dimension_tables w0 = (Ok tt, w) ->
            fst (generate_and_load_transactions n w) = Raise e ->
            main w0 = print (ErrorDuringDataLoading e)
                            (snd (generate_and_load_transactions n w))).
  { intros w0 e -> Hl He. now apply main_reports_generation_failure. }
  destruct (generate_and_load_transactions n w) as [r w'] eqn:Hrun.
  apply run_outcome in Hrun
    as (bs & done & rest & tail & Hsplit & (_ & Hc & _ & Hs) & Hl & _ & Hres).
  exists bs, tail. cbn [fst snd]. split; [now rewrite Hc|]. split; [now rewrite Hc|].
  split; [exact Hl|]. destruct r as [[]|e].
  - destruct Hres as (_ & _ & [(_ & ->)|(_ & ->)]); auto.
  - destruct Hres as (Hab & Hpos & _). split; [exact Hab|].
    assert (Hlen : List.length bs = List.length done) by (eapply Forall2_length; eauto).
    assert (Hrep : forall w0, n = 85000 -> load_dimension_tables w0 = (Ok tt, w) ->
              main w0 = print (ErrorDuringDataLoading e) w').
    { intros w0 Hn Hload. now apply (Hmain w0 e Hn Hload). }
    destruct Hpos as [->|Hrest].
    + inversion Hs; subst. split; [constructor|]. split; [|exact Hrep]. intros Hn. cbn.
      destruct (py_range 0 n 5000) eqn:Hr; [|cbn; lia].
      now destruct (py_range_not_empty n 5000 eq_refl Hn).
    + split; [|split; [|exact Hrep]].
      * apply (Forall2_left (sized n) _ bs done); [|exact Hs].
        intros b s Hin Hb. unfold sized in Hb. rewrite Hb.
        now apply (batch_full n done rest).
      * intros _. fold batch_size. rewrite Hlen, Hsplit, length_app.
        destruct rest; [contradiction|]. cbn. lia.
Qed.

(** *** Sampling from an empty key list *)

Lemma get_connection_rng (w w' : World F) (r : result unit) :
  get_connection w = (r, w') -> np_random w' = np_random w.
Proof.
  unfold get_connection, bind.
  destruct (send w) as [[[]|e] w1] eqn:He;
    apply send_spec in He as (_ & _ & Hn & _);
    cbn; intros H; injection H as <- <-; exact Hn.
Qed.

(** One sampling moves the generator by the draws it takes, whether it
    returns or raises. *)
Lemma np_choice_rng {A} (xs : list A) (w : World F) :
  advanced (draws xs) (np_random w) (np_random (snd (np (choice xs) w)))
  /\ match xs with
     | [] => fst (np (choice xs) w) = Raise ValueError
     | _ => exists a, fst (np (choice xs) w) = Ok a
     end.
Proof.
  unfold np, choice, advanced. destruct xs as [|x [|y xs]]; cbn.
  - split; [split; [reflexivity|lia]|reflexivity].
  - split; [split; [reflexivity|lia]|eauto].
  - split; [split; [reflexivity|lia]|eauto].
Qed.

Lemma advanced_trans (j k : nat) (g1 g2 g3 : RNG) :
  advanced j g1 g2 -> advanced k g2 g3 -> advanced (j + k) g1 g3.
Proof. unfold advanced. intros [H1 H2] [H3 H4]. split; [congruence|lia]. Qed.

(** With an empty key list the first row is never completed: the sampler
    raises at the first empty list it meets, after one draw for each list of
    two or more keys before it. *)
Lemma transaction_starved (c p d : list Z) (w : World F) :
  starved c p d ->
  exists w',
    transaction c p d w = (Raise ValueError, w')
    /\ advanced (draws_before_error c p) (np_random w) (np_random w').
Proof.
  intros Hst. unfold transaction.
  destruct (np_choice_rng c w) as [Hc Hrc].
  destruct (np (choice c) w) as [rc w1] eqn:H1. cbn [fst snd] in Hc, Hrc.
  destruct c as [|c1 cs].
  { subst rc. exists w1. split; [exact (bind_raise _ _ _ _ _ H1)|exact Hc]. }
  destruct Hrc as (cid & ->). rewrite (bind_ok _ _ _ _ _ H1).
  destruct (np_choice_rng p w1) as [Hp Hrp].
  destruct (np (choice p) w1) as [rp w2] eqn:H2. cbn [fst snd] in Hp, Hrp.
  destruct p as [|p1 ps].
  { subst rp. exists w2. split; [exact (bind_raise _ _ _ _ _ H2)|].
    cbn [draws_before_error].
    replace (draws (c1 :: cs) + 0)%nat with (draws (c1 :: cs) + draws (@nil Z))%nat
      by reflexivity.
    exact (advanced_trans _ _ _ _ _ Hc Hp). }
  destruct Hrp as (pid & ->). rewrite (bind_ok _ _ _ _ _ H2).
  assert (Hd : d = []) by (destruct Hst as [H|[H|H]]; [discriminate|discriminate|exact H]).
  subst d.
  destruct (np_choice_rng (@nil Z) w2) as [Hd Hrd].
  destruct (np (choice (@nil Z)) w2) as [rd w3] eqn:H3. cbn [fst snd] in Hd, Hrd.
  subst rd. exists w3. split; [exact (bind_raise _ _ _ _ _ H3)|].
  cbn [draws_before_error].
  replace (draws (c1 :: cs) + draws (p1 :: ps))%nat
    with (draws (c1 :: cs) + draws (p1 :: ps) + draws (@nil Z))%nat
    by (cbn [draws]; lia).
  exact (advanced_trans _ _ _ _ _ (advanced_trans _ _ _ _ _ Hc Hp) Hd).
Qed.

(** So the loop over the batches raises in its first iteration. *)
Lemma batches_starved (c p d : list Z) (n : Z) (w : World F) :
  0 < n -> starved c p d ->
  exists w',
    for_each (py_range 0 n batch_size) (load_batch c p d n) w = (Raise ValueError, w')
    /\ advanced (draws_before_error c p) (np_random w) (np_random w').
Proof.
  intros Hn Hst.
  destruct (py_range 0 n batch_size) as [|b rest] eqn:Hr.
  { now destruct (py_range_not_empty n batch_size eq_refl Hn). }
  assert (Hb : (0 < batch_length n b)%nat).
  { apply batch_not_empty. rewrite Hr. now left. }
  destruct (transaction_starved c p d w Hst) as (w' & Ht & Hadv).
  exists w'. split; [|exact Hadv].
  cbn [for_each]. unfold load_batch.
  destruct (py_range b (Z.min (b + batch_size) n) 1) as [|x xs] eqn:Hi.
  { apply (f_equal (@List.length Z)) in Hi. rewrite py_range_unit_length in Hi.
    unfold batch_length in Hb. cbn in Hi. lia. }
  cbn [for_fold]. unfold bind. now rewrite Ht.
Qed.

(** With a server that does not fail, a run that finds an empty key list
    leaves the random source where the sampler raised. *)
Lemma starved_run_rng (n : Z) (w : World F) :
  let t0 := committed w in
  0 < n -> healthy w ->
  starved (map fst (customers t0)) (map fst (products t0)) (map fst (date_dimension t0)) ->
  advanced (draws_before_error (map fst (customers t0)) (map fst (products t0)))
           (np_random w) (np_random (snd (generate_and_load_transactions n w))).
Proof.
  intros t0 Hn Hw Hst. subst t0. unfold generate_and_load_transactions, with_connection.
  unfold bind at 1.
  destruct (get_connection w) as [r1 w1] eqn:Hg.
  pose proof (get_connection_rng _ _ _ Hg) as Hn1.
  apply get_connection_spec in Hg as (Hf1 & _ & _ & [(-> & Hv1 & _)|(e & _ & Hbad)]);
    [|contradiction].
  assert (Hw1 : healthy w1) by (intros k; rewrite Hf1; apply Hw).
  unfold bind at 1.
  destruct (select (fun t => map fst (customers t)) w1) as [r2 w2] eqn:H2.
  apply select_spec in H2 as (Hq2 & _ & Hn2 & _ & Hr2). rewrite (Hr2 Hw1).
  pose proof (healthy_quiet _ _ Hq2 Hw1) as Hw2.
  unfold bind at 1.
  destruct (select (fun t => map fst (products t)) w2) as [r3 w3] eqn:H3.
  apply select_spec in H3 as (Hq3 & _ & Hn3 & _ & Hr3). rewrite (Hr3 Hw2).
  pose proof (healthy_quiet _ _ Hq3 Hw2) as Hw3.
  unfold bind at 1.
  destruct (select (fun t => map fst (date_dimension t)) w3) as [r4 w4] eqn:H4.
  apply select_spec in H4 as (Hq4 & _ & Hn4 & _ & Hr4). rewrite (Hr4 Hw3).
  assert (Hv2 : view w2 = view w1) by apply Hq2.
  assert (Hv3 : view w3 = view w1).
  { assert (H : view w3 = view w2) by apply Hq3. congruence. }
  rewrite Hv3, Hv2, Hv1.
  destruct (batches_starved _ _ _ n w4 Hn Hst) as (w5 & Hrun & Hadv).
  rewrite Hrun. unfold bind. rewrite rollback_spec. cbn [snd raise].
  replace (np_random w) with (np_random w4) by congruence.
  destruct (in_txn w5); exact Hadv.
Qed.

(** C8, amended: with [n > 0] and an empty customers, products or date
    table, [generate_and_load_transactions n] raises, commits nothing and
    never calls [executemany].  There is no check before generation: when the
    server itself does not fail, the exception is the sampler's [ValueError],
    raised while the first row is being generated, and the random source has
    by then been advanced by one draw for each key list of two or more keys
    that is sampled before the empty one. *)
Theorem C8_empty_key_list_raises_while_sampling (n : Z) (w : World F) :
  0 < n ->
  customers (committed w) = [] \/ products (committed w) = []
  \/ date_dimension (committed w) = [] ->
  let r := fst (generate_and_load_transactions n w) in
  let w' := snd (generate_and_load_transactions n w) in
  (exists e, r = Raise e /\ (healthy w -> e = ValueError))
  /\ committed w' = committed w
  /\ (exists tail,
        log w' = log w ++ tail
        /\ forall rows ok, ~ In (ExecuteMany rows ok) tail)
  /\ (healthy w ->
        advanced (draws_before_error (map fst (customers (committed w)))
                                     (map fst (products (committed w))))
                 (np_random w) (np_random w')).
Proof.
  intros Hn Hempty r w'. subst r w'.
  assert (Hst : starved (map fst (customers (committed w)))
                        (map fst (products (committed w)))
                        (map fst (date_dimension (committed w)))).
  { destruct Hempty as [ -> | [ -> | -> ] ]; [left|right; left|right; right]; reflexivity. }
  pose proof (starved_run_rng n w Hn) as Hrng. cbv zeta in Hrng.
  destruct (generate_and_load_transactions n w) as [r w'] eqn:Hrun.
  apply run_outcome in Hrun
    as (bs & done & rest & tail & Hsplit & Hreach & Hl & Htail & Hres).
  destruct (starved_no_batch n w w' bs done rest Hst Hsplit Hreach) as [-> ->].
  destruct Hreach as (_ & Hc & _). cbn [concat] in Hc. rewrite add_sales_nil in Hc.
  cbn [fst snd] in *. destruct r as [[]|e].
  - exfalso. destruct Hres as (-> & _). cbn in Hsplit.
    now apply (py_range_not_empty n batch_size).
  - split; [|split; [exact Hc|split]].
    + exists e. split; [reflexivity|]. intros Hh.
      destruct Hres as (_ & _ & [Hbad|(_ & He & _)]); [contradiction|exact He].
    + exists tail. split; [exact Hl|]. intros rows ok Hin.
      destruct (Htail rows ok Hin) as (Hne & Hgood).
      destruct rows as [|row rows]; [contradiction|].
      inversion Hgood as [|? ? ((Hk1 & Hk2 & Hk3) & _) _]; subst.
      destruct Hst as [Hs|[Hs|Hs]]; rewrite Hs in *; contradiction.
    + intros Hw. now apply Hrng.
Qed.

End Steps.

(** Two doubles with different bit patterns are different. *)
Lemma float_neq (x y : float) : Prim2SF x <> Prim2SF y -> x <> y.
Proof. intros H Heq. apply H. now rewrite Heq. Qed.

(** C2, as stated, fails.  A product priced 10.05, quantity 1 and the 10%
    discount: the loader rounds the discount first and derives the total from
    it, which differs by one cent from rounding [price * quantity * (1 - d)].
    In exact arithmetic the stored total is 9.05 and the formula gives 9.04;
    in binary64 the stored total is 9.04 and the formula gives 9.05, with
    numpy's rounding as with the built-in one. *)
Lemma C2_total_is_not_rounded_from_the_product :
  (let w := small_world (F := Exact.exact)
              [(7, sample_product (of_decimal 1005 2))] sample_dates ten_percent_tape in
   let r := mkFact 1 7 1 1 (of_decimal 1005 2) (of_decimal 905 2) (of_decimal 100 2) in
   sales_transactions (committed (snd (generate_and_load_transactions 1 w))) = [r]
   /\ ~ amounts_from_unrounded_product r)
  /\ (let w := small_world (F := Binary64.numpy)
                 [(7, sample_product (of_decimal 1005 2))] sample_dates ten_percent_tape in
      let r := mkFact 1 7 1 1 (of_decimal 1005 2) (of_decimal 904 2) (of_decimal 101 2) in
      sales_transactions (committed (snd (generate_and_load_transactions 1 w))) = [r]
      /\ ~ amounts_from_unrounded_product r)
  /\ (let w := small_world (F := Binary64.builtin)
                 [(7, sample_product (of_decimal 1005 2))] sample_dates ten_percent_tape in
      let r := mkFact 1 7 1 1 (of_decimal 1005 2) (of_decimal 904 2) (of_decimal 101 2) in
      sales_transactions (committed (snd (generate_and_load_transactions 1 w))) = [r]
      /\ ~ amounts_from_unrounded_product r).
Proof.
  split; [|split]; cbv zeta; (split; [reflexivity|]).
  - intros (d & [<-|[<-|[<-|[<-|[]]]]] & Hd & Ht);
      vm_compute in Hd, Ht; discriminate.
  - intros (d & [<-|[<-|[<-|[<-|[]]]]] & Hd & Ht); revert Hd Ht;
      try (intros Hd _; revert Hd; apply float_neq; vm_compute; discriminate);
      intros _; apply float_neq; vm_compute; discriminate.
  - intros (d & [<-|[<-|[<-|[<-|[]]]]] & Hd & Ht); revert Hd Ht;
      try (intros Hd _; revert Hd; apply float_neq; vm_compute; discriminate);
      intros _; apply float_neq; vm_compute; discriminate.
Qed.

(** *** Loading the dimensions *)

Section Insert.
Context {F : PyFloat}.
Variables (R : Type) (t : Table).
Variable get : Tables F -> list (Z * R).
Variable put : Z -> R -> Tables F -> Tables F.
Variable others : Tables F -> Tables F -> Prop.
Variable ins : R -> M (World F) unit.

Hypothesis ins_def : forall row,
  ins row = logged (Insert t)
              (execute ;;
               k <- take_key t ;;
               modify (fun w => set_view (put k row (view w)) w)).
Hypothesis get_put : forall k row v, get (put k row v) = get v ++ [(k, row)].
Hypothesis others_put : forall k row v, others v (put k row v).
Hypothesis others_refl : forall v, others v v.
Hypothesis others_trans : forall v1 v2 v3, others v1 v2 -> others v2 v3 -> others v1 v3.

Lemma insert_spec (row : R) (w w' : World F) (r : result unit) :
  ins row w = (r, w') ->
  committed w' = committed w /\ fault w' = fault w /\ files w' = files w
  /\ in_txn w' = true
  /\ ((r = Ok tt
       /\ view w' = put (next_key w t) row (view w)
       /\ (forall t', next_key w' t'
                      = if table_eqb t' t then next_key w t + 1 else next_key w t')
       /\ log w' = log w ++ [Insert t true])
      \/ (exists e, r = Raise e /\ ~ healthy w /\ log w' = log w ++ [Insert t false])).
Proof.
  rewrite ins_def. unfold logged, bind.
  destruct (execute w) as [[[]|e] w1] eqn:He;
    apply execute_spec in He as (Hq & Ht & _ & Hh);
    destruct Hq as (Hfi & Hc & Hv & Hk & Hf & Hl & _);
    cbn; intros H; injection H as <- <-; cbn.
  - rewrite Hfi, Hc, Hv, Hk, Hl. repeat (split; [congruence|]). left.
    repeat (split; [reflexivity|]). reflexivity.
  - rewrite Hl. repeat (split; [congruence|]). right. exists e.
    split; [reflexivity|]. split; [|reflexivity].
    intros Hw. specialize (Hh Hw). discriminate.
Qed.

(** The loop over the rows of one file: all rows enter the table seen by
    the connection, or the loop raises; nothing is committed either way. *)
Lemma insert_all_spec (rows : list R) :
  forall (w w' : World F) (r : result unit),
    for_each rows ins w = (r, w') ->
    committed w' = committed w /\ fault w' = fault w /\ files w' = files w
    /\ ((r = Ok tt
         /\ get (view w') = get (view w) ++ keyed (next_key w t) rows
         /\ others (view w) (view w')
         /\ (forall t', next_key w' t'
                        = if table_eqb t' t
                          then next_key w t + Z.of_nat (List.length rows)
                          else next_key w t')
         /\ log w' = log w ++ map (fun _ => Insert t true) rows
         /\ (rows <> [] -> in_txn w' = true)
         /\ (rows = [] -> in_txn w' = in_txn w))
        \/ (exists e added,
              r = Raise e /\ ~ healthy w
              /\ log w' = log w ++ added /\ ~ In (Commit true) added)).
Proof.
  induction rows as [|row rows IH]; intros w w' r H.
  - cbn in H. injection H as <- <-. repeat (split; [reflexivity|]). left.
    split; [reflexivity|]. split; [now rewrite app_nil_r|]. split; [apply others_refl|].
    split; [|split; [now rewrite app_nil_r|split; [congruence|reflexivity]]].
    intros t'. destruct t, t'; cbn; lia.
  - cbn [for_each] in H. apply bind_inv in H as [(u & w1 & H1 & H)|(e & H1 & ->)].
    + apply insert_spec in H1
        as (Hc1 & Hf1 & Hfi1 & Ht1 & [(_ & Hv1 & Hk1 & Hl1)|(e & He & _)]);
        [|discriminate].
      apply IH in H
        as (Hc & Hf & Hfi & [(-> & Hg & Ho & Hk & Hl & Hin & Hnil)|(e & added & -> & Hh & Hl & Hno)]).
      * repeat (split; [congruence|]). left. split; [reflexivity|].
        split; [|split; [|split; [|split; [|split]]]].
        -- rewrite Hg, Hv1, get_put, <- app_assoc. cbn.
           do 3 f_equal. rewrite (Hk1 t). destruct t; reflexivity.
        -- eapply others_trans; [|exact Ho]. rewrite Hv1. apply others_put.
        -- intros t'. rewrite Hk, !Hk1. cbn [List.length].
           destruct t, t'; cbn; lia.
        -- rewrite Hl, Hl1, <- app_assoc. reflexivity.
        -- intros _. destruct rows; [rewrite Hnil by reflexivity; exact Ht1|].
           apply Hin. discriminate.
        -- discriminate.
      * repeat (split; [congruence|]). right. exists e, (Insert t true :: added).
        split; [reflexivity|]. split.
        -- intros Hw. apply Hh. intros k. rewrite Hf1. apply Hw.
        -- split; [rewrite Hl, Hl1, <- app_assoc; reflexivity|].
           intros [Hin|Hin]; [discriminate|contradiction].
    + apply insert_spec in H1
        as (Hc1 & Hf1 & Hfi1 & Ht1 & [(Hr & _)|(e' & He & Hh & Hl1)]);
        [discriminate|]. injection He as <-.
      repeat (split; [congruence|]). right. exists e, [Insert t false].
      split; [reflexivity|]. split; [exact Hh|]. split; [exact Hl1|].
      intros [Hin|[]]. discriminate.
Qed.

End Insert.

Section Dimensions.
Context {F : PyFloat}.

Lemma insert_dates_spec (rows : list DateRow) (w w' : World F) (r : result unit) :
  for_each rows insert_date w = (r, w') ->
  committed w' = committed w /\ fault w' = fault w /\ files w' = files w
  /\ ((r = Ok tt
       /\ date_dimension (view w') = date_dimension (view w) ++ keyed (next_key w DateDimension) rows
       /\ (customers (view w') = customers (view w) /\ products (view w') = products (view w)
           /\ sales_transactions (view w') = sales_transactions (view w))
       /\ (forall t', next_key w' t'
                      = if table_eqb t' DateDimension
                        then next_key w DateDimension + Z.of_nat (List.length rows)
                        else next_key w t')
       /\ log w' = log w ++ map (fun _ => Insert DateDimension true) rows
       /\ (rows <> [] -> in_txn w' = true)
       /\ (rows = [] -> in_txn w' = in_txn w))
      \/ (exists e added,
            r = Raise e /\ ~ healthy w
            /\ log w' = log w ++ added /\ ~ In (Commit true) added)).
Proof.
  apply (insert_all_spec (F := F) _ DateDimension (@date_dimension F)
           (fun k row v => mkTables (date_dimension v ++ [(k, row)]) (customers v)
                                    (products v) (sales_transactions v))
           (fun v v' => customers v' = customers v /\ products v' = products v
                        /\ sales_transactions v' = sales_transactions v)
           insert_date); try reflexivity.
  - intros k row v. now repeat split.
  - intros v. now repeat split.
  - intros v1 v2 v3 (a1 & a2 & a3) (b1 & b2 & b3). repeat split; congruence.
Qed.

Lemma insert_customers_spec (rows : list Generate.CustomerRow) (w w' : World F) (r : result unit) :
  for_each rows insert_customer w = (r, w') ->
  committed w' = committed w /\ fault w' = fault w /\ files w' = files w
  /\ ((r = Ok tt
       /\ customers (view w') = customers (view w) ++ keyed (next_key w Customers) rows
       /\ (date_dimension (view w') = date_dimension (view w) /\ products (view w') = products (view w)
           /\ sales_transactions (view w') = sales_transactions (view w))
       /\ (forall t', next_key w' t'
                      = if table_eqb t' Customers
                        then next_key w Customers + Z.of_nat (List.length rows)
                        else next_key w t')
       /\ log w' = log w ++ map (fun _ => Insert Customers true) rows
       /\ (rows <> [] -> in_txn w' = true)
       /\ (rows = [] -> in_txn w' = in_txn w))
      \/ (exists e added,
            r = Raise e /\ ~ healthy w
            /\ log w' = log w ++ added /\ ~ In (Commit true) added)).
Proof.
  apply (insert_all_spec (F := F) _ Customers (@customers F)
           (fun k row v => mkTables (date_dimension v) (customers v ++ [(k, row)])
                                    (products v) (sales_transactions v))
           (fun v v' => date_dimension v' = date_dimension v /\ products v' = products v
                        /\ sales_transactions v' = sales_transactions v)
           insert_customer); try reflexivity.
  - intros k row v. now repeat split.
  - intros v. now repeat split.
  - intros v1 v2 v3 (a1 & a2 & a3) (b1 & b2 & b3). repeat split; congruence.
Qed.

Lemma insert_products_spec (rows : list (Generate.ProductRow F)) (w w' : World F) (r : result unit) :
  for_each rows insert_product w = (r, w') ->
  committed w' = committed w /\ fault w' = fault w /\ files w' = files w
  /\ ((r = Ok tt
       /\ products (view w') = products (view w) ++ keyed (next_key w Products) rows
       /\ (date_dimension (view w') = date_dimension (view w) /\ customers (view w') = customers (view w)
           /\ sales_transactions (view w') = sales_transactions (view w))
       /\ (forall t', next_key w' t'
                      = if table_eqb t' Products
                        then next_key w Products + Z.of_nat (List.length rows)
                        else next_key w t')
       /\ log w' = log w ++ map (fun _ => Insert Products true) rows
       /\ (rows <> [] -> in_txn w' = true)
       /\ (rows = [] -> in_txn w' = in_txn w))
      \/ (exists e added,
            r = Raise e /\ ~ healthy w
            /\ log w' = log w ++ added /\ ~ In (Commit true) added)).
Proof.
  apply (insert_all_spec (F := F) _ Products (@products F)
           (fun k row v => mkTables (date_dimension v) (customers v)
                                    (products v ++ [(k, row)]) (sales_transactions v))
           (fun v v' => date_dimension v' = date_dimension v /\ customers v' = customers v
                        /\ sales_transactions v' = sales_transactions v)
           insert_product); try reflexivity.
  - intros k row v. now repeat split.
  - intros v. now repeat split.
  - intros v1 v2 v3 (a1 & a2 & a3) (b1 & b2 & b3). repeat split; congruence.
Qed.

Lemma read_csv_spec {A} (f : Generate.Files F -> option (list A))
    (w w' : World F) (r : result (list A)) :
  read_csv f w = (r, w') ->
  w' = w /\ ((exists rows, r = Ok rows /\ f (files w) = Some rows)
             \/ (r = Raise FileNotFoundError /\ f (files w) = None)).
Proof.
  unfold read_csv. destruct (f (files w)) as [rows|]; intros H; injection H as <- <-.
  - split; [reflexivity|]. left. eauto.
  - split; [reflexivity|]. now right.
Qed.

(** The block under the connection of [load_dimension_tables], entered on a
    fresh connection: it ends with the rows of the three files committed
    together, or it raises with nothing committed. *)
Lemma load_block_spec (w1 w2 : World F) (r : result unit) :
  view w1 = committed w1 -> in_txn w1 = false ->
  (dates_df <- read_csv Generate.date_dimension_csv ;;
   for_each dates_df insert_date ;;
   customers_df <- read_csv Generate.customers_csv ;;
   for_each customers_df insert_customer ;;
   products_df <- read_csv Generate.products_csv ;;
   for_each products_df insert_product ;;
   commit) w1 = (r, w2) ->
  fault w2 = fault w1
  /\ ((r = Ok tt
       /\ in_txn w2 = false
       /\ exists ds cs ps,
            Generate.date_dimension_csv (files w1) = Some ds
            /\ Generate.customers_csv (files w1) = Some cs
            /\ Generate.products_csv (files w1) = Some ps
            /\ date_dimension (committed w2)
               = date_dimension (committed w1) ++ keyed (next_key w1 DateDimension) ds
            /\ customers (committed w2)
               = customers (committed w1) ++ keyed (next_key w1 Customers) cs
            /\ products (committed w2)
               = products (committed w1) ++ keyed (next_key w1 Products) ps
            /\ sales_transactions (committed w2) = sales_transactions (committed w1)
            /\ log w2
               = log w1 ++ map (fun _ => Insert DateDimension true) ds
                       ++ map (fun _ => Insert Customers true) cs
                       ++ map (fun _ => Insert Products true) ps
                       ++ (if (List.length ds + List.length cs + List.length ps =? 0)%nat
                           then [] else [Commit true]))
      \/ (exists e added,
            r = Raise e /\ committed w2 = committed w1
            /\ log w2 = log w1 ++ added /\ ~ In (Commit true) added)).
Proof.
  intros Hv1 Ht1 H.
  (* dates *)
  apply bind_inv in H as [(ds & wx & Hr & H)|(e & Hr & ->)];
    apply read_csv_spec in Hr as (-> & [(ds' & Hds' & Hfd)|(Hds' & _)]);
    try discriminate.
  2:{ split; [reflexivity|]. right. exists FileNotFoundError, [].
      rewrite app_nil_r. injection Hds' as <-. now repeat split. }
  injection Hds' as <-.
  apply bind_inv in H as [(u & wa & Hd & H)|(e & Hd & ->)];
    apply insert_dates_spec in Hd
      as (Hca & Hfa & Hfia & [(Hra & Hga & (Hoa1 & Hoa2 & Hoa3) & Hka & Hla & Hina & Hnila)
                             |(e' & added & Hra & Hh & Hla & Hno)]);
    try discriminate.
  2:{ split; [exact Hfa|]. right. exists e, added. injection Hra as <-. now repeat split. }
  (* customers *)
  apply bind_inv in H as [(cs & wx & Hr & H)|(e & Hr & ->)];
    apply read_csv_spec in Hr as (-> & [(cs' & Hcs' & Hfc)|(Hcs' & _)]);
    try discriminate.
  2:{ split; [exact Hfa|]. right.
      exists FileNotFoundError, (map (fun _ => Insert DateDimension true) ds).
      injection Hcs' as <-. repeat (split; [assumption || reflexivity|]).
      intros Hin. apply in_map_iff in Hin as (x & Hx & _). discriminate. }
  injection Hcs' as <-.
  apply bind_inv in H as [(u' & wb & Hc & H)|(e & Hc & ->)];
    apply insert_customers_spec in Hc
      as (Hcb & Hfb & Hfib & [(Hrb & Hgb & (Hob1 & Hob2 & Hob3) & Hkb & Hlb & Hinb & Hnilb)
                             |(e' & added & Hrb & Hh & Hlb & Hno)]);
    try discriminate.
  2:{ split; [congruence|]. right.
      exists e, (map (fun _ => Insert DateDimension true) ds ++ added).
      injection Hrb as <-. split; [reflexivity|]. split; [congruence|].
      split; [rewrite Hlb, Hla, <- app_assoc; reflexivity|].
      intros Hin. apply in_app_or in Hin as [Hin|Hin]; [|contradiction].
      apply in_map_iff in Hin as (x & Hx & _). discriminate. }
  (* products *)
  apply bind_inv in H as [(ps & wx & Hr & H)|(e & Hr & ->)];
    apply read_csv_spec in Hr as (-> & [(ps' & Hps' & Hfp)|(Hps' & _)]);
    try discriminate.
  2:{ split; [congruence|]. right.
      exists FileNotFoundError,
        (map (fun _ => Insert DateDimension true) ds
         ++ map (fun _ => Insert Customers true) cs).
      injection Hps' as <-. split; [reflexivity|]. split; [congruence|].
      split; [rewrite Hlb, Hla, <- app_assoc; reflexivity|].
      intros Hin. apply in_app_or in Hin as [Hin|Hin];
        apply in_map_iff in Hin as (x & Hx & _); discriminate. }
  injection Hps' as <-.
  assert (Hlog3 : forall wc added,
             log wc = log wb ++ added ->
             log wc = log w1 ++ map (fun _ => Insert DateDimension true) ds
                      ++ map (fun _ => Insert Customers true) cs ++ added).
  { intros wc added Hl. rewrite Hl, Hlb, Hla, <- !app_assoc. reflexivity. }
  apply bind_inv in H as [(u'' & wc & Hp & H)|(e & Hp & ->)];
    apply insert_products_spec in Hp
      as (Hcc & Hfc' & Hfic & [(Hrc & Hgc & (Hoc1 & Hoc2 & Hoc3) & Hkc & Hlc & Hinc & Hnilc)
                              |(e' & added & Hrc & Hh & Hlc & Hno)]);
    try discriminate.
  2:{ split; [congruence|]. right.
      exists e, (map (fun _ => Insert DateDimension true) ds
                 ++ map (fun _ => Insert Customers true) cs ++ added).
      injection Hrc as <-. split; [reflexivity|]. split; [congruence|].
      split; [now apply Hlog3|].
      intros Hin. apply in_app_or in Hin as [Hin|Hin];
        [apply in_map_iff in Hin as (x & Hx & _); discriminate|].
      apply in_app_or in Hin as [Hin|Hin]; [|contradiction].
      apply in_map_iff in Hin as (x & Hx & _). discriminate. }
  (* the view that is about to be committed *)
  assert (Hkeyc : next_key wa Customers = next_key w1 Customers) by (rewrite Hka; reflexivity).
  assert (Hkeyp : next_key wb Products = next_key w1 Products)
    by (rewrite Hkb; cbn [table_eqb]; rewrite Hka; reflexivity).
  assert (Hvd : date_dimension (view wc)
                = date_dimension (committed w1) ++ keyed (next_key w1 DateDimension) ds)
    by (rewrite Hoc1, Hob1, Hga, Hv1; reflexivity).
  assert (Hvc : customers (view wc)
                = customers (committed w1) ++ keyed (next_key w1 Customers) cs)
    by (rewrite Hoc2, Hgb, Hoa1, Hkeyc, Hv1; reflexivity).
  assert (Hvp : products (view wc)
                = products (committed w1) ++ keyed (next_key w1 Products) ps)
    by (rewrite Hgc, Hob2, Hoa2, Hkeyp, Hv1; reflexivity).
  assert (Hvs : sales_transactions (view wc) = sales_transactions (committed w1))
    by (rewrite Hoc3, Hob3, Hoa3, Hv1; reflexivity).
  apply commit_spec in H
    as (Hf3 & Hv3 & [(Htc & Hr3 & ->)|[(Htc & Hr3 & Hc3 & Ht3 & Hl3)
                                       |(Htc & e & Hr3 & Hh & Hc3 & Ht3 & Hl3)]]).
  - (* no row at all: nothing to commit *)
    assert (Hps : ps = []).
    { destruct ps; [reflexivity|]. rewrite Hinc in Htc by discriminate. discriminate. }
    assert (Hcs : cs = []).
    { destruct cs; [reflexivity|]. rewrite Hnilc, Hinb in Htc by (assumption || discriminate).
      discriminate. }
    assert (Hds : ds = []).
    { destruct ds; [reflexivity|].
      rewrite Hnilc, Hnilb, Hina in Htc by (assumption || discriminate). discriminate. }
    subst ps cs ds. split; [congruence|]. left. split; [exact Hr3|]. split; [exact Htc|].
    exists [], [], []. cbn [keyed map List.length Nat.add Nat.eqb app] in *.
    rewrite !app_nil_r in *.
    repeat (split; [congruence|]). congruence.
  - split; [congruence|]. left. split; [exact Hr3|]. split; [exact Ht3|].
    exists ds, cs, ps. rewrite Hc3. rewrite Hfia in Hfc. rewrite Hfib, Hfia in Hfp.
    repeat (split; [assumption|]).
    assert (Hnz : (List.length ds + List.length cs + List.length ps =? 0)%nat = false).
    { apply Nat.eqb_neq. intros Hz.
      destruct ps; [|cbn in Hz; lia]. destruct cs; [|cbn in Hz; lia].
      destruct ds; [|cbn in Hz; lia].
      rewrite Hnilc, Hnilb, Hnila, Ht1 in Htc by reflexivity. discriminate. }
    rewrite Hnz, Hl3, (Hlog3 wc _ Hlc), <- !app_assoc. reflexivity.
  - split; [congruence|]. right.
    exists e, (map (fun _ => Insert DateDimension true) ds
               ++ map (fun _ => Insert Customers true) cs
               ++ map (fun _ => Insert Products true) ps ++ [Commit false]).
    split; [exact Hr3|]. split; [congruence|]. split.
    + rewrite Hl3, (Hlog3 wc _ Hlc), <- !app_assoc. reflexivity.
    + intros Hin. repeat (apply in_app_or in Hin as [Hin|Hin];
        [apply in_map_iff in Hin as (x & Hx & _); discriminate|]).
      destruct Hin as [Hin|[]]. discriminate.
Qed.

(** C7: [load_dimension_tables] inserts the rows of the three files inside
    one transaction.  When it returns, every row of every dimension file is
    committed, with keys taken in order from the table's sequence, and the
    log shows all insertions before the one commit.  When it raises (a file
    is missing, an insertion or the commit fails), no row of any dimension
    is committed, no commit has succeeded, and [main] prints the exception
    and runs nothing else. *)
Theorem C7_dimensions_commit_together (w : World F) :
  let r := fst (load_dimension_tables w) in
  let w' := snd (load_dimension_tables w) in
  match r with
  | Ok _ =>
      exists ds cs ps,
        Generate.date_dimension_csv (files w) = Some ds
        /\ Generate.customers_csv (files w) = Some cs
        /\ Generate.products_csv (files w) = Some ps
        /\ date_dimension (committed w')
           = date_dimension (committed w) ++ keyed (next_key w DateDimension) ds
        /\ customers (committed w')
           = customers (committed w) ++ keyed (next_key w Customers) cs
        /\ products (committed w')
           = products (committed w) ++ keyed (next_key w Products) ps
        /\ sales_transactions (committed w') = sales_transactions (committed w)
        /\ log w'
           = log w ++ map (fun _ => Insert DateDimension true) ds
                   ++ map (fun _ => Insert Customers true) cs
                   ++ map (fun _ => Insert Products true) ps
                   ++ (if (List.length ds + List.length cs + List.length ps =? 0)%nat
                       then [] else [Commit true])
  | Raise e =>
      committed w' = committed w
      /\ (exists added, log w' = log w ++ added /\ ~ In (Commit true) added)
      /\ main w = print (ErrorDuringDataLoading e) w'
  end.
Proof.
  intros r w'. subst r w'.
  pose proof (main_reports_load_failure w) as Hmain.
  destruct (load_dimension_tables w) as [r w'] eqn:Hrun. cbn [fst snd] in *.
  unfold load_dimension_tables, with_connection in Hrun.
  apply bind_inv in Hrun as [(u & w1 & Hg & H)|(e & Hg & ->)].
  2:{ apply get_connection_spec in Hg as (_ & Hc & Hl & _).
      split; [exact Hc|]. split; [|now apply Hmain].
      exists []. rewrite app_nil_r. now split. }
  pose proof (get_connection_frame _ _ _ Hg) as (Hfi & Hk).
  apply get_connection_spec in Hg as (Hf & Hc & Hl & [(_ & Hv & Ht)|(e' & He & _)]);
    [|discriminate].
  assert (Hv1 : view w1 = committed w1) by congruence.
  match type of H with
  | (match ?body w1 with _ => _ end) = _ => destruct (body w1) as [rb w2] eqn:Hb
  end.
  apply (load_block_spec w1 w2 rb Hv1 Ht) in Hb
    as (Hf2 & [(-> & Ht2 & ds & cs & ps & H1 & H2 & H3 & H4 & H5 & H6 & H7 & H8)
              |(e & added & -> & Hc2 & Hl2 & Hno)]).
  - unfold bind, commit in H. rewrite Ht2 in H. cbn in H. injection H as <- <-.
    exists ds, cs, ps. rewrite Hfi, Hk, Hc, Hl in *. now repeat split.
  - unfold bind in H. rewrite rollback_spec in H. cbn in H. injection H as <- <-.
    split; [|split; [|now apply Hmain]].
    + destruct (in_txn w2); cbn; congruence.
    + destruct (in_txn w2).
      * exists (added ++ [Rollback]). cbn. rewrite Hl2, Hl, <- app_assoc.
        split; [reflexivity|]. intros Hin.
        apply in_app_or in Hin as [Hin|[Hin|[]]]; [contradiction|discriminate].
      * exists added. split; [congruence|exact Hno].
Qed.

End Dimensions.

(** *** Exact arithmetic *)

(** Rounding to the nearest integer is off by at most one half. *)
Lemma rne_div_close (a b : Z) :
  0 < b -> - b <= 2 * (rne_div a b * b - a) <= b.
Proof.
  intros Hb. unfold rne_div.
  pose proof (Z.div_mod a b ltac:(lia)) as Hdm.
  pose proof (Z.mod_pos_bound a b Hb) as Hm.
  destruct (Z.compare_spec (2 * (a mod b)) b) as [He|Hl|Hg];
    [destruct (Z.even (a / b))| |]; nia.
Qed.

(** [round(x, 2)] is within half a cent of [x]. *)
Lemma q_round2_close (x : Q) :
  (- (1 # 200) <= Exact.q_round2 x - x <= 1 # 200)%Q.
Proof.
  destruct x as [a b]. unfold Exact.q_round2, Exact.cents. cbn [Qnum Qden].
  pose proof (rne_div_close (a * 100) (Zpos b) eq_refl) as H.
  set (c := rne_div (a * 100) (Zpos b)) in *.
  unfold Qle, Qminus, Qplus, Qopp. cbn [Qnum Qden]. split; nia.
Qed.

(** Were the arithmetic exact, with round-half-to-even at the second
    decimal, the two stored amounts would add up to within one cent of
    [round(unit_price * quantity, 2)]; the floats of the loader do not keep
    that bound (see below). *)
Lemma exact_total_and_discount_add_up (n : Z) (w : World Exact.exact) :
  let t0 := committed w in
  let w' := snd (generate_and_load_transactions n w) in
  exists new,
    sales_transactions (committed w') = sales_transactions t0 ++ new
    /\ forall row, In row new ->
         (Qabs (fsub (fadd (total_amount row) (discount_amount row))
                     (round2 (fmul (unit_price row) (of_int (quantity row)))))
          <= 1 # 100)%Q
         /\ exists d, In d discounts
              /\ discount_amount row
                 = round2 (fmul (fmul (unit_price row) (of_int (quantity row))) d).
Proof.
  intros t0 w'.
  destruct (rows_are_priced n w) as (new & Hs & Hrows).
  exists new. split; [exact Hs|]. intros row Hin.
  destruct (Hrows row Hin) as (_ & _ & d & Hd & Hda & Hta).
  split; [|eauto]. rewrite Hta. cbn [fsub fadd fmul round2 of_int Exact.exact] in *.
  set (tbd := (unit_price row * inject_Z (quantity row))%Q) in *.
  pose proof (q_round2_close (tbd - discount_amount row)) as H1.
  pose proof (q_round2_close tbd) as H2.
  apply Qabs_Qle_condition. split; lra.
Qed.


Lemma C4_all_rows_in_committed_batches_witness :
  let w := small_world (F := Exact.exact)
             [(7, sample_product (of_decimal 1005 2))] sample_dates ten_percent_tape in
  fst (generate_and_load_transactions 2 w) = Ok tt.
Proof.
  intros w.
  destruct (C4_all_rows_in_committed_batches (F := Exact.exact) 2 w)
    as (bs & w' & Hrun & _).
  - lia.
  - intros k. reflexivity.
  - intros _. repeat split; discriminate.
  - now rewrite Hrun.
Defined.

(** C8, as stated, fails: with two customers and two products on file but
    no date, the loader has sampled a customer key and a product key (two
    draws) before the third sampling raises; the random source is no longer
    in the state in which the run found it, so generation had started. *)
Lemma C8_sampling_starts_before_the_error :
  let w := world_without_dates (F := Binary64.numpy) (fun _ => 0%nat) in
  let run := generate_and_load_transactions 1 w in
  fst run = Raise ValueError
  /\ pos (np_random w) = 0%nat
  /\ pos (np_random (snd run)) = 2%nat
  /\ log (snd run) = [Rollback]
  /\ ~ (np_random (snd run) = np_random w).
Proof.
  cbv zeta. repeat split; try reflexivity.
  intros H. apply (f_equal pos) in H. discriminate.
Qed.

Lemma C8_empty_key_list_raises_while_sampling_witness :
  let w := world_without_dates (F := Binary64.numpy) (fun _ => 0%nat) in
  pos (np_random (snd (generate_and_load_transactions 1 w))) = 2%nat.
Proof.
  intros w.
  destruct (C8_empty_key_list_raises_while_sampling (F := Binary64.numpy) 1 w)
    as (_ & _ & _ & H).
  - lia.
  - right. right. reflexivity.
  - destruct (H (fun _ => eq_refl)) as [_ Hp]. exact Hp.
Defined.

(** A run of 12000 rows whose server fails from statement 5006 on, the
    first price lookup of the second batch: the 5000 rows of the first batch
    stay committed, and the log holds its insertion, its commit and the
    rollback. *)
Example second_batch_fails :
  let w := with_fault (fails_from (Z.to_nat 5006))
             (small_world (F := Exact.exact)
                [(7, sample_product (of_decimal 1005 2))] sample_dates (fun _ => 0%nat)) in
  let w' := snd (generate_and_load_transactions 12000 w) in
  fst (generate_and_load_transactions 12000 w) = Raise (DatabaseError (Z.to_nat 5006))
  /\ List.length (sales_transactions (committed w')) = Z.to_nat 5000
  /\ List.length (log w') = 3%nat.
Proof. cbv zeta. split; [|split]; vm_compute; reflexivity. Qed.

(** A healthy load commits the four rows under one commit. *)
Example load_dimension_tables_returns :
  let w := fresh_world (F := Exact.exact) (fun _ => false) in
  let w' := snd (load_dimension_tables w) in
  fst (load_dimension_tables w) = Ok tt
  /\ date_dimension (committed w')
     = [(1, date_row (mkDate 2023 1 1)); (2, date_row (mkDate 2023 1 2))]
  /\ customers (committed w') = [(1, sample_customer (mkDate 2024 1 1))]
  /\ products (committed w') = [(1, sample_product (of_decimal 1005 2))]
  /\ log w' = [Insert DateDimension true; Insert DateDimension true;
               Insert Customers true; Insert Products true; Commit true].
Proof. cbv zeta. repeat split; reflexivity. Qed.

(** When the insertion of the customer fails (statement 3, after the
    connection and the two dates), the two dates are rolled back with it. *)
Example load_dimension_tables_raises :
  let w := fresh_world (F := Exact.exact) (fun k => Nat.eqb k 3) in
  let w' := snd (load_dimension_tables w) in
  fst (load_dimension_tables w) = Raise (DatabaseError 3)
  /\ committed w' = committed w
  /\ view w' = committed w
  /\ log w' = [Insert DateDimension true; Insert DateDimension true;
               Insert Customers false; Rollback]
  /\ stdout (snd (main w)) = [ErrorDuringDataLoading (DatabaseError 3)].
Proof. cbv zeta. repeat split; reflexivity. Qed.

(** In binary64 the sum of the two stored amounts need not equal the rounded
    product exactly: for the row of the 10.05 product it is the double just
    below 10.05. *)
Example amounts_add_up_approximately :
  let total := Binary64.b64_of_decimal 904 2 in
  let discount := Binary64.b64_of_decimal 101 2 in
  let product := Binary64.round2_numpy (Binary64.b64_of_decimal 1005 2) in
  PrimFloat.eqb (PrimFloat.add total discount) product = false
  /\ PrimFloat.leb (PrimFloat.abs (PrimFloat.sub (PrimFloat.add total discount) product))
                   (Binary64.b64_of_decimal 1 2) = true.
Proof. cbv zeta. split; vm_compute; reflexivity. Qed.

End LoadFacts.

(** ** The rows of the generators *)

Module GenerateRows.
Import Generate.

Lemma chunk_lengths_prefix (step n : Z) (k : nat) :
  0 < step -> 0 <= n -> Z.of_nat k <= (n - 0 + step - 1) / step ->
  list_sum (map (chunk_length step n)
                (map (fun i => 0 + Z.of_nat i * step) (seq 0 k)))
  = Z.to_nat (Z.min (Z.of_nat k * step) n).
Proof.
  intros Hs Hn. induction k as [|k IH]; intros Hk.
  - cbn. lia.
  - rewrite seq_S, !map_app, list_sum_app, IH by lia.
    cbn [map list_sum fold_right Nat.add].
    pose proof (Z.mul_div_le (n - 0 + step - 1) step Hs) as Hd.
    assert (Hlt : Z.of_nat k * step < n) by nia.
    unfold chunk_length.
    replace (Z.of_nat (S k) * step) with (Z.of_nat k * step + step) by lia.
    set (x := Z.of_nat k * step) in *. assert (0 <= x) by (subst x; nia).
    lia.
Qed.

(** The chunks of a loop over [range(0, n, step)] hold [n] items in all. *)
Lemma chunk_lengths_total (step n : Z) :
  0 < step ->
  list_sum (map (chunk_length step n) (py_range 0 n step)) = Z.to_nat n.
Proof.
  intros Hs. destruct (Z.ltb_spec 0 n) as [Hn|Hn].
  2:{ rewrite LoadFacts.py_range_empty by assumption. cbn. lia. }
  unfold py_range.
  assert (H0 : 0 <= (n - 0 + step - 1) / step) by (apply Z.div_pos; lia).
  rewrite chunk_lengths_prefix by lia. f_equal. rewrite Z2Nat.id by exact H0.
  pose proof (Z.mod_pos_bound (n - 0 + step - 1) step Hs) as Hm.
  pose proof (Z.div_mod (n - 0 + step - 1) step ltac:(lia)) as Hdm.
  nia.
Qed.

Lemma substring_length_le (n : nat) (s : string) :
  (String.length (substring 0 n s) <= n)%nat.
Proof.
  revert s. induction n as [|n IH]; intros [|c s]; cbn; try lia.
  specialize (IH s). lia.
Qed.

Section WithFloat.
Context {F : PyFloat}.

Lemma wp_faker {A} (f : nat -> A) (Q : A -> World F -> Prop)
    (E : exn -> World F -> Prop) (w : World F) :
  (forall a w', today w' = today w -> Q a w') -> wp (faker f) Q E w.
Proof. intros H. unfold wp, faker. cbn. now apply H. Qed.

Lemma wp_np_choice {A} (xs : list A) (Q : A -> World F -> Prop)
    (E : exn -> World F -> Prop) (w : World F) :
  xs <> [] ->
  (forall a w', today w' = today w -> In a xs -> Q a w') ->
  wp (np (choice xs)) Q E w.
Proof.
  intros Hne H. unfold wp, np.
  destruct (GenerateFacts.choice_nonempty xs (np_random w) Hne) as (a & -> & Hin).
  now apply H.
Qed.

Lemma wp_date_between (Q : date -> World F -> Prop)
    (E : exn -> World F -> Prop) (w : World F) :
  (forall k w', today w' = today w -> 0 <= k <= 366 ->
     Q (add_days (today w) (- k)) w') ->
  wp date_between_last_year Q E w.
Proof.
  intros H. unfold wp, date_between_last_year. cbn.
  set (r := tape (fake w) (pos (fake w))).
  replace (Z.of_nat r mod 367 - 366) with (- (366 - Z.of_nat r mod 367)) by lia.
  apply H; [reflexivity|].
  pose proof (Z.mod_pos_bound (Z.of_nat r) 367). lia.
Qed.

Lemma wp_uniform (low high : num) (Q : num -> World F -> Prop)
    (E : exn -> World F -> Prop) (w : World F) :
  (forall r w', today w' = today w ->
     Q (fadd low (fmul (fsub high low) (unit_sample r))) w') ->
  wp (uniform low high) Q E w.
Proof. intros H. unfold wp, uniform. cbn. now apply H. Qed.

(** One customer row; the system date is only read. *)
Lemma wp_customer (P : Provider) (d : date) (w : World F) :
  today w = d ->
  wp (customer P) (fun row w' => today w' = d /\ customer_ok d row)
     (fun _ _ => False) w.
Proof.
  intros Hd. unfold customer.
  apply LoadFacts.wp_bind, wp_faker. intros fn w1 H1.
  apply LoadFacts.wp_bind, wp_faker. intros ln w2 H2.
  apply LoadFacts.wp_bind, wp_faker. intros em w3 H3.
  apply LoadFacts.wp_bind, wp_faker. intros ph w4 H4.
  apply LoadFacts.wp_bind, wp_faker. intros ci w5 H5.
  apply LoadFacts.wp_bind, wp_faker. intros st w6 H6.
  apply LoadFacts.wp_bind, wp_np_choice; [discriminate|]. intros seg w7 H7 Hseg.
  apply LoadFacts.wp_bind, wp_date_between. intros k w8 H8 Hk.
  apply LoadFacts.wp_ret.
  assert (H78 : today w7 = d) by congruence.
  split; [congruence|]. unfold customer_ok. cbn.
  split; [reflexivity|]. split; [exact Hseg|]. split; [apply substring_length_le|].
  exists k. split; [exact Hk|]. now rewrite H78.
Qed.

(** The rows of one batch of customers. *)
Lemma wp_customer_batch (P : Provider) (d : date) (xs : list Z) (w : World F) :
  today w = d ->
  wp (for_fold xs (fun _ batch_customers =>
                     c <- customer P ;; ret (batch_customers ++ [c])) [])
     (fun rows w' => today w' = d /\ Forall (customer_ok d) rows
                     /\ List.length rows = List.length xs)
     (fun _ _ => False) w.
Proof.
  intros Hd.
  eapply LoadFacts.wp_weaken;
    [apply (LoadFacts.wp_for_fold _
              (fun rest acc w' => today w' = d /\ Forall (customer_ok d) acc
                                  /\ (List.length acc + List.length rest
                                      = List.length xs)%nat)
              (fun _ _ => False))| |auto].
  - intros x rest acc s (Ht & Hok & Hlen).
    apply LoadFacts.wp_bind.
    eapply LoadFacts.wp_weaken; [apply wp_customer, Ht| |auto].
    intros c s' (Ht' & Hc). apply LoadFacts.wp_ret.
    split; [exact Ht'|]. split.
    + apply Forall_app. split; [exact Hok|]. now constructor.
    + rewrite length_app. cbn in *. lia.
  - split; [exact Hd|]. split; [constructor|reflexivity].
  - cbn. intros rows s' (Ht & Hok & Hlen). repeat split; try assumption. lia.
Qed.

(** All the rows of [generate_customers]. *)
Lemma wp_generate_customers (P : Provider) (n : Z) (w : World F) :
  wp (generate_customers P n)
     (fun rows w' =>
        List.length rows = Z.to_nat n
        /\ Forall (customer_ok (today w)) rows
        /\ customers_csv (files w') = Some rows
        /\ today w' = today w)
     (fun _ _ => False) w.
Proof.
  unfold generate_customers. apply LoadFacts.wp_bind.
  eapply LoadFacts.wp_weaken;
    [apply (LoadFacts.wp_for_fold _
              (fun rest acc w' =>
                 today w' = today w /\ Forall (customer_ok (today w)) acc
                 /\ exists done,
                      py_range 0 n 1000 = done ++ rest
                      /\ List.length acc = list_sum (map (chunk_length 1000 n) done))
              (fun _ _ => False))| |auto].
  - intros batch rest acc s (Ht & Hok & done & Hsplit & Hlen).
    apply LoadFacts.wp_bind.
    eapply LoadFacts.wp_weaken; [apply wp_customer_batch, Ht| |auto].
    intros rows s' (Ht' & Hrows & Hl). apply LoadFacts.wp_ret.
    split; [exact Ht'|]. split; [apply Forall_app; now split|].
    exists (done ++ [batch]). split; [now rewrite <- app_assoc|].
    rewrite length_app, map_app, list_sum_app, Hlen, Hl. cbn.
    rewrite LoadFacts.py_range_unit_length. unfold chunk_length. lia.
  - split; [reflexivity|]. split; [constructor|]. exists []. now split.
  - cbn beta. intros rows s' (Ht & Hok & done & Hsplit & Hlen).
    rewrite app_nil_r in Hsplit. subst done.
    rewrite chunk_lengths_total in Hlen by lia.
    cbv [wp bind modify ret]. cbn.
    repeat split; assumption.
Qed.

(** One product row. *)
Lemma wp_product (i : Z) (d : date) (w : World F) :
  today w = d ->
  wp (product i) (fun row w' => today w' = d /\ product_ok i row)
     (fun _ _ => False) w.
Proof.
  intros Hd. unfold product.
  apply LoadFacts.wp_bind, wp_np_choice; [discriminate|]. intros cat w1 H1 Hcat.
  apply LoadFacts.wp_bind, wp_np_choice;
    [now apply GenerateFacts.item_of_category|]. intros sub w2 H2 Hsub.
  apply LoadFacts.wp_bind, wp_np_choice; [discriminate|]. intros br w3 H3 Hbr.
  apply LoadFacts.wp_bind, wp_uniform. intros u w4 H4.
  apply LoadFacts.wp_bind, wp_uniform. intros m w5 H5.
  apply LoadFacts.wp_ret. split; [congruence|].
  unfold product_ok. cbn [category subcategory brand product_name cost price].
  repeat (split; [assumption || reflexivity|]). split; eexists; reflexivity.
Qed.

(** All the rows of [generate_products]: the row at position [i] is the
    product of loop index [i]. *)
Lemma wp_generate_products (n : Z) (w : World F) :
  wp (generate_products n)
     (fun rows w' =>
        List.length rows = Z.to_nat n
        /\ (forall i r, nth_error rows i = Some r -> product_ok (Z.of_nat i) r)
        /\ products_csv (files w') = Some rows
        /\ today w' = today w)
     (fun _ _ => False) w.
Proof.
  unfold generate_products. apply LoadFacts.wp_bind.
  eapply LoadFacts.wp_weaken;
    [apply (LoadFacts.wp_for_fold _
              (fun rest acc w' =>
                 today w' = today w
                 /\ (forall i r, nth_error acc i = Some r -> product_ok (Z.of_nat i) r)
                 /\ exists done,
                      py_range 0 n 1 = done ++ rest
                      /\ List.length acc = List.length done)
              (fun _ _ => False))| |auto].
  - intros x rest acc s (Ht & Hok & done & Hsplit & Hlen).
    assert (Hx : x = Z.of_nat (List.length acc)).
    { assert (Hn : nth_error (py_range 0 n 1) (List.length done) = Some x).
      { rewrite Hsplit, nth_error_app2, Nat.sub_diag by lia. reflexivity. }
      apply LoadFacts.py_range_nth in Hn as (-> & _); lia. }
    apply LoadFacts.wp_bind.
    eapply LoadFacts.wp_weaken; [apply wp_product, Ht| |auto].
    intros p s' (Ht' & Hp). apply LoadFacts.wp_ret.
    split; [exact Ht'|]. split.
    + intros i r Hi. destruct (Nat.lt_ge_cases i (List.length acc)) as [Hlt|Hge].
      * rewrite nth_error_app1 in Hi by exact Hlt. now apply Hok.
      * rewrite nth_error_app2 in Hi by exact Hge.
        destruct (i - List.length acc)%nat as [|j] eqn:Hj.
        -- cbn in Hi. injection Hi as <-.
           replace i with (List.length acc) by lia. now rewrite <- Hx.
        -- destruct j; discriminate.
    + exists (done ++ [x]). split; [now rewrite <- app_assoc|].
      rewrite !length_app. cbn. lia.
  - split; [reflexivity|]. split; [intros [|i] r Hi; discriminate|]. exists []. now split.
  - cbn beta. intros rows s' (Ht & Hok & done & Hsplit & Hlen).
    rewrite app_nil_r in Hsplit. subst done.
    rewrite LoadFacts.py_range_unit_length in Hlen.
    cbv [wp bind modify ret]. cbn.
    split; [rewrite Hlen; f_equal; lia|]. split; [exact Hok|]. split; [reflexivity|exact Ht].
Qed.

Lemma generate_customers_length (P : Provider) (n : Z) (w : World F)
    (rows : list CustomerRow) :
  fst (generate_customers P n w) = Ok rows -> List.length rows = Z.to_nat n.
Proof.
  pose proof (wp_generate_customers P n w) as H. unfold wp in H.
  destruct (generate_customers P n w) as [[rows'|e] w']; [|contradiction].
  cbn [fst]. intros Hr. injection Hr as <-. apply H.
Qed.

Lemma generate_products_length (n : Z) (w : World F) (rows : list (ProductRow F)) :
  fst (generate_products n w) = Ok rows -> List.length rows = Z.to_nat n.
Proof.
  pose proof (wp_generate_products n w) as H. unfold wp in H.
  destruct (generate_products n w) as [[rows'|e] w']; [|contradiction].
  cbn [fst]. intros Hr. injection Hr as <-. apply H.
Qed.

(** X1: [generate_customers P n] returns [n] rows (none when [n <= 0]),
    whatever the share of the last batch of 1000, and replaces the customers
    file by them, leaving the two other files as they were. *)
Theorem generate_customers_count (P : Provider) (n : Z) (w : World F) :
  exists rows,
    fst (generate_customers P n w) = Ok rows
    /\ List.length rows = Z.to_nat n
    /\ files (snd (generate_customers P n w))
       = mkFiles (date_dimension_csv (files w)) (Some rows) (products_csv (files w)).
Proof.
  destruct (GenerateFacts.generate_customers_writes P n w) as (rows & Hr & Hf).
  exists rows. split; [exact Hr|]. split; [|exact Hf].
  now apply (generate_customers_length P n w).
Qed.

(** X2: every row of [generate_customers] has the country USA, one of the
    four segments, a phone number of at most 20 characters and a
    registration date between 366 days before the system date and the
    system date itself. *)
Theorem generate_customers_fields (P : Provider) (n : Z) (w : World F) :
  match fst (generate_customers P n w) with
  | Ok rows =>
      forall r, In r rows ->
        country r = "USA"%string
        /\ In (customer_segment r) ["Premium"; "Standard"; "Basic"; "VIP"]%string
        /\ (String.length (phone r) <= 20)%nat
        /\ exists k, 0 <= k <= 366 /\ registration_date r = add_days (today w) (- k)
  | Raise _ => False
  end.
Proof.
  pose proof (wp_generate_customers P n w) as H. unfold wp in H.
  destruct (generate_customers P n w) as [[rows|e] w']; [|contradiction].
  destruct H as (_ & Hok & _). cbn [fst]. intros r Hr.
  rewrite Forall_forall in Hok. exact (Hok r Hr).
Qed.

(** X3: [generate_products n] returns [n] rows and replaces the products
    file by them, leaving the two other files as they were.  The row at
    position [i] is named [brand subcategory i+1], its brand is one of the
    four brands and its subcategory is listed under its category. *)
Theorem generate_products_rows (n : Z) (w : World F) :
  exists rows,
    fst (generate_products n w) = Ok rows
    /\ List.length rows = Z.to_nat n
    /\ files (snd (generate_products n w))
       = mkFiles (date_dimension_csv (files w)) (customers_csv (files w)) (Some rows)
    /\ forall i r, nth_error rows i = Some r ->
         product_name r
         = (brand r ++ " " ++ subcategory r ++ " " ++ str (Z.of_nat i + 1))%string
         /\ In (brand r) brands
         /\ exists subs, In (category r, subs) categories /\ In (subcategory r) subs.
Proof.
  destruct (GenerateFacts.generate_products_writes n w) as (rows & Hr & Hfiles).
  pose proof (wp_generate_products n w) as H. unfold wp in H.
  destruct (generate_products n w) as [[rows'|e] w']; [|contradiction].
  cbn [fst snd] in *. injection Hr as ->.
  destruct H as (Hl & Hok & _). exists rows.
  split; [reflexivity|]. split; [exact Hl|]. split; [exact Hfiles|].
  intros i r Hi. destruct (Hok i r Hi) as (Hcat & Hsub & Hbr & Hname & _).
  split; [exact Hname|]. split; [exact Hbr|].
  exists (item categories (category r)). split; [|exact Hsub].
  revert Hcat. generalize (category r). intros c. cbn.
  intros [<-|[<-|[<-|[<-|[<-|[]]]]]]; cbn; auto 10.
Qed.

(** X5: the generator script run as a program returns, and afterwards the
    three files hold 731 dates, 5000 customers and 500 products, whatever
    they held before. *)
Theorem main_writes_three_files (P : Provider) (w : World F) :
  exists c p,
    fst (main P w) = Ok tt
    /\ files (snd (main P w))
       = mkFiles (Some generate_date_dimension_rows) (Some c) (Some p)
    /\ List.length generate_date_dimension_rows = 731%nat
    /\ Z.of_nat (List.length c) = 5000
    /\ Z.of_nat (List.length p) = 500.
Proof.
  destruct (GenerateFacts.main_outcome P w) as (c & p & Hc & Hp & Hr & Hf).
  exists c, p. split; [exact Hr|]. split; [exact Hf|].
  split; [exact generated_rows_count|].
  apply generate_customers_length in Hc. apply generate_products_length in Hp.
  split; lia.
Qed.

End WithFloat.

End GenerateRows.

(** ** Runs of the loader *)

Module LoadRuns.
Import Load LoadFacts.

Create HintDb untouched.

Section Frames.
Context {F : PyFloat}.

Lemma untouched_ret {A} (a : A) : untouched (F := F) (ret a).
Proof. intros w. now repeat split. Qed.

Lemma untouched_raise {A} (e : exn) : untouched (F := F) (raise (A := A) e).
Proof. intros w. now repeat split. Qed.

Lemma untouched_bind {A B} (m : M (World F) A) (k : A -> M (World F) B) :
  untouched m -> (forall a, untouched (k a)) -> untouched (bind m k).
Proof.
  intros Hm Hk w. specialize (Hm w). unfold bind.
  destruct (m w) as [[a|e] w1]; cbn [snd] in *; [|exact Hm].
  destruct (Hk a w1) as (H1 & H2 & H3). destruct Hm as (G1 & G2 & G3).
  repeat split; congruence.
Qed.

Lemma untouched_for_each {A} (xs : list A) (body : A -> M (World F) unit) :
  (forall x, untouched (body x)) -> untouched (for_each xs body).
Proof.
  intros Hb. induction xs as [|x xs IH]; cbn [for_each].
  - apply untouched_ret.
  - apply untouched_bind; [apply Hb|intros _; exact IH].
Qed.

Lemma untouched_for_fold {A B} (xs : list A) (body : A -> B -> M (World F) B) :
  (forall x acc, untouched (body x acc)) -> forall acc, untouched (for_fold xs body acc).
Proof.
  intros Hb. induction xs as [|x xs IH]; intros acc; cbn [for_fold].
  - apply untouched_ret.
  - apply untouched_bind; [apply Hb|exact IH].
Qed.

Lemma untouched_modify (f : World F -> World F) :
  (forall w, stdout (f w) = stdout w /\ files (f w) = files w /\ fault (f w) = fault w) ->
  untouched (modify f).
Proof. intros H w. apply H. Qed.

Lemma untouched_gets {A} (f : World F -> A) : untouched (gets f).
Proof. intros w. now repeat split. Qed.

Lemma untouched_send : untouched (F := F) send.
Proof. intros w. unfold send. destruct (fault w (clock w)); now repeat split. Qed.

Lemma untouched_np {A} (m : M RNG A) : untouched (F := F) (np m).
Proof. intros w. unfold np. destruct (m (np_random w)). now repeat split. Qed.

Lemma untouched_logged {A} (ev : bool -> Event F) (m : M (World F) A) :
  untouched m -> untouched (logged ev m).
Proof.
  intros H w. specialize (H w). unfold logged. destruct (m w) as [[a|e] w1]; exact H.
Qed.

Lemma untouched_take_key (t : Table) : untouched (F := F) (take_key t).
Proof. intros w. now repeat split. Qed.

Lemma untouched_read_csv {A} (f : Generate.Files F -> option (list A)) :
  untouched (read_csv f).
Proof. intros w. unfold read_csv. destruct (f (files w)); now repeat split. Qed.

Lemma untouched_first_column {A} (row : option A) : untouched (F := F) (first_column row).
Proof. destruct row; [apply untouched_ret|apply untouched_raise]. Qed.

Lemma untouched_execute : untouched (F := F) execute.
Proof.
  unfold execute. apply untouched_bind; [|intros _; apply untouched_send].
  apply untouched_modify. intros w. now repeat split.
Qed.

Lemma untouched_commit : untouched (F := F) commit.
Proof.
  intros w. unfold commit. destruct (in_txn w); [|now repeat split].
  apply untouched_logged. apply untouched_bind; [apply untouched_send|].
  intros _. apply untouched_modify. intros w'. now repeat split.
Qed.

Lemma untouched_rollback : untouched (F := F) rollback.
Proof. intros w. unfold rollback. destruct (in_txn w); now repeat split. Qed.

Lemma untouched_get_connection : untouched (F := F) get_connection.
Proof.
  unfold get_connection. apply untouched_bind; [apply untouched_send|].
  intros _. apply untouched_modify. intros w. now repeat split.
Qed.

Lemma untouched_with_connection {A} (body : M (World F) A) :
  untouched body -> untouched (with_connection body).
Proof.
  intros Hb. unfold with_connection.
  apply untouched_bind; [apply untouched_get_connection|]. intros _ w.
  specialize (Hb w). destruct (body w) as [[a|e] w1]; cbn [snd] in Hb.
  - assert (H : untouched (commit ;; ret a)).
    { apply untouched_bind; [apply untouched_commit|intros _; apply untouched_ret]. }
    destruct (H w1) as (H1 & H2 & H3). destruct Hb as (G1 & G2 & G3).
    repeat split; congruence.
  - assert (H : untouched (rollback ;; raise (A := A) e)).
    { apply untouched_bind; [apply untouched_rollback|intros _; apply untouched_raise]. }
    destruct (H w1) as (H1 & H2 & H3). destruct Hb as (G1 & G2 & G3).
    repeat split; congruence.
Qed.

End Frames.

#[export] Hint Resolve untouched_ret untouched_raise untouched_bind untouched_for_each
  untouched_for_fold untouched_gets untouched_send untouched_np untouched_logged
  untouched_take_key untouched_read_csv untouched_first_column untouched_execute
  untouched_commit untouched_rollback untouched_get_connection
  untouched_with_connection : untouched.
#[export] Hint Extern 1 (untouched (modify _)) =>
  apply untouched_modify; intros; repeat split; reflexivity : untouched.

Section Runs.
Context {F : PyFloat}.

Lemma untouched_load_dimension_tables : untouched (F := F) load_dimension_tables.
Proof.
  unfold load_dimension_tables, insert_date, insert_customer, insert_product.
  auto 20 with untouched.
Qed.

Lemma untouched_generate_and_load_transactions (n : Z) :
  untouched (F := F) (generate_and_load_transactions n).
Proof.
  unfold generate_and_load_transactions, load_batch, transaction, executemany, select.
  auto 30 with untouched.
Qed.

Lemma untouched_verify_data_load : untouched (F := F) verify_data_load.
Proof. unfold verify_data_load. auto 20 with untouched. Qed.

End Runs.

(** *** Blocks that only read *)

Section Reads.
Context {F : PyFloat}.

Lemma read_only_execute : read_only (F := F) execute.
Proof.
  intros w r w' H. apply execute_spec in H as (Hq & Ht & Hn & Hh).
  repeat (split; [assumption|]). intros Hw. exists tt. now apply Hh.
Qed.

Lemma read_only_select {A} (q : Tables F -> A) : read_only (select q).
Proof.
  intros w r w' H. apply select_spec in H as (Hq & Ht & Hn & _ & Hh).
  repeat (split; [assumption|]). intros Hw. eexists. now apply Hh.
Qed.

Lemma read_only_then {A B} (m : M (World F) A) (k : A -> M (World F) B) :
  read_only m -> (forall a, read_only (k a)) -> read_only (bind m k).
Proof.
  intros Hm Hk w r w' H. apply bind_inv in H as [(a & w1 & H1 & H2)|(e & H1 & ->)].
  - apply Hm in H1 as (Hq1 & _ & Hn1 & _). apply Hk in H2 as (Hq2 & Ht2 & Hn2 & Hh2).
    split; [eapply quiet_trans; eauto|]. split; [exact Ht2|]. split; [congruence|].
    intros Hw. apply Hh2. eapply healthy_quiet; eauto.
  - apply Hm in H1 as (Hq1 & Ht1 & Hn1 & Hh1). repeat (split; [assumption|]).
    intros Hw. destruct (Hh1 Hw) as (a & Ha). discriminate.
Qed.

Lemma read_only_map {A B} (m : M (World F) A) (f : A -> B) :
  read_only m -> read_only (bind m (fun a => ret (f a))).
Proof.
  intros Hm w r w' H. apply bind_inv in H as [(a & w1 & H1 & H2)|(e & H1 & ->)].
  - injection H2 as <- <-. apply Hm in H1 as (Hq1 & Ht1 & Hn1 & _).
    repeat (split; [assumption|]). intros _. eauto.
  - apply Hm in H1 as (Hq1 & Ht1 & Hn1 & Hh1). repeat (split; [assumption|]).
    intros Hw. destruct (Hh1 Hw) as (a & Ha). discriminate.
Qed.

Lemma read_only_queries {A} (x : A) (xs : list A) :
  read_only (F := F) (for_each (x :: xs) (fun _ => execute)).
Proof.
  revert x. induction xs as [|y xs IH]; intros x.
  - cbn [for_each]. apply (read_only_map execute (fun _ => tt)), read_only_execute.
  - change (for_each (x :: y :: xs) (fun _ => execute))
      with (bind (execute (F := F)) (fun _ => for_each (y :: xs) (fun _ => execute))).
    apply read_only_then; [apply read_only_execute|intros _; apply IH].
Qed.

Lemma get_connection_run (w w1 : World F) (r : result unit) :
  get_connection w = (r, w1) ->
  files w1 = files w /\ committed w1 = committed w /\ next_key w1 = next_key w
  /\ np_random w1 = np_random w /\ fault w1 = fault w /\ log w1 = log w
  /\ stdout w1 = stdout w
  /\ ((r = Ok tt /\ view w1 = committed w /\ in_txn w1 = false)
      \/ (exists e, r = Raise e /\ ~ healthy w /\ view w1 = view w)).
Proof.
  unfold get_connection, bind, send, modify.
  destruct (fault w (clock w)) eqn:Hf; intros H; injection H as <- <-; cbn.
  - repeat (split; [reflexivity|]). right. eexists. split; [reflexivity|].
    split; [|reflexivity]. intros Hw. now rewrite Hw in Hf.
  - repeat (split; [reflexivity|]). left. now repeat split.
Qed.

(** A block that only reads, run under a connection: the tables, the
    sequences, the random source and the files are as before; the log gains
    the closing commit or the rollback. *)
Lemma reads_under_connection {A} (body : M (World F) A) (w : World F) :
  read_only body ->
  let r := fst (with_connection body w) in
  let w' := snd (with_connection body w) in
  committed w' = committed w /\ files w' = files w /\ next_key w' = next_key w
  /\ np_random w' = np_random w /\ stdout w' = stdout w
  /\ (exists added, log w' = log w ++ added /\ closing added)
  /\ (healthy w -> (exists a, r = Ok a) /\ log w' = log w ++ [Commit true]).
Proof.
  intros Hb r w'. subst r w'. unfold with_connection, bind.
  destruct (get_connection w) as [[[]|e] w1] eqn:Hg;
    apply get_connection_run in Hg
      as (Hfi & Hc & Hk & Hn & Hf & Hl & Hs & [(Hr & Hv & Ht)|(e' & He & Hh & _)]);
    try discriminate; cbn [fst snd].
  2:{ repeat (split; [assumption|]). split.
      - exists []. rewrite app_nil_r. split; [exact Hl|now left].
      - intros Hw. contradiction. }
  destruct (body w1) as [rb w2] eqn:Hrun.
  apply Hb in Hrun as ((Gfi & Gc & Gv & Gk & Gf & Gl & Gs) & Gt & Gn & Gh).
  assert (Hh1 : healthy w -> healthy w1) by (intros Hw k; rewrite Hf; apply Hw).
  destruct rb as [a|e].
  - unfold commit. rewrite Gt. unfold logged, bind, send, modify.
    destruct (fault w2 (clock w2)) eqn:Hfault; cbn.
    + repeat (split; [congruence|]). split.
      * exists [Commit false]. split; [congruence|]. right. right. now right.
      * intros Hw. exfalso. rewrite Gf, Hf, Hw in Hfault. discriminate.
    + repeat (split; [congruence|]). split.
      * exists [Commit true]. split; [congruence|]. right. right. now left.
      * intros Hw. split; [eauto|congruence].
  - rewrite rollback_spec, Gt. cbn.
    repeat (split; [congruence|]). split.
    + exists [Rollback]. split; [congruence|]. right. now left.
    + intros Hw. destruct (Gh (Hh1 Hw)) as (a & Ha). discriminate.
Qed.


(** What the later steps of [main] need of [verify_data_load]. *)
Lemma verify_run (w : World F) :
  committed (snd (verify_data_load w)) = committed w
  /\ (healthy w -> fst (verify_data_load w) = Ok tt).
Proof.
  unfold verify_data_load.
  match goal with |- context [with_connection ?b] =>
    pose proof (reads_under_connection b w) as H end.
  cbv zeta in H.
  destruct H as (H1 & _ & _ & _ & _ & _ & H7).
  { apply read_only_then; [apply read_only_queries|intros _; apply read_only_execute]. }
  split; [exact H1|]. intros Hw. destruct (H7 Hw) as ((a & Ha) & _).
  rewrite Ha. now destruct a.
Qed.

(** X6: asked for no transaction ([n <= 0]), the loader reads the three key
    lists and nothing else: the tables and the random source are as before,
    nothing is inserted, and with a server that does not fail the run returns
    after the commit that closes the connection. *)
Theorem no_transactions_requested (n : Z) (w : World F) :
  n <= 0 ->
  let r := fst (generate_and_load_transactions n w) in
  let w' := snd (generate_and_load_transactions n w) in
  committed w' = committed w /\ np_random w' = np_random w
  /\ (exists added, log w' = log w ++ added /\ closing added)
  /\ (healthy w -> r = Ok tt /\ log w' = log w ++ [Commit true]).
Proof.
  intros Hn r w'. subst r w'. unfold generate_and_load_transactions.
  rewrite (py_range_empty n batch_size eq_refl Hn). cbn [for_each].
  match goal with |- context [with_connection ?b] =>
    pose proof (reads_under_connection b w) as H end.
  cbv zeta in H.
  destruct H as (H1 & H2 & H3 & H4 & H5 & H6 & H7).
  { apply read_only_then; [apply read_only_select|intros c].
    apply read_only_then; [apply read_only_select|intros p].
    apply (read_only_map _ (fun _ => tt)), read_only_select. }
  split; [exact H1|]. split; [exact H4|]. split; [exact H6|].
  intros Hw. destruct (H7 Hw) as ((a & Ha) & Hl).
  split; [|exact Hl]. rewrite Ha. now destruct a.
Qed.

(** *** Runs of the loader *)

(** Why the block of [load_dimension_tables] can raise. *)
Lemma load_block_cause (w1 w2 : World F) (e : exn) :
  (dates_df <- read_csv Generate.date_dimension_csv ;;
   for_each dates_df insert_date ;;
   customers_df <- read_csv Generate.customers_csv ;;
   for_each customers_df insert_customer ;;
   products_df <- read_csv Generate.products_csv ;;
   for_each products_df insert_product ;;
   commit) w1 = (Raise e, w2) ->
  ~ healthy w1 \/ (e = FileNotFoundError /\ missing_file (files w1)).
Proof.
  intros H.
  assert (Hun : forall wa, fault wa = fault w1 -> ~ healthy wa -> ~ healthy w1).
  { intros wa Hf Hh Hw. apply Hh. intros k. rewrite Hf. apply Hw. }
  apply bind_inv in H as [(ds & wx & Hr & H)|(e0 & Hr & He)];
    apply read_csv_spec in Hr as (-> & [(ds' & Hds' & Hfd)|(Hds' & Hnone)]);
    try discriminate.
  2:{ right. injection He as ->. injection Hds' as ->. split; [reflexivity|now left]. }
  clear Hds'.
  apply bind_inv in H as [(u & wa & Hd & H)|(e0 & Hd & He)];
    apply insert_dates_spec in Hd
      as (_ & Hfa & Hfia & [(Hra & _)|(e' & added & Hra & Hh & _)]);
    try discriminate.
  2:{ now left. }
  apply bind_inv in H as [(cs & wx & Hr & H)|(e0 & Hr & He)];
    apply read_csv_spec in Hr as (-> & [(cs' & Hcs' & Hfc)|(Hcs' & Hnone)]);
    try discriminate.
  2:{ right. injection He as ->. injection Hcs' as ->. split; [reflexivity|].
      right. left. congruence. }
  clear Hcs'.
  apply bind_inv in H as [(u' & wb & Hc & H)|(e0 & Hc & He)];
    apply insert_customers_spec in Hc
      as (_ & Hfb & Hfib & [(Hrb & _)|(e' & added & Hrb & Hh & _)]);
    try discriminate.
  2:{ left. now apply (Hun wa). }
  apply bind_inv in H as [(ps & wx & Hr & H)|(e0 & Hr & He)];
    apply read_csv_spec in Hr as (-> & [(ps' & Hps' & Hfp)|(Hps' & Hnone)]);
    try discriminate.
  2:{ right. injection He as ->. injection Hps' as ->. split; [reflexivity|].
      right. right. congruence. }
  clear Hps'.
  apply bind_inv in H as [(u'' & wc & Hp & H)|(e0 & Hp & He)];
    apply insert_products_spec in Hp
      as (_ & Hfc' & Hfic & [(Hrc & _)|(e' & added & Hrc & Hh & _)]);
    try discriminate.
  2:{ left. apply (Hun wb); [congruence|assumption]. }
  apply commit_spec in H as (_ & _ & [(_ & Hr & _)|[(_ & Hr & _)|(_ & e' & _ & Hh & _)]]);
    try discriminate.
  left. apply (Hun wc); [congruence|assumption].
Qed.

(** What a run of [load_dimension_tables] leaves. *)
Lemma load_run (w w' : World F) (r : result unit) :
  load_dimension_tables w = (r, w') ->
  match r with
  | Ok _ =>
      exists ds cs ps,
        Generate.date_dimension_csv (files w) = Some ds
        /\ Generate.customers_csv (files w) = Some cs
        /\ Generate.products_csv (files w) = Some ps
        /\ date_dimension (committed w')
           = date_dimension (committed w) ++ keyed (next_key w DateDimension) ds
        /\ customers (committed w')
           = customers (committed w) ++ keyed (next_key w Customers) cs
        /\ products (committed w')
           = products (committed w) ++ keyed (next_key w Products) ps
        /\ sales_transactions (committed w') = sales_transactions (committed w)
  | Raise e =>
      committed w' = committed w
      /\ (~ healthy w \/ (e = FileNotFoundError /\ missing_file (files w)))
  end.
Proof.
  intros Hrun. unfold load_dimension_tables, with_connection in Hrun.
  apply bind_inv in Hrun as [(u & w1 & Hg & H)|(e & Hg & ->)].
  2:{ apply get_connection_spec in Hg as (_ & Hc & _ & [(Hr & _)|(e' & _ & Hh)]);
        [discriminate|]. split; [exact Hc|now left]. }
  pose proof (get_connection_frame _ _ _ Hg) as (Hfi & Hk).
  apply get_connection_spec in Hg as (Hf & Hc & Hl & [(_ & Hv & Ht)|(e' & He & _)]);
    [|discriminate].
  assert (Hv1 : view w1 = committed w1) by congruence.
  match type of H with
  | (match ?body w1 with _ => _ end) = _ => destruct (body w1) as [rb w2] eqn:Hb
  end.
  pose proof Hb as Hb'.
  apply (load_block_spec w1 w2 rb Hv1 Ht) in Hb
    as (Hf2 & [(-> & Ht2 & ds & cs & ps & H1 & H2 & H3 & H4 & H5 & H6 & H7 & H8)
              |(e & added & -> & Hc2 & Hl2 & Hno)]).
  - unfold bind, commit in H. rewrite Ht2 in H. cbn in H. injection H as <- <-.
    exists ds, cs, ps. rewrite Hfi, Hk, Hc in *. now repeat split.
  - unfold bind in H. rewrite rollback_spec in H. cbn in H. injection H as <- <-.
    split.
    + destruct (in_txn w2); cbn; congruence.
    + apply load_block_cause in Hb' as [Hh|(-> & Hm)].
      * left. intros Hw. apply Hh. intros k. rewrite Hf. apply Hw.
      * right. split; [reflexivity|]. now rewrite <- Hfi.
Qed.

(** With the three files present and a server that does not fail, the
    load returns. *)
Lemma load_returns (w : World F) (ds : list DateRow) (cs : list Generate.CustomerRow)
    (ps : list (Generate.ProductRow F)) :
  healthy w ->
  Generate.date_dimension_csv (files w) = Some ds ->
  Generate.customers_csv (files w) = Some cs ->
  Generate.products_csv (files w) = Some ps ->
  exists w',
    load_dimension_tables w = (Ok tt, w')
    /\ healthy w' /\ files w' = files w /\ stdout w' = stdout w
    /\ date_dimension (committed w')
       = date_dimension (committed w) ++ keyed (next_key w DateDimension) ds
    /\ customers (committed w')
       = customers (committed w) ++ keyed (next_key w Customers) cs
    /\ products (committed w')
       = products (committed w) ++ keyed (next_key w Products) ps
    /\ sales_transactions (committed w') = sales_transactions (committed w).
Proof.
  intros Hw Hd Hc Hp.
  destruct (untouched_load_dimension_tables w) as (Hs & Hfi & Hf).
  destruct (load_dimension_tables w) as [r w'] eqn:Hrun. cbn [snd] in *.
  apply load_run in Hrun. destruct r as [[]|e].
  - destruct Hrun as (ds' & cs' & ps' & H1 & H2 & H3 & H4 & H5 & H6 & H7).
    exists w'. split; [reflexivity|].
    split; [intros k; rewrite Hf; apply Hw|].
    split; [exact Hfi|]. split; [exact Hs|].
    replace ds with ds' by congruence. replace cs with cs' by congruence.
    replace ps with ps' by congruence. now repeat split.
  - exfalso. destruct Hrun as (_ & [Hh|(_ & [Hm|[Hm|Hm]])]); [contradiction|congruence..].
Qed.

(** With a server that does not fail and dimension tables that are not
    empty, the generation returns with [n] new rows committed. *)
Lemma generation_returns (n : Z) (w : World F) :
  0 <= n -> healthy w ->
  (0 < n -> customers (committed w) <> [] /\ products (committed w) <> []
            /\ date_dimension (committed w) <> []) ->
  exists new w',
    generate_and_load_transactions n w = (Ok tt, w')
    /\ committed w' = add_sales new (committed w)
    /\ List.length new = Z.to_nat n
    /\ Forall (good (committed w)) new.
Proof.
  intros Hn Hh Hfull.
  destruct (generate_and_load_transactions n w) as [r w'] eqn:Hrun.
  pose proof (run_outcome n w w' r Hrun)
    as (bs & done & rest & tail & Hsplit & Hreach & Hl & _ & Hres).
  destruct r as [[]|e].
  2:{ exfalso. destruct Hres as (_ & _ & [Hbad|(Hst & _ & _ & Hrest)]); [now apply Hbad|].
      assert (Hpos : 0 < n).
      { destruct (Z.ltb_spec 0 n) as [|Hle]; [assumption|].
        rewrite (py_range_empty n batch_size eq_refl Hle) in Hsplit.
        symmetry in Hsplit. apply app_eq_nil in Hsplit as [_ Hsplit]. contradiction. }
      destruct (Hfull Hpos) as (Hc & Hp & Hd).
      destruct Hst as [Hst|[Hst|Hst]]; apply map_eq_nil in Hst; contradiction. }
  destruct Hres as (-> & Hv & Htail). rewrite app_nil_r in Hsplit. subst done.
  destruct Hreach as (_ & Hc & Hg & Hs).
  exists (concat bs), w'. split; [reflexivity|]. split; [exact Hc|]. split.
  - rewrite length_concat, (sized_lengths n bs _ Hs). now apply batch_lengths_total.
  - apply Forall_concat, Hg.
Qed.


Lemma keyed_rows {R} (rows : list R) : forall k, map snd (keyed k rows) = rows.
Proof. induction rows as [|r rows IH]; intros k; cbn; [reflexivity|]. now rewrite IH. Qed.

Lemma keyed_not_empty {R} (k : Z) (l : list (Z * R)) (rows : list R) :
  rows <> [] -> l ++ keyed k rows <> [].
Proof.
  intros Hne H. apply app_eq_nil in H as [_ H]. destruct rows; [contradiction|discriminate].
Qed.

(** X7: [verify_data_load] only reads: the tables, the sequences, the files
    and the random source are as before, whether it returns or raises; the
    log gains at most the commit or the rollback that closes the connection;
    with a server that does not fail it returns. *)
Theorem verify_data_load_only_reads (w : World F) :
  let r := fst (verify_data_load w) in
  let w' := snd (verify_data_load w) in
  committed w' = committed w /\ files w' = files w /\ next_key w' = next_key w
  /\ np_random w' = np_random w /\ stdout w' = stdout w
  /\ (exists added, log w' = log w ++ added /\ closing added)
  /\ (healthy w -> r = Ok tt /\ log w' = log w ++ [Commit true]).
Proof.
  intros r w'. subst r w'. unfold verify_data_load.
  match goal with |- context [with_connection ?b] =>
    pose proof (reads_under_connection b w) as H end.
  cbv zeta in H.
  destruct H as (H1 & H2 & H3 & H4 & H5 & H6 & H7).
  { apply read_only_then; [apply read_only_queries|intros _; apply read_only_execute]. }
  repeat (split; [assumption|]). intros Hw. destruct (H7 Hw) as ((a & Ha) & Hl).
  split; [|exact Hl]. rewrite Ha. now destruct a.
Qed.

(** X8: [main] of the loader never raises and never writes the files.  Of
    its two closing messages it prints exactly one: the completion message
    when the three steps returned, and otherwise the exception of the first
    step that raised (the steps after it are not run).  Its handler undoes
    nothing: once the dimensions are loaded, the tables at the end are those
    the generation step left, also when the generation or the verification
    raised. *)
Theorem loader_main_always_returns (w : World F) :
  let s1 := load_dimension_tables w in
  let s2 := generate_and_load_transactions 85000 (snd s1) in
  let s3 := verify_data_load (snd s2) in
  fst (main w) = Ok tt
  /\ files (snd (main w)) = files w
  /\ (fst s1 = Ok tt -> committed (snd (main w)) = committed (snd s2))
  /\ stdout (snd (main w))
     = stdout w
       ++ [match fst s1 with
           | Raise e => ErrorDuringDataLoading e
           | Ok _ =>
               match fst s2 with
               | Raise e => ErrorDuringDataLoading e
               | Ok _ =>
                   match fst s3 with
                   | Raise e => ErrorDuringDataLoading e
                   | Ok _ => DataLoadingCompleted
                   end
               end
           end].
Proof.
  intros s1 s2 s3. subst s1 s2 s3. unfold main, try_except, bind.
  destruct (untouched_load_dimension_tables w) as (Hs1 & Hf1 & _).
  destruct (load_dimension_tables w) as [r1 w1]. cbn [fst snd] in *.
  destruct r1 as [[]|e1].
  2:{ cbn. split; [reflexivity|]. split; [exact Hf1|]. split; [discriminate|].
      now rewrite Hs1. }
  destruct (untouched_generate_and_load_transactions 85000 w1) as (Hs2 & Hf2 & _).
  destruct (generate_and_load_transactions 85000 w1) as [r2 w2]. cbn [fst snd] in *.
  destruct r2 as [[]|e2].
  2:{ cbn. split; [reflexivity|]. split; [congruence|]. split; [reflexivity|].
      now rewrite Hs2, Hs1. }
  destruct (untouched_verify_data_load w2) as (Hs3 & Hf3 & _).
  pose proof (verify_run w2) as (Hc3 & _).
  destruct (verify_data_load w2) as [r3 w3]. cbn [fst snd] in *.
  destruct r3 as [[]|e3]; cbn;
    (split; [reflexivity|]); (split; [congruence|]); (split; [intros _; exact Hc3|]);
    now rewrite Hs3, Hs2, Hs1.
Qed.

(** X9: with the three files present and not empty and a server that does
    not fail, [main] prints the completion message; the warehouse then holds
    the rows of the three files under keys taken from the sequences and 85000
    new fact rows, each of which refers to a customer, a product and a date
    of the warehouse. *)
Theorem main_loads_the_warehouse (w : World F) (ds : list DateRow)
    (cs : list Generate.CustomerRow) (ps : list (Generate.ProductRow F)) :
  healthy w ->
  Generate.date_dimension_csv (files w) = Some ds ->
  Generate.customers_csv (files w) = Some cs ->
  Generate.products_csv (files w) = Some ps ->
  ds <> [] -> cs <> [] -> ps <> [] ->
  let t := committed w in
  let t' := committed (snd (main w)) in
  fst (main w) = Ok tt
  /\ stdout (snd (main w)) = stdout w ++ [DataLoadingCompleted]
  /\ date_dimension t' = date_dimension t ++ keyed (next_key w DateDimension) ds
  /\ customers t' = customers t ++ keyed (next_key w Customers) cs
  /\ products t' = products t ++ keyed (next_key w Products) ps
  /\ exists new,
       sales_transactions t' = sales_transactions t ++ new
       /\ Z.of_nat (List.length new) = 85000
       /\ forall r, In r new ->
            In (customer_id r) (map fst (customers t'))
            /\ In (product_id r) (map fst (products t'))
            /\ In (date_id r) (map fst (date_dimension t')).
Proof.
  intros Hw Hd Hc Hp Hds Hcs Hps t t'. subst t t'.
  destruct (load_returns w ds cs ps Hw Hd Hc Hp)
    as (w1 & Hload & Hw1 & Hfi1 & Hs1 & T1 & T2 & T3 & T4).
  destruct (generation_returns 85000 w1) as (new & w2 & Hgen & Hc2 & Hlen & Hgood);
    [lia|exact Hw1| |].
  { intros _. rewrite T1, T2, T3. repeat split; now apply keyed_not_empty. }
  destruct (untouched_generate_and_load_transactions 85000 w1) as (Hs2 & _ & Hf2).
  rewrite Hgen in Hs2, Hf2. cbn [snd] in Hs2, Hf2.
  assert (Hw2 : healthy w2) by (intros k; rewrite Hf2; apply Hw1).
  destruct (verify_run w2) as (Hc3 & Hok).
  destruct (untouched_verify_data_load w2) as (Hs3 & _).
  pose proof (Hok Hw2) as Hr3.
  unfold main, try_except, bind. rewrite Hload, Hgen.
  destruct (verify_data_load w2) as [r3 w3]. cbn [fst snd] in *. subst r3. cbn.
  rewrite Hc3, Hc2. cbn [add_sales date_dimension customers products sales_transactions].
  split; [reflexivity|]. split; [congruence|].
  split; [exact T1|]. split; [exact T2|]. split; [exact T3|].
  exists new. split; [now rewrite T4|]. split; [lia|].
  intros r Hr. rewrite Forall_forall in Hgood. destruct (Hgood r Hr) as (Hk & _).
  exact Hk.
Qed.

(** X10: [load_dimension_tables] does nothing against duplicates: run
    twice on the same files, with no statement failing, it stores every row
    of every dimension file twice. *)
Theorem loading_twice_duplicates (w : World F) (ds : list DateRow)
    (cs : list Generate.CustomerRow) (ps : list (Generate.ProductRow F)) :
  healthy w ->
  Generate.date_dimension_csv (files w) = Some ds ->
  Generate.customers_csv (files w) = Some cs ->
  Generate.products_csv (files w) = Some ps ->
  let t := committed w in
  let w1 := snd (load_dimension_tables w) in
  let t2 := committed (snd (load_dimension_tables w1)) in
  fst (load_dimension_tables w) = Ok tt
  /\ fst (load_dimension_tables w1) = Ok tt
  /\ map snd (date_dimension t2) = map snd (date_dimension t) ++ ds ++ ds
  /\ map snd (customers t2) = map snd (customers t) ++ cs ++ cs
  /\ map snd (products t2) = map snd (products t) ++ ps ++ ps.
Proof.
  intros Hw Hd Hc Hp t w1 t2. subst t w1 t2.
  destruct (load_returns w ds cs ps Hw Hd Hc Hp)
    as (w1 & Hload & Hw1 & Hfi1 & _ & T1 & T2 & T3 & _).
  rewrite Hload. cbn [fst snd]. rewrite <- Hfi1 in Hd, Hc, Hp.
  destruct (load_returns w1 ds cs ps Hw1 Hd Hc Hp)
    as (w2 & Hload2 & _ & _ & _ & U1 & U2 & U3 & _).
  rewrite Hload2. cbn [fst snd].
  split; [reflexivity|]. split; [reflexivity|].
  rewrite U1, U2, U3, T1, T2, T3, !map_app, !keyed_rows, <- !app_assoc.
  now repeat split.
Qed.

(** X11: when one of the three files is missing (and the server does not
    fail), [load_dimension_tables] raises [FileNotFoundError] with nothing
    committed, also of the files read before the missing one; [main] prints
    that exception and leaves the warehouse as it was. *)
Theorem missing_file_stops_the_load (w : World F) :
  healthy w -> missing_file (files w) ->
  fst (load_dimension_tables w) = Raise FileNotFoundError
  /\ committed (snd (load_dimension_tables w)) = committed w
  /\ fst (main w) = Ok tt
  /\ stdout (snd (main w)) = stdout w ++ [ErrorDuringDataLoading FileNotFoundError]
  /\ committed (snd (main w)) = committed w.
Proof.
  intros Hw Hm.
  pose proof (main_reports_load_failure w) as Hmain.
  destruct (untouched_load_dimension_tables w) as (Hs & _).
  destruct (load_dimension_tables w) as [r w'] eqn:Hrun. cbn [fst snd] in *.
  apply load_run in Hrun. destruct r as [[]|e].
  - exfalso. destruct Hrun as (ds & cs & ps & H1 & H2 & H3 & _).
    destruct Hm as [Hm|[Hm|Hm]]; congruence.
  - destruct Hrun as (Hc & [Hh|(-> & _)]); [contradiction|].
    split; [reflexivity|]. split; [exact Hc|].
    rewrite (Hmain _ eq_refl). cbn. split; [reflexivity|]. split; [now rewrite Hs|exact Hc].
Qed.

End Reads.

Lemma no_transactions_requested_witness :
  let w := small_world (F := Exact.exact)
             [(7, sample_product (of_decimal 1005 2))] sample_dates (fun _ => 0%nat) in
  committed (snd (generate_and_load_transactions (-3) w)) = committed w.
Proof.
  intros w.
  destruct (no_transactions_requested (F := Exact.exact) (-3) w) as (H & _).
  - lia.
  - exact H.
Defined.

Lemma main_loads_the_warehouse_witness :
  fst (main (fresh_world (F := Exact.exact) (fun _ => false))) = Ok tt.
Proof.
  refine (proj1 (main_loads_the_warehouse (F := Exact.exact)
                   (fresh_world (fun _ => false)) _ _ _ _ eq_refl eq_refl eq_refl _ _ _)).
  - intros k. reflexivity.
  - discriminate.
  - discriminate.
  - discriminate.
Defined.

Lemma loading_twice_duplicates_witness :
  let w := fresh_world (F := Exact.exact) (fun _ => false) in
  fst (load_dimension_tables (snd (load_dimension_tables w))) = Ok tt.
Proof.
  intros w.
  destruct (loading_twice_duplicates (F := Exact.exact) w _ _ _
              (fun _ => eq_refl) eq_refl eq_refl eq_refl) as (_ & H & _).
  exact H.
Defined.

Lemma missing_file_stops_the_load_witness :
  let w := small_world (F := Exact.exact)
             [(7, sample_product (of_decimal 1005 2))] sample_dates (fun _ => 0%nat) in
  fst (load_dimension_tables w) = Raise FileNotFoundError.
Proof.
  intros w.
  destruct (missing_file_stops_the_load (F := Exact.exact) w) as (H & _).
  - intros k. reflexivity.
  - left. reflexivity.
  - exact H.
Defined.

End LoadRuns.

(** ** The quarter and week columns *)

(** X14: in every row of the date dimension the quarter is between 1 and
    4 and is the quarter of the month, and the week is the ISO 8601 week of
    the date: between 1 and 53, numbered by the Thursday of the date's
    week. *)
Theorem date_dimension_quarters_and_weeks :
  forall r, In r generate_date_dimension_rows ->
    1 <= quarter r <= 4
    /\ 3 * quarter r - 2 <= month r <= 3 * quarter r
    /\ 1 <= week_of_year r <= 53
    /\ week_of_year r = week_of_thursday (date_value r).
Proof.
  assert (H : forallb quarter_and_week_ok generate_date_dimension_rows = true)
    by (vm_compute; reflexivity).
  rewrite forallb_forall in H. intros r Hr. specialize (H r Hr).
  unfold quarter_and_week_ok in H.
  repeat (apply andb_prop in H as [H ?]).
  rewrite ?Z.leb_le, ?Z.eqb_eq in *. lia.
Qed.

Lemma date_dimension_quarters_and_weeks_witness :
  1 <= quarter (date_row (mkDate 2024 12 31)) <= 4.
Proof.
  refine (proj1 (date_dimension_quarters_and_weeks (date_row (mkDate 2024 12 31)) _)).
  apply (nth_error_In _ 730). vm_compute. reflexivity.
Defined.

(** ** Runs of the analytics *)

Module AnalyticsRuns.
Import Analytics AnalyticsFacts.

(** Either every query of a list succeeds, or there is a first one that
    raises. *)
Lemma first_failure (w : World) (rs : list Report) :
  (forall x, In x rs -> query_error w x = None)
  \/ exists pre r post e,
       rs = pre ++ r :: post
       /\ (forall x, In x pre -> query_error w x = None)
       /\ query_error w r = Some e.
Proof.
  induction rs as [|r rs IH].
  - left. intros x [].
  - destruct (query_error w r) as [e|] eqn:Hr.
    + right. exists [], r, rs, e. split; [reflexivity|]. split; [intros x []|exact Hr].
    + destruct IH as [Hall|(pre & r' & post & e & -> & Hpre & He)].
      * left. intros x [<-|Hx]; auto.
      * right. exists (r :: pre), r', post, e. split; [reflexivity|].
        split; [|exact He]. intros x [<-|Hx]; auto.
Qed.

(** A run whose first failing query is that of [r]. *)
Lemma main_until_failure (w : World) (pre post : list Report) (r : Report) (e : exn) :
  battery = pre ++ r :: post ->
  (forall x, In x pre -> query_error w x = None) ->
  query_error w r = Some e ->
  main w = (Ok tt, mkWorld (query_error w)
                     (stdout w ++ Banner :: printed pre
                               ++ [Header r; ErrorRunningAnalytics e])).
Proof.
  intros Hb Hpre Hr.
  rewrite main_as_loop, Hb. unfold bind at 1. cbn [print modify].
  unfold try_except. unfold bind at 1. rewrite for_each_app. unfold bind at 1.
  rewrite reports_until_failure; [|exact (ret tt)|exact Hpre].
  cbn [for_each]. unfold bind at 1. rewrite report_raises with (e := e) by exact Hr.
  unfold print, modify, printed. cbn [query_error stdout]. f_equal. f_equal.
  rewrite <- !app_assoc. reflexivity.
Qed.

(** A run in which every query succeeds. *)
Lemma main_without_failure (w : World) :
  (forall x, In x battery -> query_error w x = None) ->
  main w = (Ok tt, mkWorld (query_error w)
                     (stdout w ++ Banner :: printed battery ++ [AnalyticsCompleted])).
Proof.
  intros Hok. rewrite main_as_loop. unfold bind at 1. cbn [print modify].
  unfold try_except, bind.
  rewrite reports_until_failure; [|exact (ret tt)|exact Hok].
  unfold print, modify, printed. cbn [query_error stdout]. f_equal. f_equal.
  rewrite <- !app_assoc. reflexivity.
Qed.

(** X12: when every query succeeds, the analytics [main] prints the banner,
    then title and frame of the six reports in the order of the script, the
    top customers and the product performance with their default limit of 10,
    then the completion message. *)
Theorem main_prints_every_report (w : World) :
  (forall x, In x battery -> query_error w x = None) ->
  fst (main w) = Ok tt
  /\ stdout (snd (main w))
     = stdout w
       ++ [Banner;
           Header SalesByMonth; Frame SalesByMonth;
           Header (TopCustomers 10); Frame (TopCustomers 10);
           Header (ProductPerformance 10); Frame (ProductPerformance 10);
           Header SalesByCategory; Frame SalesByCategory;
           Header CustomerSegmentAnalysis; Frame CustomerSegmentAnalysis;
           Header WeekendVsWeekdaySales; Frame WeekendVsWeekdaySales;
           AnalyticsCompleted].
Proof.
  intros Hok.
  assert (H : main w
              = (Ok tt, mkWorld (query_error w)
                          (stdout w ++ Banner :: printed battery ++ [AnalyticsCompleted]))).
  { rewrite main_as_loop. unfold bind at 1. cbn [print modify].
    unfold try_except, bind.
    rewrite reports_until_failure; [|exact (ret tt)|exact Hok].
    unfold print, modify, printed. cbn [query_error stdout]. f_equal. f_equal.
    rewrite <- !app_assoc. reflexivity. }
  rewrite H. split; reflexivity.
Qed.

Lemma main_prints_every_report_witness :
  fst (main (mkWorld (fun _ => None) [])) = Ok tt.
Proof.
  refine (proj1 (main_prints_every_report (mkWorld (fun _ => None) []) _)).
  intros x _. reflexivity.
Defined.

(** X13: the analytics [main] never raises, whatever the queries do.  Either
    every query succeeds, and it prints the banner, the six reports and the
    completion message; or there is a first query that raises, and it prints
    the banner, the reports before that one, the title of that one and, as
    its one closing line, the exception that this query raised. *)
Theorem analytics_main_always_returns (w : World) :
  fst (main w) = Ok tt
  /\ query_error (snd (main w)) = query_error w
  /\ (((forall x, In x battery -> query_error w x = None)
       /\ stdout (snd (main w))
          = stdout w ++ Banner :: printed battery ++ [AnalyticsCompleted])
      \/ (exists pre r post e,
            battery = pre ++ r :: post
            /\ (forall x, In x pre -> query_error w x = None)
            /\ query_error w r = Some e
            /\ stdout (snd (main w))
               = stdout w ++ Banner :: printed pre
                          ++ [Header r; ErrorRunningAnalytics e])).
Proof.
  destruct (first_failure w battery) as [Hall|(pre & r & post & e & Hb & Hpre & Hr)].
  - rewrite (main_without_failure w Hall). cbn [fst snd query_error stdout].
    split; [reflexivity|]. split; [reflexivity|]. left. now split.
  - rewrite (main_until_failure w pre post r e Hb Hpre Hr). cbn [fst snd query_error stdout].
    split; [reflexivity|]. split; [reflexivity|]. right.
    exists pre, r, post, e. now repeat split.
Qed.

End AnalyticsRuns.
